(** * Fan Club networking back-end (FCCommunicator): a shallow embedding

    Source: [master/fc/backend/mkiii/FCCommunicator.py].

    The communicator runs one listener thread, one worker thread per
    registered slave, an input thread and an output thread.  Each thread
    body is embedded as a function in a small state-and-exception monad
    that also records the externally visible effects (datagrams handed to
    a socket, vectors written to a pipe, lines printed, threads started)
    as a trace of events.  What a thread reads from its environment (the
    datagrams that arrive, the outcome of the bounded-wait lock acquire,
    the random name for a new slave, the port the OS gives to a fresh
    socket) is an explicit argument. *)

From Stdlib Require Import ZArith Lia Ascii Sorted.
From stdpp Require Import gmap strings list pretty.

Open Scope string_scope.
Open Scope list_scope.

(** ** The Python run time

    Conversions done by Python builtins and by numpy are parameters of the
    development: [py_int] is [int(str)], [py_float] is [float(str)],
    [np_int_fits] tells whether an integer can be stored in a numpy array
    of [dtype=int], and [str_float] is how [str.format] prints a float.
    Floats are never computed with, only parsed, stored and printed.
    [CTL_I_VECTOR_DC_OFFSET] is the constant of that name in
    [fc.standards]: where the duty cycles start in a control vector. *)

Class Runtime := {
  float : Type;
  float_zero : float;
  py_int : string -> option Z;
  py_float : string -> option float;
  np_int_fits : Z -> bool;
  str_float : float -> string;
  CTL_I_VECTOR_DC_OFFSET : nat
}.

(** A small concrete run time, used to evaluate the model on examples:
    decimal integers with an optional sign, floats restricted to the
    integers, 64-bit numpy integers. *)

Definition digit_of (c : ascii) : option Z :=
  let n := Z.of_nat (nat_of_ascii c) in
  if ((48 <=? n) && (n <=? 57))%Z then Some (n - 48)%Z else None.

Fixpoint dec_digits (acc : Z) (s : string) : option Z :=
  match s with
  | EmptyString => Some acc
  | String c s' =>
      match digit_of c with
      | Some d => dec_digits (10 * acc + d)%Z s'
      | None => None
      end
  end.

Definition dec_int (s : string) : option Z :=
  match s with
  | EmptyString => None
  | String "-" (String c s') => Z.opp <$> dec_digits 0 (String c s')
  | String "+" (String c s') => dec_digits 0 (String c s')
  | _ => dec_digits 0 s
  end.

Definition int64_fits (z : Z) : bool :=
  ((- 2 ^ 63 <=? z) && (z <? 2 ^ 63))%Z.

Definition test_runtime : Runtime := {|
  float := Z;
  float_zero := 0%Z;
  py_int := dec_int;
  py_float := dec_int;
  np_int_fits := int64_fits;
  str_float := pretty;
  CTL_I_VECTOR_DC_OFFSET := 1
|}.

(** ** Exceptions and the thread monad *)

Inductive exn :=
| IndexError | ValueError | UnicodeDecodeError | NameError | TypeError
| AttributeError | OverflowError | QueueFull.

#[global] Instance exn_eq_dec : EqDecision exn.
Proof. solve_decision. Defined.

(** [UnicodeDecodeError] is a subclass of [ValueError]. *)
Definition is_ValueError (e : exn) : bool :=
  match e with ValueError | UnicodeDecodeError => true | _ => false end.

Definition is_IndexError (e : exn) : bool :=
  match e with IndexError => true | _ => false end.

Section Monad.
Context {E S : Type}.

(** A computation runs on a state [S], may raise, and emits events [E].
    State changes made before a raise are kept, as in Python. *)
Definition M (A : Type) : Type := S -> (exn + A) * S * list E.

Definition ret {A} (a : A) : M A := fun s => (inr a, s, []).

Definition bind {A B} (m : M A) (k : A -> M B) : M B :=
  fun s =>
    match m s with
    | (inl e, s1, t1) => (inl e, s1, t1)
    | (inr a, s1, t1) =>
        match k a s1 with
        | (r, s2, t2) => (r, s2, t1 ++ t2)
        end
    end.

Definition raise {A} (e : exn) : M A := fun s => (inl e, s, []).
Definition get : M S := fun s => (inr s, s, []).
Definition put (s : S) : M unit := fun _ => (inr tt, s, []).
Definition modify (f : S -> S) : M unit := fun s => (inr tt, f s, []).
Definition emit (e : E) : M unit := fun s => (inr tt, s, [e]).

(** [try m except e if handles e: h e] *)
Definition try_except {A} (m : M A) (handles : exn -> bool)
    (h : exn -> M A) : M A :=
  fun s =>
    match m s with
    | (inl e, s1, t1) =>
        if handles e then
          match h e s1 with
          | (r, s2, t2) => (r, s2, t1 ++ t2)
          end
        else (inl e, s1, t1)
    | (inr a, s1, t1) => (inr a, s1, t1)
    end.

(** An optional value that raises when absent. *)
Definition or_raise {A} (o : option A) (e : exn) : M A :=
  match o with Some a => ret a | None => raise e end.
End Monad.

Arguments M : clear implicits.

Notation "'let*' x ':=' c 'in' k" := (bind c (fun x => k))
  (at level 10, x name, c at level 100, k at level 200).
Notation "c1 ';;' c2" := (bind c1 (fun _ => c2))
  (at level 100, c2 at level 200, right associativity).

(** ** Python strings and sequences *)

(** [s.split(sep)] for a one-character separator. *)
Fixpoint py_split (sep : ascii) (s : string) : list string :=
  match s with
  | EmptyString => [EmptyString]
  | String c s' =>
      if decide (c = sep) then EmptyString :: py_split sep s'
      else match py_split sep s' with
           | [] => [String c EmptyString]
           | x :: xs => String c x :: xs
           end
  end.

(** [bytes.decode('ascii')] succeeds when every byte is below 128. *)
Fixpoint is_ascii (s : string) : bool :=
  match s with
  | EmptyString => true
  | String c s' => (nat_of_ascii c <? 128)%nat && is_ascii s'
  end.

(** [str.join] *)
Fixpoint py_join (sep : string) (l : list string) : string :=
  match l with
  | [] => ""
  | [x] => x
  | x :: l' => x +:+ sep +:+ py_join sep l'
  end.

(** [s.startswith(p)] *)
Fixpoint starts_with (p s : string) : bool :=
  match p, s with
  | EmptyString, _ => true
  | String a p', String b s' => Ascii.eqb a b && starts_with p' s'
  | String _ _, EmptyString => false
  end.

(** First character of a string, [s[0]]. *)
Definition str_head (s : string) : option ascii :=
  match s with EmptyString => None | String c _ => Some c end.

(** The slice [C[i:j]] of a list, for [0 <= i]. *)
Definition py_slice {A} (C : list A) (i j : nat) : list A :=
  take (j - i) (drop i C).

(** ** Slave records (class FCSlave)

    The class lives in [fc/backend/mkiii/FCSlave.py]; the communicator
    only calls its constructor and accessors. *)

(** Connection status codes of [fc.standards]. *)
Inductive slave_status :=
| SS_CONNECTED | SS_KNOWN | SS_DISCONNECTED | SS_AVAILABLE | SS_UPDATING.

#[global] Instance slave_status_eq_dec : EqDecision slave_status.
Proof. solve_decision. Defined.

Section Model.
Context `{RT : Runtime}.

(** A Python number: an [int] or a [float]. *)
Inductive num := NInt (z : Z) | NFloat (f : float).

(** ["{}".format(x)] *)
Definition str_num (x : num) : string :=
  match x with NInt z => pretty z | NFloat f => str_float f end.

(** Commands a worker finds in its slave's mailbox: tuples headed by one
    of the [MOSI_*] codes. *)
Inductive mosi_cmd :=
| MOSI_DC (dc : num) (selection : string)
| MOSI_DC_MULTI (dcs : string)
| MOSI_DISCONNECT
| MOSI_REBOOT
| MOSI_OTHER (code : Z).

(** Modelled from the spec: the device record of class FCSlave, whose
    source file is not part of the sources at hand: index, mac, display
    name, fan count, status, firmware version, network endpoint (unset
    until learned), outbound and inbound sequence counters, the index of
    the last applied telemetry, a bounded mailbox of pending outbound
    commands with its drop counter, and the latest feedback pair (RPM
    vector, duty-cycle vector).  [mosiSocketPort] and [misoSocketPort]
    are the local ports of the device-private sockets. *)
Record FCSlave := mkFCSlave {
  index : nat;
  name : string;
  mac : string;
  fans : nat;
  status : slave_status;
  version : option string;
  ip : option string;
  misoP : option Z;
  mosiP : option Z;
  mosiIndex : Z;
  misoIndex : Z;
  dataIndex : Z;
  dropIndex : Z;
  queueSize : nat;
  mosi : list mosi_cmd;
  miso : list Z * list float;
  misoSocketPort : option Z;
  mosiSocketPort : option Z
}.

(** Modelled from the spec: the constructor of FCSlave.  A new record has
    its sequence counters at 0, an empty mailbox, and a feedback pair of
    [maxFans] placeholder entries per vector, so that the feedback vector
    of the output thread has the same length for every slave. *)
Definition new_FCSlave (name_ mac_ : string) (fans_ maxFans_ : nat)
    (status_ : slave_status) (version_ : option string)
    (misoQueueSize_ : nat) (ip_ : option string) (misoP_ mosiP_ : option Z)
    (index_ : nat) : FCSlave :=
  {| index := index_; name := name_; mac := mac_; fans := fans_;
     status := status_; version := version_; ip := ip_;
     misoP := misoP_; mosiP := mosiP_;
     mosiIndex := 0; misoIndex := 0; dataIndex := 0; dropIndex := 0;
     queueSize := misoQueueSize_; mosi := [];
     miso := (replicate maxFans_ 0%Z, replicate maxFans_ float_zero);
     misoSocketPort := None; mosiSocketPort := None |}.

(** Modelled from the spec: the read accessors of FCSlave return the
    field of the same name. *)
Definition getStatus (sl : FCSlave) : slave_status := status sl.
(** Modelled from the spec: accessor of FCSlave. *)
Definition getFans (sl : FCSlave) : nat := fans sl.
(** Modelled from the spec: accessor of FCSlave. *)
Definition getMAC (sl : FCSlave) : string := mac sl.
(** Modelled from the spec: accessor of FCSlave. *)
Definition getVersion (sl : FCSlave) : option string := version sl.
(** Modelled from the spec: accessor of FCSlave. *)
Definition getMOSIPort (sl : FCSlave) : option Z := mosiP sl.
(** Modelled from the spec: accessor of FCSlave. *)
Definition getMOSIIndex (sl : FCSlave) : Z := mosiIndex sl.
(** Modelled from the spec: accessor of FCSlave. *)
Definition getMISOIndex (sl : FCSlave) : Z := misoIndex sl.
(** Modelled from the spec: accessor of FCSlave. *)
Definition getDataIndex (sl : FCSlave) : Z := dataIndex sl.
(** Modelled from the spec: accessor of FCSlave; the latest feedback
    pair (RPM vector, duty-cycle vector). *)
Definition getMISO (sl : FCSlave) : list Z * list float := miso sl.

(** Field updates. *)
Definition with_status (x : slave_status) (sl : FCSlave) : FCSlave :=
  mkFCSlave (index sl) (name sl) (mac sl) (fans sl) x (version sl) (ip sl)
    (misoP sl) (mosiP sl) (mosiIndex sl) (misoIndex sl) (dataIndex sl)
    (dropIndex sl) (queueSize sl) (mosi sl) (miso sl)
    (misoSocketPort sl) (mosiSocketPort sl).

Definition with_net (ip_ : option string) (misoP_ mosiP_ : option Z)
    (version_ : option string) (sl : FCSlave) : FCSlave :=
  mkFCSlave (index sl) (name sl) (mac sl) (fans sl) (status sl) version_ ip_
    misoP_ mosiP_ (mosiIndex sl) (misoIndex sl) (dataIndex sl)
    (dropIndex sl) (queueSize sl) (mosi sl) (miso sl)
    (misoSocketPort sl) (mosiSocketPort sl).

Definition with_indices (mosiIndex_ misoIndex_ dataIndex_ dropIndex_ : Z)
    (sl : FCSlave) : FCSlave :=
  mkFCSlave (index sl) (name sl) (mac sl) (fans sl) (status sl) (version sl)
    (ip sl) (misoP sl) (mosiP sl) mosiIndex_ misoIndex_ dataIndex_
    dropIndex_ (queueSize sl) (mosi sl) (miso sl)
    (misoSocketPort sl) (mosiSocketPort sl).

Definition with_mosi (q : list mosi_cmd) (sl : FCSlave) : FCSlave :=
  mkFCSlave (index sl) (name sl) (mac sl) (fans sl) (status sl) (version sl)
    (ip sl) (misoP sl) (mosiP sl) (mosiIndex sl) (misoIndex sl)
    (dataIndex sl) (dropIndex sl) (queueSize sl) q (miso sl)
    (misoSocketPort sl) (mosiSocketPort sl).

Definition with_miso (m : list Z * list float) (sl : FCSlave) : FCSlave :=
  mkFCSlave (index sl) (name sl) (mac sl) (fans sl) (status sl) (version sl)
    (ip sl) (misoP sl) (mosiP sl) (mosiIndex sl) (misoIndex sl)
    (dataIndex sl) (dropIndex sl) (queueSize sl) (mosi sl) m
    (misoSocketPort sl) (mosiSocketPort sl).

Definition with_sockets (misoS mosiS : option Z) (sl : FCSlave) : FCSlave :=
  mkFCSlave (index sl) (name sl) (mac sl) (fans sl) (status sl) (version sl)
    (ip sl) (misoP sl) (mosiP sl) (mosiIndex sl) (misoIndex sl)
    (dataIndex sl) (dropIndex sl) (queueSize sl) (mosi sl) (miso sl)
    misoS mosiS.

(** Modelled from the spec: FCSlave.setStatus.  The status is replaced;
    an endpoint and version passed along are recorded; a slave that
    becomes DISCONNECTED has its exchange indices reset (the worker notes
    that the call also resets the exchange index). *)
Definition setStatus (newStatus : slave_status)
    (netargs : option (string * Z * Z * string)) (sl : FCSlave) : FCSlave :=
  let sl1 :=
    match netargs with
    | Some (newIP, newMISOP, newMOSIP, newVersion) =>
        with_net (Some newIP) (Some newMISOP) (Some newMOSIP)
          (Some newVersion) sl
    | None => sl
    end in
  let sl2 :=
    if decide (newStatus = SS_DISCONNECTED)
    then with_indices 0 0 (dataIndex sl1) (dropIndex sl1) sl1
    else sl1 in
  with_status newStatus sl2.

(** Modelled from the spec: FCSlave.setVersion. *)
Definition setVersion (v : string) (sl : FCSlave) : FCSlave :=
  with_net (ip sl) (misoP sl) (mosiP sl) (Some v) sl.

(** Modelled from the spec: FCSlave.incrementMOSIIndex; the outbound
    sequence counter goes up by one. *)
Definition incrementMOSIIndex (sl : FCSlave) : FCSlave :=
  with_indices (mosiIndex sl + 1) (misoIndex sl) (dataIndex sl)
    (dropIndex sl) sl.

(** Modelled from the spec: FCSlave.setMOSIIndex. *)
Definition setMOSIIndex (i : Z) (sl : FCSlave) : FCSlave :=
  with_indices i (misoIndex sl) (dataIndex sl) (dropIndex sl) sl.

(** Modelled from the spec: FCSlave.setMISOIndex. *)
Definition setMISOIndex (i : Z) (sl : FCSlave) : FCSlave :=
  with_indices (mosiIndex sl) i (dataIndex sl) (dropIndex sl) sl.

(** Modelled from the spec: FCSlave.setDataIndex. *)
Definition setDataIndex (i : Z) (sl : FCSlave) : FCSlave :=
  with_indices (mosiIndex sl) (misoIndex sl) i (dropIndex sl) sl.

(** Modelled from the spec: FCSlave.incrementDropIndex. *)
Definition incrementDropIndex (sl : FCSlave) : FCSlave :=
  with_indices (mosiIndex sl) (misoIndex sl) (dataIndex sl)
    (dropIndex sl + 1) sl.

(** Modelled from the spec: FCSlave.resetIndices; both sequence counters
    and the telemetry index restart at 0. *)
Definition resetIndices (sl : FCSlave) : FCSlave :=
  with_indices 0 0 0 (dropIndex sl) sl.

(** Modelled from the spec: FCSlave.setMISO stores the latest feedback
    pair.  The call is written as one that may raise [queue.Full], which
    its caller handles; storing a snapshot never does. *)
Definition setMISO (update : list Z * list float) (sl : FCSlave)
    : exn + FCSlave :=
  inr (with_miso update sl).

(** Modelled from the spec: FCSlave.setMOSI puts a command in the bounded
    mailbox; when the mailbox is full the oldest pending command is
    dropped and the drop is counted, and the producer never blocks. *)
Definition setMOSI (cmd : mosi_cmd) (sl : FCSlave) : FCSlave :=
  if decide (queueSize sl <= length (mosi sl))%nat
  then incrementDropIndex (with_mosi (tail (mosi sl) ++ [cmd]) sl)
  else with_mosi (mosi sl ++ [cmd]) sl.

(** Modelled from the spec: FCSlave.getMOSI takes the oldest pending
    command out of the mailbox, or returns [None] when there is none. *)
Definition getMOSI (sl : FCSlave) : option mosi_cmd * FCSlave :=
  match mosi sl with
  | [] => (None, sl)
  | c :: q => (Some c, with_mosi q sl)
  end.

(** Modelled from the spec: FCSlave.setSockets records the two
    device-private sockets, here by their local ports. *)
Definition setSockets (newMISOS newMOSIS : Z) (sl : FCSlave) : FCSlave :=
  with_sockets (Some newMISOS) (Some newMOSIS) sl.

(** ** The communicator (class FCCommunicator) *)

(** What [getSlaveStateVector] returns for one slave:
    [[index, name, mac, status, fans, version]]. *)
Definition slave_vector : Type :=
  nat * string * string * slave_status * nat * option string.

Definition address : Type := string * Z.

(** The sockets a thread sends on. *)
Inductive socket_id :=
| listenerSocket
| disconnectSocket
| rebootSocket
| slave_mosiSocket (mac_ : string).

(** The printing methods of [fc.printer]: [printr], [printw], [printe],
    [prints] and [printx], the last with the exception it reports. *)
Inductive print_kind := PR | PW | PE | PS | PX (e : exn).

(** Calls to the error handler and to the error-recovery manager. *)
Inductive handler_call :=
| log_exception | handle_parsing_error | handle_network_error
| handle_communication_error | log_timeout.

(** The datagrams the communicator formats, kept with their fields;
    [render] gives the text that goes on the wire. *)
Inductive datagram :=
| DIndexed (index_ : Z) (message_ : string)
| DToListener (message_ passcode_ : string)
| DBroadcast (passcode_ mac_ message_ : string)
| DRaw (text : string).

Definition render (d : datagram) : string :=
  match d with
  | DIndexed index_ message_ => pretty index_ +:+ "|" +:+ message_
  | DToListener message_ passcode_ => message_ +:+ "|" +:+ passcode_
  | DBroadcast passcode_ mac_ message_ =>
      "J|" +:+ passcode_ +:+ "|" +:+ mac_ +:+ "|" +:+ message_
  | DRaw text => text
  end.

Inductive event :=
| EvPrint (k : print_kind)
| EvHandler (h : handler_call) (e : option exn)
| EvSendto (sock : socket_id) (data : datagram)
    (dest : option string * option Z)
| EvSlavePipe (S : list slave_vector)
| EvSlaveUpdate (v : slave_vector)
| EvFeedbackPipe (F : list num)
| EvNetworkPipe
| EvStart (index_ : nat)
| EvSocketsReopened (mac_ : string)
| EvSleep.

(** The data members of the communicator that the threads modelled here
    read or write.  [defaultSlave_maxFans] is
    [defaultSlave[ac.SV_maxFans]]; [hsk_constants] is the part of the
    handshake message that is formatted from the profile. *)
Record FCCommunicator := mkFCCommunicator {
  passcode : string;
  maxFans : nat;
  maxTimeouts : Z;
  misoQueueSize : nat;
  defaultSlave_maxFans : nat;
  broadcastPort : Z;
  defaultBroadcastIP : string;
  hsk_constants : string;
  flashFlag : bool;
  targetVersion : option string;
  flashMessage : option string;
  slaves : list FCSlave;
  macToIndexMap : gmap string nat
}.

Definition with_slaves (l : list FCSlave) (self : FCCommunicator)
    : FCCommunicator :=
  mkFCCommunicator (passcode self) (maxFans self) (maxTimeouts self)
    (misoQueueSize self) (defaultSlave_maxFans self) (broadcastPort self)
    (defaultBroadcastIP self) (hsk_constants self) (flashFlag self)
    (targetVersion self) (flashMessage self) l (macToIndexMap self).

Definition with_macToIndexMap (m : gmap string nat) (self : FCCommunicator)
    : FCCommunicator :=
  mkFCCommunicator (passcode self) (maxFans self) (maxTimeouts self)
    (misoQueueSize self) (defaultSlave_maxFans self) (broadcastPort self)
    (defaultBroadcastIP self) (hsk_constants self) (flashFlag self)
    (targetVersion self) (flashMessage self) (slaves self) m.

Definition getSlaveStateVector (slave : FCSlave) : slave_vector :=
  (index slave, name slave, mac slave, getStatus slave, fans slave,
   version slave).

(** [_sendSlaves]: the state vectors of all slaves, in registry order,
    written to the slave pipe. *)
Definition _sendSlaves : M event FCCommunicator unit :=
  let* self := get in
  emit (EvSlavePipe (map getSlaveStateVector (slaves self))).

Definition _getSlaveIndexByMAC (self : FCCommunicator) (mac_ : string)
    : option nat :=
  macToIndexMap self !! mac_.

(** [setSlaveStatus] on a slave object.  [lock_ok] is what
    [safe_acquire_lock] returned for [slavesLock]: when the lock is not
    obtained within the timeout the update is skipped with a warning. *)
Definition setSlaveStatus (slave : FCSlave) (newStatus : slave_status)
    (netargs : option (string * Z * Z * string)) (lock_ok : bool)
    : FCSlave * list event :=
  if lock_ok then
    let slave' := setStatus newStatus netargs slave in
    (slave', [EvSlaveUpdate (getSlaveStateVector slave')])
  else (slave, [EvPrint PW]).

(** The same call made on [self.slaves[i]]: the object in the registry
    is the one that is updated. *)
Definition setSlaveStatus_at (i : nat) (newStatus : slave_status)
    (netargs : option (string * Z * Z * string)) (lock_ok : bool)
    : M event FCCommunicator unit :=
  let* self := get in
  let* slave := or_raise (slaves self !! i) IndexError in
  let '(slave', evs) := setSlaveStatus slave newStatus netargs lock_ok in
  fun _ => (inr tt, with_slaves (<[i := slave']> (slaves self)) self, evs).

(** *** The listener thread *)

(** What one turn of the listener loop takes from its environment: the
    name drawn by [rd.choice(nm.coolNames)] and the outcome of the lock
    acquire in [setSlaveStatus]. *)
Record listener_env := {
  chosen_name : string;
  listener_lock_ok : bool
}.

(** [l[i]] for a list. *)
Definition getitem {S A} (l : list A) (i : nat) : M event S A :=
  or_raise (l !! i) IndexError.

(** [int(s)] for a string. *)
Definition int_of_str {S} (s : string) : M event S Z :=
  or_raise (py_int s) ValueError.

(** The branch for a message from the MkII ('A'), without its
    [except IndexError] clause. *)
Definition listener_A (messageSplitted : list string)
    (senderAddress : address) (env : listener_env)
    : M event FCCommunicator unit :=
  let* mac_ := getitem messageSplitted 2 in
  let* kind := getitem messageSplitted 3 in
  if decide (kind = "N") then
    let* s4 := getitem messageSplitted 4 in
    let* misoPort := int_of_str s4 in
    let* s5 := getitem messageSplitted 5 in
    let* mosiPort := int_of_str s5 in
    let* version_ := getitem messageSplitted 6 in
    (* the warning for a bad SMISO formats the unbound name [miso] *)
    (if (misoPort <=? 0)%Z || (65535 <? misoPort)%Z
     then raise NameError else ret tt) ;;
    (* the ValueError for a bad SMOSI formats the unbound name [mosi] *)
    (if (mosiPort <=? 0)%Z || (65535 <? mosiPort)%Z
     then raise NameError else ret tt) ;;
    (if decide (String.length mac_ = 17%nat)
     then ret tt else raise ValueError) ;;
    let* self := get in
    match _getSlaveIndexByMAC self mac_ with
    | Some index_ =>
        if flashFlag self && bool_decide (Some version_ <> targetVersion self)
        then
          emit (EvSendto listenerSocket (DToListener "R" (passcode self))
                  (Some senderAddress.1, Some senderAddress.2))
        else
          let* slave := getitem (slaves self) index_ in
          if bool_decide (getStatus slave = SS_DISCONNECTED)
             || bool_decide (getStatus slave = SS_UPDATING)
          then
            setSlaveStatus_at index_ SS_KNOWN
              (Some (senderAddress.1, misoPort, mosiPort, version_))
              (listener_lock_ok env)
          else ret tt
    | None =>
        let index_ := length (slaves self) in
        let name_ := chosen_name env in
        let fans_ := defaultSlave_maxFans self in
        modify (with_slaves (slaves self ++
          [new_FCSlave name_ mac_ fans_ (maxFans self) SS_AVAILABLE
             (Some version_) (misoQueueSize self) (Some senderAddress.1)
             (Some misoPort) (Some mosiPort) index_])) ;;
        modify (fun self' =>
          with_macToIndexMap (<[mac_ := index_]> (macToIndexMap self')) self') ;;
        _sendSlaves ;;
        let* self' := get in
        let* _ := getitem (slaves self') index_ in
        emit (EvStart index_)
    end
  else if decide (kind = "E") then
    emit (EvPrint PE)
  else
    raise IndexError.

(** The branch for a message from the bootloader ('B'), without its
    [except IndexError] clause. *)
Definition listener_B (messageSplitted : list string)
    (senderAddress : address) (env : listener_env)
    : M event FCCommunicator unit :=
  let dest := (Some senderAddress.1, Some senderAddress.2) in
  let* kind := getitem messageSplitted 3 in
  if decide (kind = "N") then
    let* self := get in
    (if negb (flashFlag self)
     then emit (EvSendto listenerSocket (DToListener "L" (passcode self)) dest)
     else
       let* fm := or_raise (flashMessage self) TypeError in
       emit (EvSendto listenerSocket (DRaw fm) dest)) ;;
    let* mac_ := getitem messageSplitted 2 in
    match _getSlaveIndexByMAC self mac_ with
    | Some index_ =>
        let version_ := default "Bootloader(?)" (messageSplitted !! 4%nat) in
        let* slave := getitem (slaves self) index_ in
        modify (with_slaves (<[index_ := setVersion version_ slave]>
                               (slaves self))) ;;
        setSlaveStatus_at index_ SS_UPDATING None (listener_lock_ok env)
    | None =>
        emit (EvSendto listenerSocket (DToListener "L" (passcode self)) dest)
    end
  else if decide (kind = "E") then
    let* _ := getitem messageSplitted 2 in
    let* _ := getitem messageSplitted 4 in
    emit (EvPrint PE)
  else ret tt.

(** The body of the [try] of the listener loop, for a datagram that has
    been received. *)
Definition listener_try (messageReceived : string)
    (senderAddress : address) (env : listener_env)
    : M event FCCommunicator unit :=
  (if is_ascii messageReceived then ret tt else raise UnicodeDecodeError) ;;
  let messageSplitted := py_split "|" messageReceived in
  let* p := getitem messageSplitted 1 in
  let* self := get in
  if bool_decide (p <> passcode self) then
    emit (EvPrint PW)
  else
    let* m0 := getitem messageSplitted 0 in
    let* c := or_raise (str_head m0) IndexError in
    if decide (c = "A"%char) then
      try_except (listener_A messageSplitted senderAddress env)
        is_IndexError (fun _ => emit (EvPrint PW))
    else if decide (c = "B"%char) then
      try_except (listener_B messageSplitted senderAddress env)
        is_IndexError (fun _ => emit (EvPrint PW))
    else
      emit (EvPrint PW).

(** One turn of the loop of [_listenerRoutine] for a received datagram:
    the [try] with its [except] clauses.  Every clause ends the turn and
    the loop goes on, so the turn never raises. *)
Definition _listenerRoutine (messageReceived : string)
    (senderAddress : address) (env : listener_env)
    : M event FCCommunicator unit :=
  try_except (listener_try messageReceived senderAddress env)
    (fun _ => true)
    (fun e =>
       if is_ValueError e || is_IndexError e then
         emit (EvHandler handle_parsing_error (Some e)) ;;
         emit (EvPrint PW)
       else
         emit (EvHandler log_exception (Some e)) ;;
         emit (EvPrint (PX e))).

(** *** The worker thread of a slave *)

(** A Python value in a reply tuple. *)
Inductive pyval := PyInt (z : Z) | PyStr (s : string).

#[global] Instance pyval_eq_dec : EqDecision pyval.
Proof. solve_decision. Defined.

(** The local variables of [_slaveRoutine] that live across turns. *)
Record locals := mkLocals {
  timeouts : Z;
  totalTimeouts : Z;
  message : string;
  tryBuffer : bool;
  failedHSKs : Z;
  MHSK : string
}.

(** The state a worker acts on: its slave object, its local variables,
    and the datagrams waiting in the buffer of its MISO socket. *)
Record wstate := mkW {
  slave : FCSlave;
  loc : locals;
  inbox : list string
}.

Definition with_slave (f : FCSlave -> FCSlave) (w : wstate) : wstate :=
  mkW (f (slave w)) (loc w) (inbox w).
Definition with_loc (f : locals -> locals) (w : wstate) : wstate :=
  mkW (slave w) (f (loc w)) (inbox w).
Definition with_inbox (q : list string) (w : wstate) : wstate :=
  mkW (slave w) (loc w) q.

Definition set_timeouts (t tt_ : Z) (l : locals) : locals :=
  mkLocals t tt_ (message l) (tryBuffer l) (failedHSKs l) (MHSK l).
Definition set_message (m : string) (l : locals) : locals :=
  mkLocals (timeouts l) (totalTimeouts l) m (tryBuffer l) (failedHSKs l)
    (MHSK l).
Definition set_tryBuffer (b : bool) (l : locals) : locals :=
  mkLocals (timeouts l) (totalTimeouts l) (message l) b (failedHSKs l)
    (MHSK l).
Definition set_failedHSKs (n : Z) (l : locals) : locals :=
  mkLocals (timeouts l) (totalTimeouts l) (message l) (tryBuffer l) n
    (MHSK l).
Definition set_MHSK (m : string) (l : locals) : locals :=
  mkLocals (timeouts l) (totalTimeouts l) (message l) (tryBuffer l)
    (failedHSKs l) m.

(** What a worker takes from its environment at one receive: the
    datagrams that reach its MISO socket before the receive gives up, the
    outcome of the lock acquire of a status update, and the local ports
    of the sockets it would open. *)
Record worker_env := {
  arrivals : list string;
  lock_ok : bool;
  new_misoPort : Z;
  new_mosiPort : Z
}.

(** [_send]: add the exchange index and hand the message to the MOSI
    socket.  [sendto] is taken not to raise; the first attempt of the
    loop over [repeat] then succeeds and ends the loop, so one datagram
    leaves whatever [repeat] is. *)
Definition _send (message_ : string) (repeat : nat) (hsk : bool)
    : M event wstate unit :=
  (if negb hsk
   then modify (with_slave incrementMOSIIndex)
   else modify (with_slave (setMOSIIndex 0))) ;;
  let* w := get in
  let outgoing := DIndexed (getMOSIIndex (slave w)) message_ in
  emit (EvSendto (slave_mosiSocket (mac (slave w))) outgoing
          (ip (slave w), getMOSIPort (slave w))).

(** [_sendToListener]: [repeat] copies of the message go to the slave's
    listener socket, or are broadcast when its address is not known. *)
Definition _sendToListener (self : FCCommunicator) (message_ : string)
    (repeat : nat) (targetted : bool) : M event wstate unit :=
  let* w := get in
  let sock := slave_mosiSocket (mac (slave w)) in
  if targetted && bool_decide (ip (slave w) <> None) then
    let outgoing := DToListener message_ (passcode self) in
    fun s => (inr tt, s,
      replicate repeat
        (EvSendto sock outgoing (ip (slave w), Some (broadcastPort self))))
  else
    let outgoing :=
      DBroadcast (passcode self) (getMAC (slave w)) message_ in
    fun s => (inr tt, s,
      replicate repeat
        (EvSendto sock outgoing
           (Some (defaultBroadcastIP self), Some (broadcastPort self)))).

(** The tuple [_receive] builds from a split message whose index has
    been accepted, or [None] for an unrecognised number of parts; the
    third part of a five-part message goes through [int]. *)
Definition receive_output (index_ : Z) (splitted : list string)
    : exn + option (list pyval) :=
  match splitted with
  | [_; s1] => inr (Some [PyInt index_; PyStr s1])
  | [_; s1; s2] => inr (Some [PyInt index_; PyStr s1; PyStr s2])
  | [_; s1; s2; s3] =>
      inr (Some [PyInt index_; PyStr s1; PyStr s2; PyStr s3])
  | [_; s1; s2; s3; s4] =>
      match py_int s2 with
      | Some d => inr (Some [PyInt index_; PyStr s1; PyInt d; PyStr s3;
                             PyStr s4])
      | None => inl ValueError
      end
  | _ => inr None
  end.

(** The receive loop of [_receive] over the datagrams that can be read
    from the MISO socket, oldest first.  It returns the reply (or
    [None]), the slave, the datagrams left in the socket, and the events.
    Running out of datagrams is the socket timeout.  [indexMatch] is
    never set in the source, so a message that fails to decode or parse
    is skipped. *)
Fixpoint receive_loop (pending : list string) (sl : FCSlave)
    : option (list pyval) * FCSlave * list string * list event :=
  match pending with
  | [] => (None, sl, [], [EvHandler log_timeout None])
  | message_ :: rest =>
      let skip (e : exn) :=
        match receive_loop rest sl with
        | (r, sl', q, t) =>
            (r, sl', q,
             EvHandler handle_communication_error (Some e) :: EvPrint PW :: t)
        end in
      if negb (is_ascii message_) then skip UnicodeDecodeError
      else
        let splitted := py_split "|" message_ in
        match splitted !! 0%nat ≫= py_int with
        | None => skip ValueError
        | Some index_ =>
            if (index_ <=? getMISOIndex sl)%Z then receive_loop rest sl
            else
              match receive_output index_ splitted with
              | inl e => skip e
              | inr None => (None, sl, rest, [])
              | inr (Some output) =>
                  (Some output, setMISOIndex index_ sl, rest, [])
              end
        end
  end.

(** [_receive] on the worker's state: the datagrams that arrive during
    the call join those already waiting in the socket. *)
Definition _receive (arrivals_ : list string)
    : M event wstate (option (list pyval)) :=
  fun w =>
    match receive_loop (inbox w ++ arrivals_) (slave w) with
    | (r, sl', q, t) => (inr r, mkW sl' (loc w) q, t)
    end.

(** [setSlaveStatus] called by a worker on its own slave. *)
Definition setSlaveStatus_w (newStatus : slave_status) (lock_ok_ : bool)
    : M event wstate unit :=
  fun w =>
    match setSlaveStatus (slave w) newStatus None lock_ok_ with
    | (sl', t) => (inr tt, mkW sl' (loc w) (inbox w), t)
    end.

(** [_makeHSK]: the handshake message carries the local ports of the
    slave's two sockets, then constants of the profile. *)
Definition _makeHSK (self : FCCommunicator) : M event wstate string :=
  let* w := get in
  let* misoS := or_raise (misoSocketPort (slave w)) AttributeError in
  let* mosiS := or_raise (mosiSocketPort (slave w)) AttributeError in
  ret ("H|" +:+ pretty misoS +:+ "," +:+ pretty mosiS +:+ ","
         +:+ hsk_constants self).

(** Closing the two sockets and opening fresh ones, as the handshake
    loop does after an unanswered attempt; the new MISO socket starts
    with an empty buffer. *)
Definition reopen_sockets (self : FCCommunicator) (env : worker_env)
    : M event wstate unit :=
  modify (with_slave (setSockets (new_misoPort env) (new_mosiPort env))) ;;
  modify (with_inbox []) ;;
  let* w := get in
  emit (EvSocketsReopened (mac (slave w))) ;;
  emit (EvPrint PR) ;;
  let* hsk := _makeHSK self in
  modify (with_loc (set_MHSK hsk)) ;;
  modify (with_loc (set_failedHSKs 0)).

(** [reply[1] == tag] for a reply tuple. *)
Definition reply_tag_is (reply : option (list pyval)) (tag : string) : bool :=
  match reply with
  | Some r => bool_decide (r !! 1%nat = Some (PyStr tag))
  | None => false
  end.

(** The inner loop of the KNOWN branch.  Each turn of the loop does one
    receive and so takes one element of [envs]; the result tells whether
    the loop was left by [break] ([true]) or is still waiting when the
    inputs end ([false]). *)
Fixpoint handshake_loop (self : FCCommunicator) (tries : Z)
    (envs : list worker_env) : M event wstate bool :=
  match envs with
  | [] => ret false
  | env :: envs' =>
      let* reply := _receive (arrivals env) in
      if reply_tag_is reply "H" then
        setSlaveStatus_w SS_CONNECTED (lock_ok env) ;;
        modify (with_loc (set_tryBuffer true)) ;;
        ret true
      else if reply_tag_is reply "K" then
        handshake_loop self tries envs'
      else
        let* w := get in
        if (0 <? tries)%Z then
          _send (MHSK (loc w)) 1 true ;;
          reopen_sockets self env ;;
          handshake_loop self (tries - 1) envs'
        else if (failedHSKs (loc w) =? 0)%Z then
          _send "X" 2 false ;;
          setSlaveStatus_w SS_DISCONNECTED (lock_ok env) ;;
          ret true
        else
          emit (EvPrint PW) ;;
          reopen_sockets self env ;;
          handshake_loop self tries envs'
  end.

(** The KNOWN branch: a first handshake message, then the loop with two
    further tries. *)
Definition handshake (self : FCCommunicator) (envs : list worker_env)
    : M event wstate bool :=
  let* w := get in
  _send (MHSK (loc w)) 2 true ;;
  handshake_loop self 2 envs.

(** [int(v)] for an element of a reply tuple, when it converts. *)
Definition int_value (v : pyval) : option Z :=
  match v with
  | PyInt z => Some z
  | PyStr s => py_int s
  end.

Definition int_of_pyval {S} (v : pyval) : M event S Z :=
  or_raise (int_value v) ValueError.

(** [v.split(',')] for an element of a reply tuple. *)
Definition split_pyval {S} (v : pyval) : M event S (list string) :=
  match v with
  | PyStr s => ret (py_split "," s)
  | PyInt _ => raise AttributeError
  end.

(** [r[-k]] for a tuple. *)
Definition getitem_neg {S A} (r : list A) (k : nat) : M event S A :=
  if decide (k <= length r)%nat then getitem r (length r - k)
  else raise IndexError.

(** The loop [for i in range(count): arr[i] = conv(parts[i])], which
    stops at the first part that does not convert. *)
Fixpoint convert_parts {S A} (conv : string -> M event S A)
    (parts : list string) : M event S (list A) :=
  match parts with
  | [] => ret []
  | p :: parts' =>
      let* x := conv p in
      let* xs := convert_parts conv parts' in
      ret (x :: xs)
  end.

(** [rpms[i] = int(part)] on a numpy array of [dtype=int]. *)
Definition store_rpm {S} (part : string) : M event S Z :=
  let* z := int_of_str part in
  if np_int_fits z then ret z else raise OverflowError.

(** [dcs[i] = float(part)] on a numpy array of [dtype=float]. *)
Definition store_dc {S} (part : string) : M event S float :=
  or_raise (py_float part) ValueError.

(** The arrays of a telemetry reply: [np.zeros(maxFans)] overwritten by
    the first [min(len(parts), maxFans)] converted parts. *)
Definition parse_feedback (self : FCCommunicator) (reply : list pyval)
    : M event wstate (list Z * list float) :=
  let* r2 := getitem_neg reply 2 in
  let* rpm_parts := split_pyval r2 in
  let rpm_count := (length rpm_parts `min` maxFans self)%nat in
  let* rpms := convert_parts store_rpm (take rpm_count rpm_parts) in
  let* r1 := getitem_neg reply 1 in
  let* dc_parts := split_pyval r1 in
  let dc_count := (length dc_parts `min` maxFans self)%nat in
  let* dcs := convert_parts store_dc (take dc_count dc_parts) in
  ret (rpms ++ replicate (maxFans self - rpm_count) 0%Z,
       dcs ++ replicate (maxFans self - dc_count) float_zero).

(** [slave.setMISO(update, False)] on the worker's slave. *)
Definition setMISO_w (update : list Z * list float) : M event wstate unit :=
  fun w =>
    match setMISO update (slave w) with
    | inr sl' => (inr tt, mkW sl' (loc w) (inbox w), [])
    | inl e => (inl e, w, [])
    end.

(** [slave.getMOSI()] on the worker's slave. *)
Definition getMOSI_w : M event wstate (option mosi_cmd) :=
  fun w =>
    match getMOSI (slave w) with
    | (c, sl') => (inr c, mkW sl' (loc w) (inbox w), [])
    end.

(** The branch [reply[1] == 'T'] of the CONNECTED state. *)
Definition process_telemetry (self : FCCommunicator) (reply : list pyval)
    : M event wstate unit :=
  let* r := getitem reply 2 in
  let* receivedDataIndex := int_of_pyval r in
  let* w := get in
  if (getDataIndex (slave w) <? receivedDataIndex)%Z then
    modify (with_slave (setDataIndex receivedDataIndex)) ;;
    try_except
      (let* update := parse_feedback self reply in
       setMISO_w update)
      (fun e => bool_decide (e = QueueFull))
      (fun _ => modify (with_slave incrementDropIndex))
  else ret tt.

(** What the CONNECTED state does with a reply. *)
Definition process_reply (self : FCCommunicator) (reply : list pyval)
    : M event wstate unit :=
  modify (with_loc (fun l => set_timeouts 0 (totalTimeouts l) l)) ;;
  let* tag := getitem reply 1 in
  if decide (tag = PyStr "T") then process_telemetry self reply
  else if decide (tag = PyStr "I") then
    modify (with_slave (setMISOIndex 0)) ;; emit (EvPrint PR)
  else if decide (tag = PyStr "P") then _send "P" 1 false
  else if decide (tag = PyStr "Y") then ret tt
  else if decide (tag = PyStr "M") then ret tt
  else if decide (tag = PyStr "H") then ret tt
  else if decide (tag = PyStr "E") then
    let* _ := getitem reply 2 in emit (EvPrint PE)
  else if decide (tag = PyStr "Q") then ret tt
  else emit (EvPrint PW).

(** What the CONNECTED state does when no reply came. *)
Definition process_timeout (self : FCCommunicator) (env : worker_env)
    : M event wstate unit :=
  modify (with_loc (fun l =>
    set_timeouts (timeouts l + 1) (totalTimeouts l + 1) l)) ;;
  let* w := get in
  if (timeouts (loc w) =? maxTimeouts self - 1)%Z then
    _send "Q" 2 false
  else if (timeouts (loc w) <? maxTimeouts self)%Z then
    ret tt
  else if tryBuffer (loc w) then
    _send "Y" 2 false ;;
    modify (with_loc (set_tryBuffer false))
  else
    emit (EvPrint PW) ;;
    _sendToListener self "X" 1 true ;;
    modify (with_loc (set_timeouts 0 0)) ;;
    setSlaveStatus_w SS_DISCONNECTED (lock_ok env).

(** One turn of the CONNECTED state. *)
Definition connected_cycle (self : FCCommunicator) (env : worker_env)
    : M event wstate unit :=
  let* w := get in
  if flashFlag self
     && bool_decide (getVersion (slave w) <> targetVersion self)
  then
    _send "R" 1 false ;;
    setSlaveStatus_w SS_DISCONNECTED (lock_ok env)
  else
    let* fetchedMessage := getMOSI_w in
    match fetchedMessage with
    | None => _send (message (loc w)) 2 false
    | Some (MOSI_DC dc selection) =>
        let m := "S|D:" +:+ str_num dc +:+ ":" +:+ selection in
        modify (with_loc (set_message m)) ;;
        _send m 2 false
    | Some (MOSI_DC_MULTI dcs) =>
        let m := "S|F:" +:+ dcs in
        modify (with_loc (set_message m)) ;;
        _send m 2 false
    | Some MOSI_DISCONNECT => _sendToListener self "X" 2 true
    | Some MOSI_REBOOT => _sendToListener self "R" 2 true
    | Some (MOSI_OTHER _) => ret tt
    end ;;
    let* reply := _receive (arrivals env) in
    match reply with
    | Some r => process_reply self r
    | None => process_timeout self env
    end.

(** The set-up of [_slaveRoutine] before its loop: the two sockets, the
    handshake message, the exchange indices and the local variables. *)
Definition _slaveRoutine_setup (self : FCCommunicator) (env : worker_env)
    : M event wstate unit :=
  modify (with_slave (setSockets (new_misoPort env) (new_mosiPort env))) ;;
  emit (EvPrint PR) ;;
  let* hsk := _makeHSK self in
  modify (with_slave resetIndices) ;;
  modify (with_loc (fun _ => mkLocals 0 0 "P" true 0 hsk)).

(** One turn of the loop of [_slaveRoutine]: the branch for the slave's
    status inside the [try], and the [except Exception] clause, after
    which the loop goes on.  The KNOWN branch runs its inner loop on
    [env :: more]. *)
Definition _slaveRoutine (self : FCCommunicator) (env : worker_env)
    (more : list worker_env) : M event wstate unit :=
  try_except
    (let* w := get in
     match getStatus (slave w) with
     | SS_KNOWN => handshake self (env :: more) ;; ret tt
     | SS_CONNECTED => connected_cycle self env
     | SS_UPDATING => emit EvSleep
     | _ => emit EvSleep
     end)
    (fun _ => true)
    (fun e => emit (EvHandler log_exception (Some e)) ;;
              emit (EvPrint (PX e))).

(** *** The input thread: commands and control vectors *)

(** [add]: mark an AVAILABLE slave as KNOWN; any other status is left
    alone.  [lock_ok_] is the outcome of the lock acquire in
    [setSlaveStatus]. *)
Definition add (targetIndex : nat) (lock_ok_ : bool)
    : M event FCCommunicator unit :=
  let* self := get in
  let* sl := getitem (slaves self) targetIndex in
  if decide (getStatus sl = SS_AVAILABLE) then
    setSlaveStatus_at targetIndex SS_KNOWN None lock_ok_
  else ret tt.

(** [slaveTemplate.format( *paddedDCs)] for the template
    ["{}" + ",{}" * (maxFans - 1)]: as many values as the template has
    fields are printed, and too few values raise [IndexError]. *)
Definition format_template {St} (maxFans_ : nat) (paddedDCs : list num)
    : M event St string :=
  let fields := S (maxFans_ - 1) in
  if decide (fields <= length paddedDCs)%nat
  then ret (py_join "," (map str_num (take fields paddedDCs)))
  else raise IndexError.

(** The values [__handle_input_CTL_DC_VECTOR] prepares for a slave whose
    data start at [i]: its slice of the control vector, padded with
    zeros up to [maxFans]. *)
Definition paddedDCs_at (maxFans_ : nat) (C : list num) (i : nat)
    (slave_ : FCSlave) : list num :=
  let slaveFans := getFans slave_ in
  let slaveDCs := py_slice C i (i + slaveFans) in
  slaveDCs ++ replicate (maxFans_ - length slaveDCs) (NInt 0).

(** The loop of [__handle_input_CTL_DC_VECTOR]; [n] bounds the number
    of turns, and the handler starts it with the number of slaves. *)
Fixpoint dc_vector_loop (C : list num) (n : nat) (index_ i : nat)
    : M event FCCommunicator unit :=
  match n with
  | O => ret tt
  | S n' =>
      let* self := get in
      if (i <? length C)%nat && (index_ <? length (slaves self))%nat then
        let* slave_ := getitem (slaves self) index_ in
        (if decide (getStatus slave_ = SS_CONNECTED) then
           let* dcs := format_template (maxFans self)
                         (paddedDCs_at (maxFans self) C i slave_) in
           modify (with_slaves
             (<[index_ := setMOSI (MOSI_DC_MULTI dcs) slave_]> (slaves self)))
         else ret tt) ;;
        let index' := S index_ in
        let* self' := get in
        let* step :=
          if (0 <? index')%nat
          then let* prev := getitem (slaves self') (index' - 1) in
               ret (getFans prev)
          else ret (maxFans self') in
        dc_vector_loop C n' index' (i + step)
      else ret tt
  end.

Definition __handle_input_CTL_DC_VECTOR (C : list num)
    : M event FCCommunicator unit :=
  let* self := get in
  dc_vector_loop C (length (slaves self)) 0 CTL_I_VECTOR_DC_OFFSET.

(** *** The output thread *)

(** The loop of [_outputRoutine] that gathers [F_r] and [F_d]. *)
Definition gather_feedback (l : list FCSlave) : list num * list num :=
  fold_left
    (fun acc slave_ =>
       let '(rpms, dcs) := getMISO slave_ in
       (acc.1 ++ map NInt rpms, acc.2 ++ map NFloat dcs))
    l ([], []).

(** The feedback vector [F_r + F_d]. *)
Definition feedback_vector (self : FCCommunicator) : list num :=
  let '(F_r, F_d) := gather_feedback (slaves self) in F_r ++ F_d.

(** One turn of the loop of [_outputRoutine]. *)
Definition _outputRoutine : M event FCCommunicator unit :=
  try_except
    (emit EvNetworkPipe ;;
     _sendSlaves ;;
     let* self := get in
     emit (EvFeedbackPipe (feedback_vector self)))
    (fun _ => true)
    (fun e => emit (EvPrint (PX e))).

(** *** Construction *)

(** The slave list and the MAC index that [__init__] builds from the
    saved slaves of the profile, given as (name, mac, fan count). *)
Definition init_slaves (maxFans_ misoQueueSize_ : nat)
    (saved : list (string * string * nat)) : list FCSlave :=
  imap (fun index_ '(name_, mac_, fans_) =>
          new_FCSlave name_ mac_ fans_ maxFans_ SS_DISCONNECTED None
            misoQueueSize_ None None None index_) saved.

Definition init_macToIndexMap (saved : list (string * string * nat))
    : gmap string nat :=
  fold_left (fun m '(index_, (_, mac_, _)) => <[mac_ := index_]> m)
    (imap (fun i x => (i, x)) saved) ∅.

(** [__handle_input_CMD_FUPDATE_START] and [__handle_input_CMD_FUPDATE_STOP]
    write the three firmware-update members. *)
Definition with_flash (flag : bool) (target : option string)
    (msg : option string) (self : FCCommunicator) : FCCommunicator :=
  mkFCCommunicator (passcode self) (maxFans self) (maxTimeouts self)
    (misoQueueSize self) (defaultSlave_maxFans self) (broadcastPort self)
    (defaultBroadcastIP self) (hsk_constants self) flag target msg
    (slaves self) (macToIndexMap self).

(** ** Vocabulary of the statements *)

(** A device-announce datagram
    [A|<passcode>|<mac>|N|<inPort>|<outPort>|<version>] whose two port
    fields convert to the integers [misoPort] and [mosiPort]. *)
Definition device_announce (messageReceived passcode_ mac_ : string)
    (misoPort mosiPort : Z) (version_ : string) : Prop :=
  is_ascii messageReceived = true /\
  exists m0 s4 s5 rest,
    py_split "|" messageReceived
      = m0 :: passcode_ :: mac_ :: "N" :: s4 :: s5 :: version_ :: rest /\
    str_head m0 = Some "A"%char /\
    py_int s4 = Some misoPort /\
    py_int s5 = Some mosiPort.

Definition valid_port (p : Z) : Prop := (1 <= p <= 65535)%Z.

(** A datagram from the MkII that names [mac_], whatever else it holds. *)
Definition announce_of (messageReceived mac_ : string) : Prop :=
  exists m0 p rest,
    py_split "|" messageReceived = m0 :: p :: mac_ :: rest /\
    str_head m0 = Some "A"%char.

(** A disconnect directive for a slave's listener: ["X|<passcode>"] sent
    to the slave, or its broadcast form. *)
Definition is_disconnect_directive (ev : event) : bool :=
  match ev with
  | EvSendto _ (DToListener m _) _ => bool_decide (m = "X")
  | EvSendto _ (DBroadcast _ _ m) _ => bool_decide (m = "X")
  | _ => false
  end.

(** A handshake descriptor: an indexed message that starts with ["H|"]. *)
Definition is_descriptor (ev : event) : bool :=
  match ev with
  | EvSendto _ (DIndexed _ m) _ => starts_with "H|" m
  | _ => false
  end.

(** The environment of a turn in which nothing arrives. *)
Definition silent (env : worker_env) : Prop := arrivals env = [].

(** Successive turns of the worker loop, each with its own trace. *)
Fixpoint run_cycles (self : FCCommunicator) (envs : list worker_env)
    (w : wstate) : wstate * list (list event) :=
  match envs with
  | [] => (w, [])
  | env :: envs' =>
      match _slaveRoutine self env [] w with
      | (_, w1, t) =>
          match run_cycles self envs' w1 with
          | (w2, ts) => (w2, t :: ts)
          end
      end
  end.

(** A firmware update asks the worker of [sl] to reboot it. *)
Definition flash_pending (self : FCCommunicator) (sl : FCSlave) : Prop :=
  flashFlag self = true /\ getVersion sl <> targetVersion self.

(** Successive sends that are not handshakes. *)
Fixpoint send_all (messages : list string) : M event wstate unit :=
  match messages with
  | [] => ret tt
  | m :: messages' => _send m 1 false ;; send_all messages'
  end.

(** The exchange indices of the indexed datagrams of a trace. *)
Definition sent_indices (t : list event) : list Z :=
  omap (fun ev =>
          match ev with
          | EvSendto _ (DIndexed i _) _ => Some i
          | _ => None
          end) t.

(** Where the data of the slave at position [k] start in a control
    vector: the offset of the duty cycles plus the fan counts of the
    slaves before it. *)
Definition cursor_at (l : list FCSlave) (k : nat) : nat :=
  CTL_I_VECTOR_DC_OFFSET + sum_list (map getFans (take k l)).

(** The command the full-vector dispatch puts in the mailbox of a slave
    whose data start at [i]: the template has [S (maxFans - 1)] fields
    and prints that many of the padded values. *)
Definition dc_multi_command (maxFans_ : nat) (C : list num)
    (i : nat) (sl : FCSlave) : mosi_cmd :=
  MOSI_DC_MULTI
    (py_join ","
       (map str_num (take (S (maxFans_ - 1)) (paddedDCs_at maxFans_ C i sl)))).

(** What the full-vector dispatch does to the slaves from some position
    on, the data of the first of them starting at [i]: while the cursor
    is inside the control vector, a CONNECTED slave gets its command and
    the cursor moves on by the fan count of the slave just handled; once
    the cursor is past the end the remaining slaves are left alone. *)
Fixpoint dispatch (maxFans_ : nat) (C : list num) (i : nat)
    (l : list FCSlave) : list FCSlave :=
  match l with
  | [] => []
  | sl :: l' =>
      if (i <? length C)%nat then
        (if decide (getStatus sl = SS_CONNECTED)
         then setMOSI (dc_multi_command maxFans_ C i sl) sl
         else sl) :: dispatch maxFans_ C (i + getFans sl) l'
      else sl :: l'
  end.

(** Every slave holds a feedback pair of [maxFans] entries per vector. *)
Definition feedback_wf (self : FCCommunicator) : Prop :=
  Forall (fun sl => length (getMISO sl).1 = maxFans self /\
                    length (getMISO sl).2 = maxFans self) (slaves self).

(** The communicator as [__init__] leaves it, for some saved slaves. *)
Definition initial (self : FCCommunicator) : Prop :=
  exists saved,
    slaves self = init_slaves (maxFans self) (misoQueueSize self) saved /\
    macToIndexMap self = init_macToIndexMap saved.

(** The moves of the threads on the shared communicator: a turn of the
    listener, the set-up or a turn of the worker of the slave at
    position [i] (on the object in the registry), a command or control
    vector of the input thread. *)
Inductive comm_step : FCCommunicator -> FCCommunicator -> Prop :=
| step_listener self messageReceived senderAddress env r self' t :
    _listenerRoutine messageReceived senderAddress env self = (r, self', t) ->
    comm_step self self'
| step_worker_setup self i sl l q env r w' t :
    slaves self !! i = Some sl ->
    _slaveRoutine_setup self env (mkW sl l q) = (r, w', t) ->
    comm_step self (with_slaves (<[i := slave w']> (slaves self)) self)
| step_worker self i sl l q env more r w' t :
    slaves self !! i = Some sl ->
    _slaveRoutine self env more (mkW sl l q) = (r, w', t) ->
    comm_step self (with_slaves (<[i := slave w']> (slaves self)) self)
| step_add self targetIndex lock_ok_ r self' t :
    add targetIndex lock_ok_ self = (r, self', t) ->
    comm_step self self'
| step_dc_vector self C r self' t :
    __handle_input_CTL_DC_VECTOR C self = (r, self', t) ->
    comm_step self self'
| step_flash self flag target msg :
    comm_step self (with_flash flag target msg self).

Definition reachable (self : FCCommunicator) : Prop :=
  exists self0, initial self0 /\ rtc comm_step self0 self.

(** The disconnect-after-timeouts property in its strict form: after
    exactly [maxTimeouts] turns without a reply, from a counter of zero,
    with nothing else pending, the slave is DISCONNECTED and one
    disconnect directive has been sent. *)
Definition disconnects_at_limit : Prop :=
  forall (self : FCCommunicator) (sl : FCSlave) (l : locals)
         (envs : list worker_env),
    getStatus sl = SS_CONNECTED ->
    timeouts l = 0%Z ->
    tryBuffer l = true ->
    mosi sl = [] ->
    flashFlag self = false ->
    Forall (fun env => silent env /\ lock_ok env = true) envs ->
    Z.of_nat (length envs) = maxTimeouts self ->
    let '(w', ts) := run_cycles self envs (mkW sl l []) in
    getStatus (slave w') = SS_DISCONNECTED /\
    length (List.filter is_disconnect_directive (concat ts)) = 1%nat.

(** The apply-once property in its strict form: whatever a reply tagged
    'T' carries besides a data index above the stored one, processing it
    stores that index and leaves the feedback pair holding the vectors
    converted from the reply. *)
Definition fresh_telemetry_is_applied : Prop :=
  forall (self : FCCommunicator) (reply : list pyval) (w : wstate)
         (v : pyval) (receivedDataIndex : Z),
    reply !! 1%nat = Some (PyStr "T") ->
    reply !! 2%nat = Some v ->
    int_value v = Some receivedDataIndex ->
    (getDataIndex (slave w) < receivedDataIndex)%Z ->
    forall r w' t,
      process_reply self reply w = (r, w', t) ->
      getDataIndex (slave w') = receivedDataIndex /\
      exists update,
        parse_feedback self reply w = (inr update, w, []) /\
        getMISO (slave w') = update.

(** A computation that neither reads nor writes the state, emits
    nothing, and raises only exceptions that satisfy [ok]. *)
Definition stateless {St A} (ok : exn -> Prop) (m : M event St A) : Prop :=
  exists r, (forall e, r = inl e -> ok e) /\ forall s, m s = (r, s, []).

(** The worker's state after [k] turns in which it sent one message and
    counted one missed reply: both counters and the MOSI index are [k]
    further. *)
Definition silent_bump (k : Z) (w : wstate) : wstate :=
  mkW (with_indices (mosiIndex (slave w) + k) (misoIndex (slave w))
         (dataIndex (slave w)) (dropIndex (slave w)) (slave w))
      (set_timeouts (timeouts (loc w) + k) (totalTimeouts (loc w) + k)
         (loc w))
      (inbox w).

(** One more missed reply. *)
Definition bump_timeouts (l : locals) : locals :=
  set_timeouts (timeouts l + 1) (totalTimeouts l + 1) l.

(** A worker in the CONNECTED state with no firmware update asking for a
    reboot, an empty mailbox and an empty socket buffer. *)
Definition steady (self : FCCommunicator) (w : wstate) : Prop :=
  getStatus (slave w) = SS_CONNECTED /\
  ~ flash_pending self (slave w) /\
  mosi (slave w) = [] /\
  inbox w = [].

(** A slave's feedback pair has [n] entries per vector. *)
Definition feedback_ok (n : nat) (sl : FCSlave) : Prop :=
  length (getMISO sl).1 = n /\ length (getMISO sl).2 = n.

(** A computation keeps an invariant of the state, however it ends. *)
Definition preserves {St A} (I : St -> Prop) (m : M event St A) : Prop :=
  forall s, I s -> I (m s).1.2.

(** The worker's slave has a feedback pair of [n] entries per vector. *)
Definition worker_ok (n : nat) (w : wstate) : Prop := feedback_ok n (slave w).

End Model.

(** ** A small communicator to run the model on *)

(** The definitions of this part use the concrete run time. *)

Definition test_self : FCCommunicator (RT := test_runtime) :=
  mkFCCommunicator "pw" 3 3 10 2 60000 "255.255.255.255" "consts"
    false None None [] ∅.

Definition test_address : address := ("10.0.0.2", 4000%Z).

Definition test_listener_env : listener_env :=
  {| chosen_name := "bob"; listener_lock_ok := true |}.

Definition test_mac : string := "aa:bb:cc:dd:ee:ff".

(** A well-formed announce, one with a port out of range, and one with a
    MAC that is too short. *)
Definition test_announce : string := "A|pw|aa:bb:cc:dd:ee:ff|N|5000|5001|v1".
Definition test_announce_bad_port : string :=
  "A|pw|aa:bb:cc:dd:ee:ff|N|0|5001|v1".
Definition test_announce_bad_mac : string := "A|pw|aa:bb:cc|N|5000|5001|v1".

(** A slave with two fans under [maxFans = 3], with its sockets open. *)
Definition test_slave (status_ : slave_status) : FCSlave (RT := test_runtime) :=
  with_sockets (Some 7000%Z) (Some 7001%Z)
    (new_FCSlave "bob" test_mac 2 3 status_ (Some "v1") 10
       (Some "10.0.0.2") (Some 5000%Z) (Some 5001%Z) 0).

Definition test_locals : locals :=
  mkLocals 0 0 "P" true 0 "H|7000,7001,consts".

Definition test_worker (status_ : slave_status) : wstate (RT := test_runtime) :=
  mkW (test_slave status_) test_locals [].

Definition test_silent : worker_env :=
  {| arrivals := []; lock_ok := true;
     new_misoPort := 8000; new_mosiPort := 8001 |}.

(** A communicator with one registered slave. *)
Definition test_registry (status_ : slave_status)
    : FCCommunicator (RT := test_runtime) :=
  with_macToIndexMap {[ test_mac := 0%nat ]}
    (with_slaves [test_slave status_] test_self).

(** Three slaves with 2, 1 and 3 fans, the second not connected, and a
    control vector whose duty cycles start at offset 1. *)
Definition test_fleet : FCCommunicator (RT := test_runtime) :=
  with_slaves
    [new_FCSlave "a" "aa:aa:aa:aa:aa:aa" 2 3 SS_CONNECTED None 10 None None
       None 0;
     new_FCSlave "b" "bb:bb:bb:bb:bb:bb" 1 3 SS_KNOWN None 10 None None
       None 1;
     new_FCSlave "c" "cc:cc:cc:cc:cc:cc" 3 3 SS_CONNECTED None 10 None None
       None 2]
    test_self.

Definition test_dc (z : Z) : num (RT := test_runtime) :=
  NFloat (RT := test_runtime) z.

Definition test_control_vector : list (num (RT := test_runtime)) :=
  [NInt 7; test_dc 10; test_dc 20; test_dc 30; test_dc 40; test_dc 50;
   test_dc 60].

(** A telemetry reply with data index 7, and one whose RPM field does not
    convert. *)
Definition test_telemetry : list pyval :=
  [PyInt 1; PyStr "T"; PyInt 7; PyStr "100,200"; PyStr "5,6"].
Definition test_telemetry_bad : list pyval :=
  [PyInt 1; PyStr "T"; PyInt 7; PyStr "x"; PyStr "5,6"].

(** * More of the back end

    The command handlers of the input thread, the remaining helpers of
    the communicator, the performance monitor of the same file and the
    error-recovery manager the receive path reports its timeouts to. *)

(** ** Command vectors

    A command vector is a list of integers laid out as [fc.standards]
    says: a target code at [CMD_I_TGT_CODE] ([TGT_ALL] or
    [TGT_SELECTED]) and, from [CMD_I_TGT_OFFSET] on, the arguments.  The
    constants are parameters of the development. *)

Class Standards := {
  CMD_I_TGT_CODE : nat;
  CMD_I_TGT_OFFSET : nat;
  CMD_I_BIP_IP : nat;
  TGT_ALL : Z;
  TGT_SELECTED : Z
}.

(** A concrete layout, used to evaluate the handlers on examples. *)
Definition test_standards : Standards := {|
  CMD_I_TGT_CODE := 1;
  CMD_I_TGT_OFFSET := 2;
  CMD_I_BIP_IP := 1;
  TGT_ALL := 4041;
  TGT_SELECTED := 4042
|}.

(** [for x in l: body(x)]; the turn number is passed along for what the
    body takes from its environment. *)
Fixpoint for_each_from {E St A} (k : nat) (l : list A)
    (body : nat -> A -> M E St unit) : M E St unit :=
  match l with
  | [] => ret tt
  | x :: l' => body k x ;; for_each_from (S k) l' body
  end.

(** The position [l[i]] reads for a Python index [i] on a list of
    length [len]: negative indices count from the end, and an index
    outside [-len, len) raises [IndexError]. *)
Definition py_position (len : nat) (i : Z) : option nat :=
  if (0 <=? i)%Z then
    if (i <? Z.of_nat len)%Z then Some (Z.to_nat i) else None
  else
    if (- Z.of_nat len <=? i)%Z then Some (Z.to_nat (Z.of_nat len + i))
    else None.

(** [str(x)] for what [sendChase] is given as [fanID]: [None], an
    integer or a list of integers. *)
Inductive chase_arg :=
| ChaseNone
| ChaseInt (z : Z)
| ChaseList (l : list Z).

Definition str_chase_arg (x : chase_arg) : string :=
  match x with
  | ChaseNone => "None"
  | ChaseInt z => pretty z
  | ChaseList l => "[" +:+ py_join ", " (map pretty l) +:+ "]"
  end.

(** The loop of [_validBIP] over the converted numbers. *)
Fixpoint octets_in_range (numbers : list Z) : bool :=
  match numbers with
  | [] => true
  | number :: rest =>
      if (number <? 0)%Z || (255 <? number)%Z then false
      else octets_in_range rest
  end.

Section Commands.
Context `{RT : Runtime} `{STD : Standards}.

(** [add] called with a Python integer: [self.slaves[targetIndex]]
    follows Python's indexing. *)
Definition add_at (targetIndex : Z) (lock_ok_ : bool)
    : M event FCCommunicator unit :=
  let* self := get in
  let* position :=
    or_raise (py_position (length (slaves self)) targetIndex) IndexError in
  add position lock_ok_.

(** [__handle_input_CMD_ADD].  [lock_ok_ k] is the outcome of the lock
    acquire of the [k]-th call of [add].  Formatting the message of the
    [ValueError] is taken to succeed. *)
Definition __handle_input_CMD_ADD (D : list Z) (lock_ok_ : nat -> bool)
    : M event FCCommunicator unit :=
  let* target := getitem D CMD_I_TGT_CODE in
  if decide (target = TGT_ALL) then
    let* self := get in
    for_each_from 0 (seq 0 (length (slaves self)))
      (fun k index_ => add index_ (lock_ok_ k))
  else if decide (target = TGT_SELECTED) then
    for_each_from 0 (drop CMD_I_TGT_OFFSET D)
      (fun k index_ => add_at index_ (lock_ok_ k))
  else raise ValueError.

(** [getSlaveByIndex] is called by [sendChase] and defined nowhere in
    the class; what the call does is left open. *)
Variable getSlaveByIndex : FCCommunicator -> Z -> exn + option FCSlave.

(** [sendChase(targetRPM, fanID, targets)]; [sendto] is taken not to
    raise. *)
Definition sendChase (targetRPM : Z) (fanID : chase_arg)
    (targets : option (list Z)) : M event FCCommunicator unit :=
  try_except
    (let* self := get in
     let dest :=
       (Some (defaultBroadcastIP self), Some (broadcastPort self)) in
     match targets with
     | None =>
         emit (EvSendto disconnectSocket
                 (DRaw ("C|" +:+ passcode self +:+ "|" +:+
                        str_chase_arg fanID +:+ "|" +:+ pretty targetRPM))
                 dest) ;;
         emit (EvPrint PW)
     | Some l =>
         for_each_from 0 l (fun _ slaveIndex =>
           match getSlaveByIndex self slaveIndex with
           | inl e => raise e
           | inr None => ret tt
           | inr (Some slave_) =>
               emit (EvSendto disconnectSocket
                       (DRaw ("c|" +:+ passcode self +:+ "|" +:+
                              str_chase_arg fanID +:+ "|" +:+
                              pretty targetRPM +:+ "|" +:+ getMAC slave_))
                       dest) ;;
               emit (EvPrint PW)
           end)
     end)
    (fun _ => true)
    (fun e => emit (EvPrint (PX e))).

(** [__handle_input_CMD_CHASE].  The handler calls
    [self.sendChase(targetRPM, targets)]: its second argument is bound
    to the parameter [fanID] of [sendChase], and [targets] keeps its
    default [None]. *)
Definition __handle_input_CMD_CHASE (D : list Z)
    : M event FCCommunicator unit :=
  try_except
    (let* targetRPM := getitem D CMD_I_TGT_OFFSET in
     let* targets :=
       if (CMD_I_TGT_CODE <? length D)%nat then
         let* target_code := getitem D CMD_I_TGT_CODE in
         if decide (target_code = TGT_ALL) then ret None
         else if decide (target_code = TGT_SELECTED) then
           ret (if (CMD_I_TGT_OFFSET + 1 <? length D)%nat
                then Some (drop (CMD_I_TGT_OFFSET + 1) D) else None)
         else ret None
       else ret None in
     sendChase targetRPM
       (match targets with Some l => ChaseList l | None => ChaseNone end)
       None ;;
     emit (EvPrint PS))
    (fun _ => true)
    (fun e =>
       if is_IndexError e || is_ValueError e then emit (EvPrint PE)
       else emit (EvPrint (PX e))).

(** [_validBIP]: the bare [except] turns every failure, that of
    [ip.split] on a value that is not a string included, into [False]. *)
Definition _validBIP (ip : pyval) : bool :=
  match ip with
  | PyInt _ => false
  | PyStr s =>
      if decide (s = "<broadcast>") then true
      else
        match mapM py_int (py_split "." s) with
        | None => false
        | Some numbers =>
            if decide (length numbers <> 4%nat) then false
            else octets_in_range numbers
        end
  end.

(** [__handle_input_CMD_BIP], on the member [broadcastIP] it writes. *)
Definition __handle_input_CMD_BIP (D : list pyval) : M event pyval unit :=
  let* ip := getitem D CMD_I_BIP_IP in
  if _validBIP ip then
    put ip ;; emit (EvPrint PS) ;; emit EvNetworkPipe
  else emit (EvPrint PE).

(** Modelled from the spec: accessor of FCSlave. *)
Definition getIP (sl : FCSlave) : option string := ip sl.

(** [sendDisconnect]; [sendto] is taken not to raise. *)
Definition sendDisconnect : M event FCCommunicator unit :=
  try_except
    (let* self := get in
     emit (EvSendto disconnectSocket (DToListener "X" (passcode self))
             (Some (defaultBroadcastIP self), Some (broadcastPort self))))
    (fun _ => true)
    (fun e => emit (EvPrint (PX e))).

(** [self.slaves[index].setMOSI((MOSI_DISCONNECT,), False)]. *)
Definition queue_disconnect (index_ : Z) : M event FCCommunicator unit :=
  let* self := get in
  let* position :=
    or_raise (py_position (length (slaves self)) index_) IndexError in
  let* slave_ := getitem (slaves self) position in
  put (with_slaves
         (<[position := setMOSI MOSI_DISCONNECT slave_]> (slaves self)) self).

(** [__handle_input_CMD_DISCONNECT].  Formatting the message of the
    [ValueError] is taken to succeed. *)
Definition __handle_input_CMD_DISCONNECT (D : list Z)
    : M event FCCommunicator unit :=
  let* target := getitem D CMD_I_TGT_CODE in
  if decide (target = TGT_ALL) then sendDisconnect
  else if decide (target = TGT_SELECTED) then
    for_each_from 0 (drop CMD_I_TGT_OFFSET D)
      (fun _ index_ => queue_disconnect index_)
  else raise ValueError.

(** [sendReboot(target)]; [sendto] is taken not to raise. *)
Definition sendReboot (target : option FCSlave)
    : M event FCCommunicator unit :=
  try_except
    (let* self := get in
     match target with
     | None =>
         emit (EvSendto rebootSocket (DToListener "R" (passcode self))
                 (Some (defaultBroadcastIP self), Some (broadcastPort self)))
     | Some target_ =>
         match getIP target_ with
         | Some ip_ =>
             emit (EvSendto rebootSocket (DToListener "R" (passcode self))
                     (Some ip_, Some (broadcastPort self)))
         | None =>
             emit (EvSendto rebootSocket
                     (DRaw ("r|" +:+ passcode self +:+ "|" +:+
                            getMAC target_))
                     (Some (defaultBroadcastIP self),
                      Some (broadcastPort self)))
         end
     end)
    (fun _ => true)
    (fun e => emit (EvPrint (PX e))).

(** [self.sendReboot(self.slaves[index])]. *)
Definition reboot_at (index_ : Z) : M event FCCommunicator unit :=
  let* self := get in
  let* position :=
    or_raise (py_position (length (slaves self)) index_) IndexError in
  let* slave_ := getitem (slaves self) position in
  sendReboot (Some slave_).

(** [__handle_input_CMD_REBOOT].  Formatting the message of the
    [ValueError] is taken to succeed. *)
Definition __handle_input_CMD_REBOOT (D : list Z)
    : M event FCCommunicator unit :=
  let* target := getitem D CMD_I_TGT_CODE in
  if decide (target = TGT_ALL) then sendReboot None
  else if decide (target = TGT_SELECTED) then
    for_each_from 0 (drop CMD_I_TGT_OFFSET D)
      (fun _ index_ => reboot_at index_)
  else raise ValueError.

(** [get_rpm_data]: the RPM vectors of all slaves, in registry order. *)
Definition get_rpm_data (self : FCCommunicator) : list Z :=
  fold_left (fun F_r slave_ => F_r ++ (getMISO slave_).1) (slaves self) [].

(** ** Vocabulary of the further statements *)

(** A datagram that decodes and whose second field is the
    communicator's passcode. *)
Definition carries_passcode (self : FCCommunicator)
    (messageReceived : string) : Prop :=
  is_ascii messageReceived = true /\
  exists m0 rest,
    py_split "|" messageReceived = m0 :: passcode self :: rest.

(** The fields of a slave record that identify the device. *)
Definition same_id (sl sl' : FCSlave) : Prop :=
  index sl' = index sl /\ mac sl' = mac sl /\ name sl' = name sl /\
  fans sl' = fans sl.

(** A list of slave records and a MAC index agree: every record sits at
    the position its [index] field names, every entry of the index
    points at a record with that MAC, and every record's MAC is in the
    index. *)
Definition index_agrees (l : list FCSlave) (m : gmap string nat) : Prop :=
  (forall i sl, l !! i = Some sl -> index sl = i) /\
  (forall mac_ i, m !! mac_ = Some i ->
     exists sl, l !! i = Some sl /\ mac sl = mac_) /\
  (forall i sl, l !! i = Some sl -> is_Some (m !! mac sl)).

Definition registry_consistent (self : FCCommunicator) : Prop :=
  index_agrees (slaves self) (macToIndexMap self).

(** No record of the first list is lost or moved in the second, and each
    is still the record of the same device. *)
Definition registry_extends (l l' : list FCSlave) : Prop :=
  forall i sl, l !! i = Some sl ->
    exists sl', l' !! i = Some sl' /\ same_id sl sl'.

(** What every move of a thread keeps true of the registry, from a
    registry [l0] on; with [u] set, the MACs of the records are moreover
    pairwise distinct. *)
Definition registry_inv (u : bool) (l0 : list FCSlave)
    (self : FCCommunicator) : Prop :=
  registry_consistent self /\
  registry_extends l0 (slaves self) /\
  (u = true -> NoDup (map mac (slaves self))).

(** What [add] does to a record when the registry lock is obtained. *)
Definition promote (sl : FCSlave) : FCSlave :=
  if decide (getStatus sl = SS_AVAILABLE) then setStatus SS_KNOWN None sl
  else sl.

(** The state vectors [add] queues for the records of a list. *)
Definition promotions (l : list FCSlave) : list event :=
  omap (fun sl =>
          if decide (getStatus sl = SS_AVAILABLE)
          then Some (EvSlaveUpdate (getSlaveStateVector (promote sl)))
          else None) l.

(** Successive calls of [_receive], each with the datagrams that arrive
    during it; the replies it returned, in order. *)
Fixpoint receive_all (batches : list (list string)) (w : wstate)
    : list (list pyval) * wstate :=
  match batches with
  | [] => ([], w)
  | arrivals_ :: batches' =>
      match _receive arrivals_ w with
      | (inr (Some reply), w1, _) =>
          let '(replies, w2) := receive_all batches' w1 in
          (reply :: replies, w2)
      | (_, w1, _) => receive_all batches' w1
      end
  end.

(** The exchange index a reply tuple starts with. *)
Definition reply_index (reply : list pyval) : option Z :=
  match reply with
  | PyInt index_ :: _ => Some index_
  | _ => None
  end.

(** A property of slave records that survives every update of the
    exchange indices, the mailbox, the feedback pair and the sockets. *)
Class WorkerStable (P : FCSlave -> Prop) : Prop := {
  stable_indices : forall a b c d sl, P sl -> P (with_indices a b c d sl);
  stable_mosi : forall q sl, P sl -> P (with_mosi q sl);
  stable_miso : forall m sl, P sl -> P (with_miso m sl);
  stable_sockets : forall a b sl, P sl -> P (with_sockets a b sl)
}.

(** One that also survives a change of status, endpoint or version. *)
Class StatusStable (P : FCSlave -> Prop) : Prop := {
  stable_status : forall x sl, P sl -> P (with_status x sl);
  stable_net : forall a b c d sl, P sl -> P (with_net a b c d sl)
}.

(** An invariant of a worker made of a property of its slave and one of
    its local variables. *)
Definition worker_inv (P : FCSlave -> Prop) (Q : locals -> Prop)
    (w : wstate) : Prop :=
  P (slave w) /\ Q (loc w).

(** No constraint on the local variables. *)
Definition any_locals : locals -> Prop := fun _ => True.

(** How often a position is named. *)
Definition times_named (p : nat) (named : list nat) : nat :=
  length (filter (fun n => n = p) named).

(** The datagram [sendReboot] sends for a slave. *)
Definition reboot_datagram (self : FCCommunicator) (sl : FCSlave) : event :=
  match getIP sl with
  | Some ip_ =>
      EvSendto rebootSocket (DToListener "R" (passcode self))
        (Some ip_, Some (broadcastPort self))
  | None =>
      EvSendto rebootSocket
        (DRaw ("r|" +:+ passcode self +:+ "|" +:+ getMAC sl))
        (Some (defaultBroadcastIP self), Some (broadcastPort self))
  end.

End Commands.

(** ** Python floats

    The clock ([time.time()]) and [psutil] give floats.  The code
    subtracts them, compares them with integer constants and aggregates
    lists of them; these operations are parameters of the development. *)

Class PyFloat := {
  pyfloat : Type;
  float_of_int : Z -> pyfloat;
  float_sub : pyfloat -> pyfloat -> pyfloat;
  float_ge : pyfloat -> Z -> bool;
  float_gt : pyfloat -> Z -> bool;
  float_lt : pyfloat -> Z -> bool;
  float_average : list pyfloat -> pyfloat;
  float_min : list pyfloat -> pyfloat;
  float_max : list pyfloat -> pyfloat
}.

(** Whole numbers as floats, used to evaluate the model on examples. *)
Definition test_floats : PyFloat := {|
  pyfloat := Z;
  float_of_int := fun z => z;
  float_sub := Z.sub;
  float_ge := Z.geb;
  float_gt := Z.gtb;
  float_lt := Z.ltb;
  float_average := fun l => (foldr Z.add 0 l / Z.of_nat (length l))%Z;
  float_min := fun l => foldr Z.min (default 0%Z (head l)) l;
  float_max := fun l => foldr Z.max (default 0%Z (head l)) l
|}.

(** [l[-n:]] for a positive [n]: the last [n] entries of [l], all of it
    when it is shorter. *)
Definition py_suffix {A} (n : nat) (l : list A) : list A :=
  drop (length l - n) l.

(** ** The performance monitor (class FCPerformanceMonitor)

    The threads of the communicator share one monitor and call it
    without a lock; the calls are modelled as taking place one after
    the other. *)

(** What the methods of the monitor can raise on its dictionary: a
    missing key, or one of the exceptions of the thread monad. *)
Inductive monitor_exn :=
| KeyError
| Other (e : exn).

Section PerformanceMonitor.
Context `{PF : PyFloat}.

(** A value of [_metrics]: a list of floats or a counter. *)
Inductive metric :=
| MList (values : list pyfloat)
| MCount (n : Z).

Record FCPerformanceMonitor := mkMonitor {
  _metrics : gmap string metric;
  _start_times : gmap string pyfloat;
  _enabled : bool
}.

Definition with_metrics (f : gmap string metric -> gmap string metric)
    (self : FCPerformanceMonitor) : FCPerformanceMonitor :=
  mkMonitor (f (_metrics self)) (_start_times self) (_enabled self).

Definition with_start_times (f : gmap string pyfloat -> gmap string pyfloat)
    (self : FCPerformanceMonitor) : FCPerformanceMonitor :=
  mkMonitor (_metrics self) (f (_start_times self)) (_enabled self).

(** [__init__]. *)
Definition new_FCPerformanceMonitor : FCPerformanceMonitor :=
  mkMonitor
    (list_to_map
       [("message_send_time", MList []);
        ("message_receive_time", MList []);
        ("network_latency", MList []);
        ("thread_cpu_usage", MList []);
        ("memory_usage", MList []);
        ("error_count", MCount 0);
        ("total_messages", MCount 0)])
    ∅
    true.

(** [start_timing]; [now] is what [time.time()] returns. *)
Definition start_timing (operation : string) (now : pyfloat)
    (self : FCPerformanceMonitor) : FCPerformanceMonitor :=
  if _enabled self
  then with_start_times (fun st => <[operation := now]> st) self
  else self.

(** [end_timing].  The result is the exception raised, if any, and the
    monitor as the call leaves it. *)
Definition end_timing (operation : string) (now : pyfloat)
    (self : FCPerformanceMonitor)
    : option monitor_exn * FCPerformanceMonitor :=
  if _enabled self then
    match _start_times self !! operation with
    | Some start =>
        let duration := float_sub now start in
        match _metrics self !! operation with
        | Some (MList values) =>
            let values := values ++ [duration] in
            let values :=
              if (1000 <? length values)%nat
              then py_suffix 1000 values else values in
            (None,
             with_start_times (fun st => delete operation st)
               (with_metrics (fun m => <[operation := MList values]> m) self))
        | Some (MCount _) =>
            (* an integer has no [append] *)
            (Some (Other AttributeError), self)
        | None =>
            (None, with_start_times (fun st => delete operation st) self)
        end
    | None => (None, self)
    end
  else (None, self).

(** [self._metrics[key] += 1]. *)
Definition increment (key : string) (self : FCPerformanceMonitor)
    : option monitor_exn * FCPerformanceMonitor :=
  match _metrics self !! key with
  | Some (MCount n) =>
      (None, with_metrics (fun m => <[key := MCount (n + 1)]> m) self)
  | Some (MList _) => (Some (Other TypeError), self)
  | None => (Some KeyError, self)
  end.

(** [record_message]. *)
Definition record_message (self : FCPerformanceMonitor)
    : option monitor_exn * FCPerformanceMonitor :=
  if _enabled self then increment "total_messages" self else (None, self).

(** [record_error]. *)
Definition record_error (self : FCPerformanceMonitor)
    : option monitor_exn * FCPerformanceMonitor :=
  if _enabled self then increment "error_count" self else (None, self).

(** [self._metrics[key].append(x)]; [None] when it raises. *)
Definition append_sample (key : string) (x : pyfloat)
    (self : FCPerformanceMonitor) : option FCPerformanceMonitor :=
  match _metrics self !! key with
  | Some (MList values) =>
      Some (with_metrics (fun m => <[key := MList (values ++ [x])]> m) self)
  | _ => None
  end.

(** One turn of the loop [for key in [...]] of [record_system_metrics];
    [None] when it raises. *)
Definition limit_samples (key : string) (self : FCPerformanceMonitor)
    : option FCPerformanceMonitor :=
  match _metrics self !! key with
  | Some (MList values) =>
      if (100 <? length values)%nat
      then Some (with_metrics
                   (fun m => <[key := MList (py_suffix 100 values)]> m) self)
      else Some self
  | _ => None
  end.

(** [record_system_metrics].  [cpu_percent] and [memory_percent] are
    the readings of [psutil], [None] when the reading raises.  Every
    exception ends the call silently, with what was done before it
    kept. *)
Definition record_system_metrics (cpu_percent memory_percent : option pyfloat)
    (self : FCPerformanceMonitor) : FCPerformanceMonitor :=
  if _enabled self then
    match cpu_percent with
    | None => self
    | Some cpu =>
        match append_sample "thread_cpu_usage" cpu self with
        | None => self
        | Some self1 =>
            match memory_percent with
            | None => self1
            | Some memory =>
                match append_sample "memory_usage" memory self1 with
                | None => self1
                | Some self2 =>
                    match limit_samples "thread_cpu_usage" self2 with
                    | None => self2
                    | Some self3 =>
                        match limit_samples "memory_usage" self3 with
                        | None => self3
                        | Some self4 => self4
                        end
                    end
                end
            end
        end
    end
  else self.

(** An entry of the dictionary [get_performance_stats] returns. *)
Inductive stat :=
| Summary (average min max : pyfloat) (count : nat)
| Value (n : Z).

(** [get_performance_stats]. *)
Definition get_performance_stats (self : FCPerformanceMonitor)
    : gmap string stat :=
  omap (fun values =>
          match values with
          | MList [] => None
          | MList values =>
              Some (Summary (float_average values) (float_min values)
                      (float_max values) (length values))
          | MCount n => Some (Value n)
          end)
       (_metrics self).

(** [reset_metrics]. *)
Definition reset_metrics (self : FCPerformanceMonitor)
    : FCPerformanceMonitor :=
  with_metrics
    (fmap (fun values =>
             match values with MList _ => MList [] | MCount _ => MCount 0 end))
    self.

(** [enable] and [disable]. *)
Definition enable (self : FCPerformanceMonitor) : FCPerformanceMonitor :=
  mkMonitor (_metrics self) (_start_times self) true.

Definition disable (self : FCPerformanceMonitor) : FCPerformanceMonitor :=
  mkMonitor (_metrics self) (_start_times self) false.

(** *** Vocabulary of the statements *)

(** A call of a method of the monitor, with what it takes from the
    clock or from [psutil]. *)
Inductive monitor_call :=
| StartTiming (operation : string) (now : pyfloat)
| EndTiming (operation : string) (now : pyfloat)
| RecordMessage
| RecordError
| RecordSystemMetrics (cpu_percent memory_percent : option pyfloat)
| ResetMetrics
| Enable
| Disable.

Definition monitor_step (c : monitor_call) (self : FCPerformanceMonitor)
    : option monitor_exn * FCPerformanceMonitor :=
  match c with
  | StartTiming operation now => (None, start_timing operation now self)
  | EndTiming operation now => end_timing operation now self
  | RecordMessage => record_message self
  | RecordError => record_error self
  | RecordSystemMetrics cpu memory =>
      (None, record_system_metrics cpu memory self)
  | ResetMetrics => (None, reset_metrics self)
  | Enable => (None, enable self)
  | Disable => (None, disable self)
  end.

(** The monitor after a sequence of calls, whatever they raise. *)
Definition monitor_run (calls : list monitor_call)
    (self : FCPerformanceMonitor) : FCPerformanceMonitor :=
  foldl (fun self c => (monitor_step c self).2) self calls.

(** The list stored under [key], empty when there is none. *)
Definition samples (key : string) (self : FCPerformanceMonitor)
    : list pyfloat :=
  match _metrics self !! key with
  | Some (MList values) => values
  | _ => []
  end.

(** The names [end_timing] records durations under. *)
Definition timing_keys : list string :=
  ["message_send_time"; "message_receive_time"; "network_latency";
   "thread_cpu_usage"; "memory_usage"].

Definition counter_keys : list string := ["error_count"; "total_messages"].

(** A CPU reading followed by a memory reading that raises. *)
Definition half_sample (c : monitor_call) : bool :=
  match c with
  | RecordSystemMetrics (Some _) None => true
  | _ => false
  end.

(** The lists [record_system_metrics] fills. *)
Definition sampled_keys : list string := ["thread_cpu_usage"; "memory_usage"].

(** An [end_timing] under one of the names [record_system_metrics]
    fills. *)
Definition times_sampled_key (c : monitor_call) : bool :=
  match c with
  | EndTiming operation _ => bool_decide (operation ∈ sampled_keys)
  | _ => false
  end.

(** What [_metrics] holds under a key, and what [__init__] puts there. *)
Inductive metric_kind := KList | KCount | KAbsent.

Definition kind (m : option metric) : metric_kind :=
  match m with
  | Some (MList _) => KList
  | Some (MCount _) => KCount
  | None => KAbsent
  end.

Definition declared_kind (key : string) : metric_kind :=
  if decide (key ∈ timing_keys) then KList
  else if decide (key ∈ counter_keys) then KCount
  else KAbsent.

Definition well_formed (self : FCPerformanceMonitor) : Prop :=
  forall key, kind (_metrics self !! key) = declared_kind key.

(** The calls [start_timing(operation)] ... [end_timing(operation)] of
    a sequence of timed operations, given the clock at each start and
    end. *)
Definition timed (operation : string) (clock : list (pyfloat * pyfloat))
    : list monitor_call :=
  flat_map (fun p => [StartTiming operation p.1; EndTiming operation p.2])
    clock.

End PerformanceMonitor.

(** ** The error-recovery manager (module error_recovery)

    One manager is shared by the program.  Its calls are modelled as
    taking place one after the other; what the logger is given is kept
    by its level only. *)

Module error_recovery.

Inductive ErrorSeverity := LOW | MEDIUM | HIGH | CRITICAL.

#[global] Instance ErrorSeverity_eq_dec : EqDecision ErrorSeverity.
Proof. solve_decision. Defined.

(** [severity.name]. *)
Definition severity_name (severity_ : ErrorSeverity) : string :=
  match severity_ with
  | LOW => "LOW"
  | MEDIUM => "MEDIUM"
  | HIGH => "HIGH"
  | CRITICAL => "CRITICAL"
  end.

(** What a context dictionary holds: integers, strings, a socket
    object or [None]. *)
Inductive value :=
| VInt (z : Z)
| VStr (s : string)
| VSocket
| VNone.

(** Truth value of an object, as [if socket_obj:] takes it. *)
Definition truthy (v : value) : bool :=
  match v with
  | VInt z => negb (z =? 0)%Z
  | VStr s => negb (String.eqb s "")
  | VSocket => true
  | VNone => false
  end.

(** Levels of the calls of [self.logger]. *)
Inductive log_level := INFO | WARNING | ERROR.

#[global] Instance log_level_eq_dec : EqDecision log_level.
Proof. solve_decision. Defined.

(** What the manager does to the outside: it logs (the text is left
    out), sleeps, and collects garbage. *)
Inductive effect :=
| Log (level : log_level)
| Sleep (delay : Z)
| Collect.

#[global] Instance effect_eq_dec : EqDecision effect.
Proof. solve_decision. Defined.

(** A Python dictionary with string keys, in insertion order. *)
Fixpoint dict_get {A} (key : string) (d : list (string * A)) : option A :=
  match d with
  | [] => None
  | (k, v) :: d' => if decide (k = key) then Some v else dict_get key d'
  end.

Fixpoint dict_set {A} (key : string) (v : A) (d : list (string * A))
    : list (string * A) :=
  match d with
  | [] => [(key, v)]
  | (k, v') :: d' =>
      if decide (k = key) then (k, v) :: d' else (k, v') :: dict_set key v d'
  end.

(** The recovery strategies: the seven methods of the manager and the
    callables a program registers, told apart by a number. *)
Inductive strategy :=
| _handle_socket_timeout
| _handle_socket_error
| _handle_network_error
| _handle_thread_deadlock
| _handle_memory_error
| _handle_communication_error
| _handle_system_resource_error
| Registered (callable : nat).

(** How a call ends: it returns a value, of which only the truth value
    is used, or raises. *)
Inductive outcome :=
| Returns (success : bool)
| Raises.

(** How [stability_optimizer.optimize_socket_timeout] (with its import)
    ends: it raises, or returns a value that the format [:.2f] accepts
    or not. *)
Inductive optimize_outcome :=
| OptimizeRaises
| OptimizeReturns (formats : bool).

Section Manager.
Context `{PF : PyFloat}.

Record ErrorInfo := mkErrorInfo {
  error_type : string;
  message : string;
  timestamp : pyfloat;
  severity : ErrorSeverity;
  context : gmap string value;
  traceback_info : string;
  retry_count : Z
}.

Definition with_retry_count (n : Z) (error_info : ErrorInfo) : ErrorInfo :=
  mkErrorInfo (error_type error_info) (message error_info)
    (timestamp error_info) (severity error_info) (context error_info)
    (traceback_info error_info) n.

(** The manager.  [ErrorInfo] objects are mutable and shared between
    the history and the recovery in progress: [objects] holds them, in
    the order of their creation, and the history holds positions in
    [objects]. *)
Record ErrorRecoveryManager := mkManager {
  objects : list ErrorInfo;
  error_history : list nat;
  recovery_strategies : list (string * strategy);
  max_history_size : Z;
  max_retry_attempts : Z;
  retry_delays : list Z;
  last_log_time : gmap string pyfloat;
  log_interval : Z
}.

Definition with_objects (f : list ErrorInfo -> list ErrorInfo)
    (self : ErrorRecoveryManager) : ErrorRecoveryManager :=
  mkManager (f (objects self)) (error_history self)
    (recovery_strategies self) (max_history_size self)
    (max_retry_attempts self) (retry_delays self) (last_log_time self)
    (log_interval self).

Definition with_error_history (f : list nat -> list nat)
    (self : ErrorRecoveryManager) : ErrorRecoveryManager :=
  mkManager (objects self) (f (error_history self))
    (recovery_strategies self) (max_history_size self)
    (max_retry_attempts self) (retry_delays self) (last_log_time self)
    (log_interval self).

Definition with_recovery_strategies
    (f : list (string * strategy) -> list (string * strategy))
    (self : ErrorRecoveryManager) : ErrorRecoveryManager :=
  mkManager (objects self) (error_history self)
    (f (recovery_strategies self)) (max_history_size self)
    (max_retry_attempts self) (retry_delays self) (last_log_time self)
    (log_interval self).

Definition with_last_log_time
    (f : gmap string pyfloat -> gmap string pyfloat)
    (self : ErrorRecoveryManager) : ErrorRecoveryManager :=
  mkManager (objects self) (error_history self)
    (recovery_strategies self) (max_history_size self)
    (max_retry_attempts self) (retry_delays self) (f (last_log_time self))
    (log_interval self).

(** [_register_default_strategies] on the empty dictionary. *)
Definition default_strategies : list (string * strategy) :=
  [("socket_timeout", _handle_socket_timeout);
   ("socket_error", _handle_socket_error);
   ("network_error", _handle_network_error);
   ("thread_deadlock", _handle_thread_deadlock);
   ("memory_error", _handle_memory_error);
   ("communication_error", _handle_communication_error);
   ("system_resource_error", _handle_system_resource_error)].

(** [__init__]. *)
Definition new_ErrorRecoveryManager : ErrorRecoveryManager :=
  mkManager [] [] default_strategies 1000 3 [1; 2; 5]%Z ∅ 30.

(** [register_recovery_strategy]. *)
Definition register_recovery_strategy (error_type_ : string)
    (strategy_ : strategy) (self : ErrorRecoveryManager)
    : ErrorRecoveryManager * list effect :=
  (with_recovery_strategies (dict_set error_type_ strategy_) self,
   [Log INFO]).

(** [_determine_severity]. *)
Definition _determine_severity (error_type_ : string) : ErrorSeverity :=
  default MEDIUM
    (dict_get error_type_
       [("socket_timeout", LOW);
        ("socket_error", MEDIUM);
        ("network_error", MEDIUM);
        ("thread_deadlock", HIGH);
        ("memory_error", HIGH);
        ("communication_error", MEDIUM);
        ("system_resource_error", HIGH)]).

(** [_should_log]. *)
Definition _should_log (error_type_ : string) (current_time : pyfloat)
    (self : ErrorRecoveryManager) : bool * ErrorRecoveryManager :=
  let last_time :=
    default (float_of_int 0) (last_log_time self !! error_type_) in
  if float_ge (float_sub current_time last_time) (log_interval self)
  then (true,
        with_last_log_time (fun m => <[error_type_ := current_time]> m) self)
  else (false, self).

(** What one call of a strategy takes from outside: the clock, how the
    socket optimisation ends, whether [socket.create_connection]
    succeeds, the readings of [psutil] ([None] when the reading raises)
    and, for a registered callable, how it ends.  A registered callable
    is taken to leave the manager and the error record alone. *)
Record strategy_env := mkStrategyEnv {
  env_time : pyfloat;
  env_optimize : optimize_outcome;
  env_connectivity : bool;
  env_cpu_percent : option pyfloat;
  env_memory_percent : option pyfloat;
  env_registered : nat -> outcome
}.

(** The end of [_handle_socket_timeout], after the [if socket_obj]
    block. *)
Definition socket_timeout_tail (error_type_ : string)
    (current_time : pyfloat) (self : ErrorRecoveryManager)
    : outcome * ErrorRecoveryManager * list effect :=
  let '(log, self) := _should_log error_type_ current_time self in
  (Returns true, self, if log then [Log INFO] else []).

(** The strategies.  The result is how the call ends, the manager and
    what was done. *)
Definition run_strategy (strategy_ : strategy) (env : strategy_env)
    (error_info : ErrorInfo) (self : ErrorRecoveryManager)
    : outcome * ErrorRecoveryManager * list effect :=
  match strategy_ with
  | _handle_socket_timeout =>
      let current_time := env_time env in
      let socket_obj := context error_info !! "socket" in
      if default false (truthy <$> socket_obj) then
        match env_optimize env with
        | OptimizeReturns formats =>
            let '(log, self1) :=
              _should_log (error_type error_info) current_time self in
            if log then
              if formats then (Returns true, self1, [Log INFO])
              else
                let '(r, self2, t) :=
                  socket_timeout_tail (error_type error_info) current_time
                    self1 in
                (r, self2, Log ERROR :: t)
            else (Returns true, self1, [])
        | OptimizeRaises =>
            let '(r, self1, t) :=
              socket_timeout_tail (error_type error_info) current_time self in
            (r, self1, Log ERROR :: t)
        end
      else socket_timeout_tail (error_type error_info) current_time self
  | _handle_socket_error =>
      let '(log, self1) :=
        _should_log (error_type error_info) (env_time env) self in
      (Returns true, self1, if log then [Log INFO] else [])
  | _handle_network_error =>
      if env_connectivity env
      then (Returns true, self, [Log INFO; Log INFO])
      else (Returns false, self, [Log INFO; Log ERROR])
  | _handle_thread_deadlock => (Returns false, self, [Log WARNING])
  | _handle_memory_error =>
      match env_memory_percent env with
      | None => (Raises, self, [Log WARNING; Collect])
      | Some memory_percent =>
          if float_gt memory_percent 90
          then (Returns false, self, [Log WARNING; Collect; Log ERROR])
          else (Returns true, self, [Log WARNING; Collect])
      end
  | _handle_communication_error => (Returns true, self, [Log INFO])
  | _handle_system_resource_error =>
      match env_cpu_percent env with
      | None => (Raises, self, [Log WARNING])
      | Some cpu_percent =>
          match env_memory_percent env with
          | None => (Raises, self, [Log WARNING])
          | Some memory_percent =>
              if float_gt cpu_percent 90 || float_gt memory_percent 90
              then (Returns false, self, [Log WARNING; Log ERROR])
              else (Returns true, self, [Log WARNING])
          end
      end
  | Registered callable => (env_registered env callable, self, [])
  end.

(** The block [if error_info.retry_count > 0: ...] of
    [_attempt_recovery]: the sleep, or [None] when the index or the
    sleep raises. *)
Definition retry_delay (retry_count_ : Z) (self : ErrorRecoveryManager)
    : option (list effect) :=
  if (0 <? retry_count_)%Z then
    let i := Z.min (retry_count_ - 1)
               (Z.of_nat (length (retry_delays self)) - 1) in
    position ← py_position (length (retry_delays self)) i;
    delay ← retry_delays self !! position;
    if (delay <? 0)%Z then None else Some [Sleep delay]
  else Some [].

(** [_attempt_recovery] on the object at [error_info].  [envs] holds
    what the calls of the strategy take from outside, one entry a call;
    the result is [None] when [envs] is used up before the method
    returns or [error_info] is no object. *)
Fixpoint _attempt_recovery (envs : list strategy_env) (error_info : nat)
    (self : ErrorRecoveryManager)
    : option bool * ErrorRecoveryManager * list effect :=
  match objects self !! error_info with
  | None => (None, self, [])
  | Some info =>
      match dict_get (error_type info) (recovery_strategies self) with
      | None => (Some false, self, [Log WARNING])
      | Some strategy_ =>
          if (max_retry_attempts self <=? retry_count info)%Z
          then (Some false, self, [Log ERROR])
          else
            match retry_delay (retry_count info) self with
            | None => (Some false, self, [Log ERROR])
            | Some slept =>
                match envs with
                | [] => (None, self, slept)
                | env :: envs' =>
                    let '(success, self1, done) :=
                      run_strategy strategy_ env info self in
                    match success with
                    | Raises =>
                        (Some false, self1, slept ++ done ++ [Log ERROR])
                    | Returns true =>
                        (Some true, self1, slept ++ done ++ [Log INFO])
                    | Returns false =>
                        let self2 :=
                          with_objects
                            (fun o =>
                               <[error_info :=
                                   with_retry_count (retry_count info + 1)
                                     info]> o)
                            self1 in
                        let '(result, self3, rest) :=
                          _attempt_recovery envs' error_info self2 in
                        (result, self3,
                         slept ++ done ++ [Log WARNING] ++ rest)
                    end
                end
            end
      end
  end.

(** [handle_error].  [message_] is [str(error)], [now] the clock and
    [traceback_] what [traceback.format_exc()] returns. *)
Definition handle_error (error_type_ message_ : string)
    (context_ : option (gmap string value)) (now : pyfloat)
    (traceback_ : string) (envs : list strategy_env)
    (self : ErrorRecoveryManager)
    : option bool * ErrorRecoveryManager * list effect :=
  let context_ := default ∅ context_ in
  let info :=
    mkErrorInfo error_type_ message_ now (_determine_severity error_type_)
      context_ traceback_ 0 in
  let error_info := length (objects self) in
  let self := with_objects (fun o => o ++ [info]) self in
  let self := with_error_history (fun h => h ++ [error_info]) self in
  let self :=
    if (max_history_size self <? Z.of_nat (length (error_history self)))%Z
    then with_error_history (fun h => tail h) self
    else self in
  let '(result, self, done) := _attempt_recovery envs error_info self in
  (result, self, Log ERROR :: done).

(** The dictionary [get_error_statistics] returns. *)
Record statistics := mkStatistics {
  total_errors : nat;
  error_counts : gmap string Z;
  severity_counts : gmap string Z;
  recent_errors : list (string * string * pyfloat * string);
  strategies : list string
}.

(** One turn of the loop of [get_error_statistics]. *)
Definition count_error (current_time : pyfloat)
    (acc : gmap string Z * gmap string Z
           * list (string * string * pyfloat * string))
    (error : ErrorInfo) :=
  let '(error_counts_, severity_counts_, recent_errors_) := acc in
  let error_counts_ :=
    <[error_type error :=
        (default 0 (error_counts_ !! error_type error) + 1)%Z]>
      error_counts_ in
  let severity_name_ := severity_name (severity error) in
  let severity_counts_ :=
    <[severity_name_ :=
        (default 0 (severity_counts_ !! severity_name_) + 1)%Z]>
      severity_counts_ in
  let recent_errors_ :=
    if float_lt (float_sub current_time (timestamp error)) 3600
    then recent_errors_
           ++ [(error_type error, message error, timestamp error,
                severity_name_)]
    else recent_errors_ in
  (error_counts_, severity_counts_, recent_errors_).

(** The records the history refers to. *)
Definition history (self : ErrorRecoveryManager) : list ErrorInfo :=
  omap (fun error_info => objects self !! error_info) (error_history self).

(** [get_error_statistics]; [None] is the empty dictionary. *)
Definition get_error_statistics (current_time : pyfloat)
    (self : ErrorRecoveryManager) : option statistics :=
  match error_history self with
  | [] => None
  | _ =>
      let '(error_counts_, severity_counts_, recent_errors_) :=
        foldl (count_error current_time) (∅, ∅, []) (history self) in
      Some (mkStatistics (length (error_history self)) error_counts_
              severity_counts_ recent_errors_
              (recovery_strategies self).*1)
  end.

(** [clear_error_history]. *)
Definition clear_error_history (self : ErrorRecoveryManager)
    : ErrorRecoveryManager * list effect :=
  (with_error_history (fun _ => []) self, [Log INFO]).

(** *** Vocabulary of the statements *)

(** The delays slept, in order. *)
Definition sleeps (done : list effect) : list Z :=
  omap (fun e => match e with Sleep delay => Some delay | _ => None end) done.

(** A call of a method of the manager. *)
Inductive manager_call :=
| HandleError (error_type_ message_ : string)
    (context_ : option (gmap string value)) (now : pyfloat)
    (traceback_ : string) (envs : list strategy_env)
| RegisterRecoveryStrategy (error_type_ : string) (strategy_ : strategy)
| ClearErrorHistory.

Definition manager_step (c : manager_call) (self : ErrorRecoveryManager)
    : ErrorRecoveryManager :=
  match c with
  | HandleError error_type_ message_ context_ now traceback_ envs =>
      (handle_error error_type_ message_ context_ now traceback_ envs
         self).1.2
  | RegisterRecoveryStrategy error_type_ strategy_ =>
      (register_recovery_strategy error_type_ strategy_ self).1
  | ClearErrorHistory => (clear_error_history self).1
  end.

Definition manager_run (calls : list manager_call)
    (self : ErrorRecoveryManager) : ErrorRecoveryManager :=
  foldl (fun self c => manager_step c self) self calls.

(** Two managers that differ at most in their [ErrorInfo] objects and
    in [last_log_time]. *)
Definition same_settings (self self' : ErrorRecoveryManager) : Prop :=
  error_history self' = error_history self /\
  recovery_strategies self' = recovery_strategies self /\
  max_history_size self' = max_history_size self /\
  max_retry_attempts self' = max_retry_attempts self /\
  retry_delays self' = retry_delays self /\
  log_interval self' = log_interval self.

(** The settings [__init__] gives, and a history that refers to
    objects of the manager, oldest first. *)
Definition manager_ok (self : ErrorRecoveryManager) : Prop :=
  max_history_size self = 1000%Z /\
  max_retry_attempts self = 3%Z /\
  retry_delays self = [1; 2; 5]%Z /\
  Forall (fun error_info => (error_info < length (objects self))%nat)
    (error_history self) /\
  StronglySorted lt (error_history self) /\
  (length (error_history self) <= 1000)%nat.

(** How many records of a list satisfy a test. *)
Definition count_of (test : ErrorInfo -> bool) (l : list ErrorInfo) : Z :=
  Z.of_nat (length (filter (fun error => test error = true) l)).

(** The entry of [recent_errors] for a record. *)
Definition recent_entry (error : ErrorInfo)
    : string * string * pyfloat * string :=
  (error_type error, message error, timestamp error,
   severity_name (severity error)).

(** A counter of a dictionary of counts: absent at zero. *)
Definition counter (n : Z) : option Z :=
  if decide (n = 0%Z) then None else Some n.

End Manager.

End error_recovery.

(** ** More examples to run the model on *)

(** An announce with another passcode, and a hello of the bootloader of
    the registered slave. *)
Definition test_foreign : string := "A|other|aa:bb:cc:dd:ee:ff|N|5000|5001|v1".
Definition test_bootloader : string := "B|pw|aa:bb:cc:dd:ee:ff|N|bl2".

(** The registry of one CONNECTED slave of version v1 during a firmware
    update to version v2. *)
Definition test_flashing : FCCommunicator (RT := test_runtime) :=
  with_flash true (Some "v2") (Some "U|pw|60000|8000|fw.bin|1024")
    (test_registry SS_CONNECTED).

(** The locals of a worker that has used its reconnect probe. *)
Definition test_probe_used : locals :=
  mkLocals 0 0 "P" false 0 "H|7000,7001,consts".

(** A turn in which the acknowledgment of a handshake arrives. *)
Definition test_acknowledged : worker_env :=
  {| arrivals := ["5|H"]; lock_ok := true;
     new_misoPort := 8000; new_mosiPort := 8001 |}.

(** Command vectors under [test_standards]: ADD for all slaves, ADD for
    the slaves 0 and 5, CHASE. *)
Definition test_add_all : list Z := [1; 4041]%Z.
Definition test_add_selected : list Z := [1; 4042; 0; 5]%Z.

(** A monitor and a manager over whole-number floats. *)
Definition test_monitor : FCPerformanceMonitor (PF := test_floats) :=
  new_FCPerformanceMonitor.

Definition test_manager
    : error_recovery.ErrorRecoveryManager (PF := test_floats) :=
  error_recovery.new_ErrorRecoveryManager.

(** An environment in which nothing works: the socket optimisation
    raises, there is no connectivity, the readings are at 95 percent
    and registered callables raise. *)
Definition test_strategy_env : error_recovery.strategy_env (PF := test_floats) :=
  error_recovery.mkStrategyEnv (PF := test_floats) 100%Z
    error_recovery.OptimizeRaises false
    (Some 95%Z) (Some 95%Z) (fun _ => error_recovery.Raises).

(** The context the receive path passes on a timeout. *)
Definition test_context : gmap string error_recovery.value :=
  <["slave_index" := error_recovery.VInt 0]>
    (<["operation" := error_recovery.VStr "receive"]>
       {["socket" := error_recovery.VSocket]}).

(** * Properties *)

Section Properties.
Context `{RT : Runtime}.

(** ** Running the monad *)

Ltac munfold :=
  cbv beta delta [bind ret get put modify emit raise or_raise try_except
                  getitem int_of_str getitem_neg].

Lemma bind_run {E St A B} (m : M E St A) (k : A -> M E St B) s a s1 t1 :
  m s = (inr a, s1, t1) ->
  bind m k s = (let '(r, s2, t2) := k a s1 in (r, s2, t1 ++ t2)).
Proof. unfold bind. intros ->. reflexivity. Qed.

Lemma bind_raise {E St A B} (m : M E St A) (k : A -> M E St B) s e s1 t1 :
  m s = (inl e, s1, t1) -> bind m k s = (inl e, s1, t1).
Proof. unfold bind. intros ->. reflexivity. Qed.

(** ** The outbound sequence counter *)

Lemma send_hsk message_ repeat w :
  _send message_ repeat true w
  = (inr tt, with_slave (setMOSIIndex 0) w,
     [EvSendto (slave_mosiSocket (mac (slave w))) (DIndexed 0 message_)
        (ip (slave w), getMOSIPort (slave w))]).
Proof. reflexivity. Qed.

Lemma send_plain message_ repeat w :
  _send message_ repeat false w
  = (inr tt, with_slave incrementMOSIIndex w,
     [EvSendto (slave_mosiSocket (mac (slave w)))
        (DIndexed (getMOSIIndex (slave w) + 1) message_)
        (ip (slave w), getMOSIPort (slave w))]).
Proof. reflexivity. Qed.

Lemma send_all_indices messages : forall w,
  exists w' t,
    send_all messages w = (inr tt, w', t) /\
    sent_indices t
      = map (fun k => (getMOSIIndex (slave w) + Z.of_nat k)%Z)
          (seq 1 (length messages)) /\
    getMOSIIndex (slave w')
      = (getMOSIIndex (slave w) + Z.of_nat (length messages))%Z.
Proof.
  induction messages as [|m messages IH]; intros w.
  - exists w, []. cbn. split; [reflexivity|]. split; [reflexivity|]. lia.
  - destruct (IH (with_slave incrementMOSIIndex w)) as (w' & t & Hrun & Hidx & Hlast).
    exists w', (EvSendto (slave_mosiSocket (mac (slave w)))
                  (DIndexed (getMOSIIndex (slave w) + 1) m)
                  (ip (slave w), getMOSIPort (slave w)) :: t).
    split.
    + cbn [send_all]. rewrite (bind_run _ _ _ _ _ _ (send_plain m 1 w)).
      rewrite Hrun. reflexivity.
    + change (sent_indices (?e :: t)) with
        ((getMOSIIndex (slave w) + 1)%Z :: sent_indices t).
      change (getMOSIIndex (slave (with_slave incrementMOSIIndex w)))
        with (getMOSIIndex (slave w) + 1)%Z in Hidx, Hlast.
      rewrite Hidx, Hlast.
      cbn [length seq map]. split.
      * f_equal.
        rewrite <- (seq_shift _ 1), map_map.
        apply map_ext. intros k. lia.
      * lia.
Qed.

Lemma sorted_offsets (base : Z) (n start : nat) :
  StronglySorted Z.lt
    (map (fun k => (base + Z.of_nat k)%Z) (seq start n)).
Proof.
  revert start. induction n as [|n IH]; intros start; cbn.
  - constructor.
  - constructor; [apply IH|].
    apply Forall_forall. intros x Hx.
    apply list_elem_of_In, in_map_iff in Hx as (k & <- & Hk).
    apply in_seq in Hk. lia.
Qed.

(** C7. A send that is a handshake sets the slave's MOSI index to 0;
    any other send adds exactly one to it; the datagram handed to the
    socket carries the index as it is after that step, and its text
    starts with that index; so over any run of sends that are not
    handshakes the indices sent are strictly increasing and each is
    above the counter the run started from. *)
Theorem C7_send_sequence_counter :
  forall (message_ : string) (repeat : nat) (w : wstate),
    let sock := slave_mosiSocket (mac (slave w)) in
    let dest := (ip (slave w), getMOSIPort (slave w)) in
    (exists w',
        _send message_ repeat true w
        = (inr tt, w', [EvSendto sock (DIndexed 0 message_) dest]) /\
        getMOSIIndex (slave w') = 0%Z) /\
    (exists w',
        _send message_ repeat false w
        = (inr tt, w',
           [EvSendto sock
              (DIndexed (getMOSIIndex (slave w) + 1) message_) dest]) /\
        getMOSIIndex (slave w') = (getMOSIIndex (slave w) + 1)%Z) /\
    (forall messages, exists w' t,
        send_all messages w = (inr tt, w', t) /\
        length (sent_indices t) = length messages /\
        StronglySorted Z.lt (sent_indices t) /\
        Forall (fun i => (getMOSIIndex (slave w) < i)%Z) (sent_indices t) /\
        getMOSIIndex (slave w')
        = (getMOSIIndex (slave w) + Z.of_nat (length messages))%Z) /\
    (forall i m, render (DIndexed i m) = pretty i +:+ "|" +:+ m).
Proof.
  intros message_ repeat w sock dest. repeat split.
  - eexists. split; [apply send_hsk|reflexivity].
  - eexists. split; [apply send_plain|reflexivity].
  - intros messages.
    destruct (send_all_indices messages w) as (w' & t & Hrun & Hidx & Hlast).
    exists w', t. split; [exact Hrun|]. rewrite Hidx.
    split; [by rewrite length_map, length_seq|].
    split; [apply sorted_offsets|].
    split; [|exact Hlast].
    apply Forall_forall. intros x Hx.
    apply list_elem_of_In, in_map_iff in Hx as (k & <- & Hk).
    apply in_seq in Hk. lia.
Qed.

(** ** The listener thread *)

Lemma port_checks (p : Z) : valid_port p -> (p <=? 0)%Z || (65535 <? p)%Z = false.
Proof. unfold valid_port. intros [? ?]. apply orb_false_intro; [apply Z.leb_gt|apply Z.ltb_ge]; lia. Qed.

Ltac mred :=
  repeat first
    [ rewrite decide_True by done
    | rewrite decide_False by done
    | rewrite bool_decide_eq_true_2 by done
    | rewrite bool_decide_eq_false_2 by (first [done | intros Hne; by apply Hne])
    | progress cbn ].

Lemma listener_A_new self senderAddress env m0 p mac_ s4 s5 version_ rest misoPort mosiPort :
  py_int s4 = Some misoPort -> py_int s5 = Some mosiPort ->
  valid_port misoPort -> valid_port mosiPort ->
  String.length mac_ = 17%nat ->
  macToIndexMap self !! mac_ = None ->
  let index_ := length (slaves self) in
  let new :=
    new_FCSlave (chosen_name env) mac_ (defaultSlave_maxFans self)
      (maxFans self) SS_AVAILABLE (Some version_) (misoQueueSize self)
      (Some senderAddress.1) (Some misoPort) (Some mosiPort) index_ in
  let self' :=
    with_macToIndexMap (<[mac_ := index_]> (macToIndexMap self))
      (with_slaves (slaves self ++ [new]) self) in
  listener_A (m0 :: p :: mac_ :: "N" :: s4 :: s5 :: version_ :: rest)
    senderAddress env self
  = (inr tt, self',
     [EvSlavePipe (map getSlaveStateVector (slaves self'));
      EvStart index_]).
Proof.
  intros H4 H5 Hp4 Hp5 Hlen Hmap index_ new self'.
  unfold listener_A, _getSlaveIndexByMAC, _sendSlaves. munfold. mred.
  rewrite H4, H5. mred. rewrite (port_checks _ Hp4), (port_checks _ Hp5). mred.
  rewrite Hmap. mred.
  rewrite lookup_app_r by lia. rewrite Nat.sub_diag. mred.
  reflexivity.
Qed.

Lemma listener_try_A messageReceived senderAddress env self m0 rest :
  is_ascii messageReceived = true ->
  py_split "|" messageReceived = m0 :: passcode self :: rest ->
  str_head m0 = Some "A"%char ->
  listener_try messageReceived senderAddress env self
  = try_except (listener_A (m0 :: passcode self :: rest) senderAddress env)
      is_IndexError (fun _ => emit (EvPrint PW)) self.
Proof.
  intros Hascii Hsplit Hhead. unfold listener_try. rewrite Hascii, Hsplit.
  munfold. mred. rewrite Hhead. mred.
  destruct (listener_A _ _ _ _) as [[[e|[]] s1] t1]; mred; [|reflexivity].
  destruct (is_IndexError e); reflexivity.
Qed.

Lemma listener_try_ok_run messageReceived senderAddress env self self' t :
  listener_try messageReceived senderAddress env self = (inr tt, self', t) ->
  _listenerRoutine messageReceived senderAddress env self = (inr tt, self', t).
Proof. unfold _listenerRoutine, try_except. intros ->. reflexivity. Qed.

(** C1. A device-announce datagram with the communicator's passcode,
    valid ports, a MAC of 17 characters and a MAC that is not in the
    index makes the listener append exactly one record, AVAILABLE, whose
    index is the size the registry had; the index maps the MAC to it, the
    slave vector of the new registry goes to the slave pipe, the new
    slave's worker is started, and the records already there are as they
    were. *)
Theorem C1_unknown_mac_is_appended :
  forall (self : FCCommunicator) (messageReceived mac_ version_ : string)
         (misoPort mosiPort : Z) (senderAddress : address)
         (env : listener_env),
    device_announce messageReceived (passcode self) mac_ misoPort mosiPort
      version_ ->
    valid_port misoPort -> valid_port mosiPort ->
    String.length mac_ = 17%nat ->
    _getSlaveIndexByMAC self mac_ = None ->
    exists (new : FCSlave) (self' : FCCommunicator),
      _listenerRoutine messageReceived senderAddress env self
      = (inr tt, self',
         [EvSlavePipe (map getSlaveStateVector (slaves self'));
          EvStart (length (slaves self))]) /\
      slaves self' = slaves self ++ [new] /\
      getStatus new = SS_AVAILABLE /\
      index new = length (slaves self) /\
      mac new = mac_ /\
      macToIndexMap self' = <[mac_ := length (slaves self)]> (macToIndexMap self) /\
      _getSlaveIndexByMAC self' mac_ = Some (length (slaves self)) /\
      (forall i sl, slaves self !! i = Some sl -> slaves self' !! i = Some sl).
Proof.
  intros self messageReceived mac_ version_ misoPort mosiPort senderAddress
    env (Hascii & m0 & s4 & s5 & rest & Hsplit & Hhead & H4 & H5)
    Hp4 Hp5 Hlen Hmap.
  eexists _, _. split.
  - apply listener_try_ok_run.
    rewrite (listener_try_A _ _ _ _ _ _ Hascii Hsplit Hhead).
    unfold try_except.
    rewrite (listener_A_new _ _ _ _ _ _ _ _ _ _ _ _ H4 H5 Hp4 Hp5 Hlen Hmap).
    reflexivity.
  - cbn. split; [reflexivity|]. split; [reflexivity|]. split; [reflexivity|].
    split; [reflexivity|]. split; [reflexivity|].
    split; [unfold _getSlaveIndexByMAC; cbn; apply lookup_insert_eq|].
    intros i sl Hi. by apply lookup_app_l_Some.
Qed.

(** The listener loop never lets an exception out of a turn: whatever the
    [try] does, the turn ends normally in the state the [try] left. *)
Lemma listenerRoutine_of_try messageReceived senderAddress env self r self' t :
  listener_try messageReceived senderAddress env self = (r, self', t) ->
  exists t', _listenerRoutine messageReceived senderAddress env self
             = (inr tt, self', t').
Proof.
  unfold _listenerRoutine, try_except. intros ->.
  destruct r as [e|[]]; [|by eexists].
  destruct (is_ValueError e || is_IndexError e); by eexists.
Qed.

(** A datagram from the MkII either leaves the state alone before the
    'A' branch is reached, or ends in the state the 'A' branch left. *)
Lemma listener_try_announce messageReceived senderAddress env self m0 p rest :
  py_split "|" messageReceived = m0 :: p :: rest ->
  str_head m0 = Some "A"%char ->
  exists r self' t,
    listener_try messageReceived senderAddress env self = (r, self', t) /\
    (self' = self \/
     exists rA tA, listener_A (m0 :: p :: rest) senderAddress env self
                   = (rA, self', tA)).
Proof.
  intros Hsplit Hhead. unfold listener_try.
  destruct (is_ascii messageReceived); [|by eexists _, _, _; split; [reflexivity|left]].
  rewrite Hsplit. munfold. mred.
  destruct (bool_decide (p ≠ passcode self)).
  { eexists _, _, _. split; [reflexivity|by left]. }
  rewrite Hhead. mred.
  destruct (listener_A _ _ _ _) as [[[e|[]] s1] t1] eqn:HA.
  - destruct (is_IndexError e); eexists _, _, _; (split; [reflexivity|right; eauto]).
  - eexists _, _, _. split; [reflexivity|right; eauto].
Qed.

Ltac same_state := eexists _, _, _; split; [reflexivity|by left].

(** What the 'A' branch can do to the registry when the MAC it names is
    in the index: nothing, or the move of that slave from DISCONNECTED or
    UPDATING to KNOWN with the endpoint and version of the datagram. *)
Lemma listener_A_known senderAddress env self m0 p mac_ rest i sl :
  _getSlaveIndexByMAC self mac_ = Some i ->
  slaves self !! i = Some sl ->
  exists r self' t,
    listener_A (m0 :: p :: mac_ :: rest) senderAddress env self
    = (r, self', t) /\
    (self' = self \/
     ((getStatus sl = SS_DISCONNECTED \/ getStatus sl = SS_UPDATING) /\
      exists misoPort mosiPort version_,
        self' = with_slaves
                  (<[i := setStatus SS_KNOWN
                            (Some (senderAddress.1, misoPort, mosiPort,
                                   version_)) sl]> (slaves self)) self)).
Proof.
  intros Hmap Hsl. unfold listener_A. munfold. mred.
  destruct rest as [|kind rest]; mred; [same_state|].
  destruct (decide (kind = "N")) as [->|Hkind]; mred.
  2:{ destruct (decide (kind = "E")); mred; same_state. }
  destruct rest as [|s4 rest]; mred; [same_state|].
  destruct (py_int s4) as [misoPort|]; mred; [|same_state].
  destruct rest as [|s5 rest]; mred; [same_state|].
  destruct (py_int s5) as [mosiPort|]; mred; [|same_state].
  destruct rest as [|version_ rest]; mred; [same_state|].
  destruct ((misoPort <=? 0)%Z || (65535 <? misoPort)%Z); mred; [same_state|].
  destruct ((mosiPort <=? 0)%Z || (65535 <? mosiPort)%Z); mred; [same_state|].
  destruct (decide (String.length mac_ = 17%nat)); mred; [|same_state].
  rewrite Hmap. mred.
  destruct (flashFlag self && bool_decide (Some version_ ≠ targetVersion self));
    mred; [same_state|].
  rewrite Hsl. mred.
  destruct (bool_decide (getStatus sl = SS_DISCONNECTED)) eqn:Hd; mred.
  - unfold setSlaveStatus_at, setSlaveStatus. munfold. rewrite Hsl. mred.
    destruct (listener_lock_ok env); mred.
    + eexists _, _, _. split; [reflexivity|]. right.
      apply bool_decide_eq_true_1 in Hd. split; [by left|]. by eexists _, _, _.
    + eexists _, _, _. split; [reflexivity|]. left.
      rewrite list_insert_id by done. by destruct self.
  - destruct (bool_decide (getStatus sl = SS_UPDATING)) eqn:Hu; mred; [|same_state].
    unfold setSlaveStatus_at, setSlaveStatus. munfold. rewrite Hsl. mred.
    destruct (listener_lock_ok env); mred.
    + eexists _, _, _. split; [reflexivity|]. right.
      apply bool_decide_eq_true_1 in Hu. split; [by right|]. by eexists _, _, _.
    + eexists _, _, _. split; [reflexivity|]. left.
      rewrite list_insert_id by done. by destruct self.
Qed.

(** C6. A datagram from the MkII that names a MAC of the index ends the
    listener's turn normally, and all it can do to the registry is move
    that slave from DISCONNECTED or UPDATING to KNOWN with the endpoint
    and version it carries.  If the slave is CONNECTED the communicator
    is left exactly as it was: the record (index, status, endpoint,
    version and all), the registry and the MAC index are unchanged. *)
Theorem C6_connected_untouched_by_announce :
  forall (self : FCCommunicator) (messageReceived mac_ : string)
         (senderAddress : address) (env : listener_env) (i : nat)
         (sl : FCSlave),
    announce_of messageReceived mac_ ->
    _getSlaveIndexByMAC self mac_ = Some i ->
    slaves self !! i = Some sl ->
    exists self' t,
      _listenerRoutine messageReceived senderAddress env self
      = (inr tt, self', t) /\
      (getStatus sl = SS_CONNECTED ->
       self' = self /\ slaves self' !! i = Some sl) /\
      (self' = self \/
       ((getStatus sl = SS_DISCONNECTED \/ getStatus sl = SS_UPDATING) /\
        exists misoPort mosiPort version_,
          let sl' := setStatus SS_KNOWN
                       (Some (senderAddress.1, misoPort, mosiPort, version_))
                       sl in
          self' = with_slaves (<[i := sl']> (slaves self)) self /\
          getStatus sl' = SS_KNOWN /\
          index sl' = index sl /\
          ip sl' = Some senderAddress.1 /\
          misoP sl' = Some misoPort /\ mosiP sl' = Some mosiPort /\
          version sl' = Some version_)).
Proof.
  intros self messageReceived mac_ senderAddress env i sl
    (m0 & p & rest & Hsplit & Hhead) Hmap Hsl.
  destruct (listener_try_announce messageReceived senderAddress env self
              m0 p (mac_ :: rest) Hsplit Hhead)
    as (r & self' & t & Htry & Hstate).
  destruct (listenerRoutine_of_try _ _ _ _ _ _ _ Htry) as (t' & Hrun).
  exists self', t'. split; [exact Hrun|].
  assert (self' = self \/
          ((getStatus sl = SS_DISCONNECTED \/ getStatus sl = SS_UPDATING) /\
           exists misoPort mosiPort version_,
             self' = with_slaves
                       (<[i := setStatus SS_KNOWN
                                 (Some (senderAddress.1, misoPort, mosiPort,
                                        version_)) sl]> (slaves self)) self))
    as Hcases.
  { destruct Hstate as [->|(rA & tA & HA)]; [by left|].
    destruct (listener_A_known senderAddress env self m0 p mac_ rest i sl
                Hmap Hsl) as (r1 & self1 & t1 & HA1 & Hc).
    rewrite HA in HA1. by simplify_eq. }
  split.
  - intros Hconn.
    destruct Hcases as [->|([Hs|Hs] & _)]; [done|congruence|congruence].
  - destruct Hcases as [->|(Hs & misoPort & mosiPort & version_ & ->)];
      [by left|right].
    split; [exact Hs|]. exists misoPort, mosiPort, version_.
    repeat split; reflexivity.
Qed.

Lemma port_check_fails (p : Z) :
  ~ valid_port p -> (p <=? 0)%Z || (65535 <? p)%Z = true.
Proof.
  unfold valid_port. intros Hp.
  destruct (p <=? 0)%Z eqn:H1; [reflexivity|].
  destruct (65535 <? p)%Z eqn:H2; [reflexivity|].
  apply Z.leb_gt in H1. apply Z.ltb_ge in H2. lia.
Qed.

Lemma valid_port_dec (p : Z) : valid_port p \/ ~ valid_port p.
Proof. unfold valid_port. lia. Qed.

(** C8. A device-announce datagram with the communicator's passcode and
    a port outside [1, 65535] or a MAC that is not 17 characters long
    ends the listener's turn normally with the communicator unchanged (no
    record, index entry or counter is touched, nothing is sent or
    started).  When only the MAC is wrong the turn reports a parsing
    error and prints a warning.  When a port is out of range the
    diagnostic itself fails on an unbound name, and what the turn reports
    is an unexpected NameError, through [log_exception] and [printx],
    and no warning. *)
Theorem C8_invalid_announce_is_discarded :
  forall (self : FCCommunicator) (messageReceived mac_ version_ : string)
         (misoPort mosiPort : Z) (senderAddress : address)
         (env : listener_env),
    device_announce messageReceived (passcode self) mac_ misoPort mosiPort
      version_ ->
    ~ valid_port misoPort \/ ~ valid_port mosiPort
      \/ String.length mac_ <> 17%nat ->
    exists t,
      _listenerRoutine messageReceived senderAddress env self
      = (inr tt, self, t) /\
      (~ valid_port misoPort \/ ~ valid_port mosiPort ->
       t = [EvHandler log_exception (Some NameError);
            EvPrint (PX NameError)]) /\
      (valid_port misoPort -> valid_port mosiPort ->
       t = [EvHandler handle_parsing_error (Some ValueError); EvPrint PW]).
Proof.
  intros self messageReceived mac_ version_ misoPort mosiPort senderAddress
    env (Hascii & m0 & s4 & s5 & rest & Hsplit & Hhead & H4 & H5) Hbad.
  unfold _listenerRoutine, try_except.
  rewrite (listener_try_A _ _ _ _ _ _ Hascii Hsplit Hhead).
  unfold try_except, listener_A. munfold. mred. rewrite H4, H5. mred.
  destruct (valid_port_dec misoPort) as [Hp4|Hp4].
  2:{ rewrite (port_check_fails _ Hp4). mred.
      eexists. split; [reflexivity|]. split; [done|]. intros; contradiction. }
  rewrite (port_checks _ Hp4). mred.
  destruct (valid_port_dec mosiPort) as [Hp5|Hp5].
  2:{ rewrite (port_check_fails _ Hp5). mred.
      eexists. split; [reflexivity|]. split; [done|]. intros; contradiction. }
  rewrite (port_checks _ Hp5). mred.
  destruct Hbad as [?|[?|Hlen]]; [contradiction..|]. mred.
  eexists. split; [reflexivity|]. split; [|done].
  intros [?|?]; contradiction.
Qed.

(** ** The add command *)

Lemma add_not_available self targetIndex lock_ok_ sl :
  slaves self !! targetIndex = Some sl ->
  getStatus sl <> SS_AVAILABLE ->
  add targetIndex lock_ok_ self = (inr tt, self, []).
Proof.
  intros Hsl Hst. unfold add. munfold. mred. rewrite Hsl. mred. reflexivity.
Qed.

Lemma add_available self targetIndex lock_ok_ sl :
  slaves self !! targetIndex = Some sl ->
  getStatus sl = SS_AVAILABLE ->
  add targetIndex lock_ok_ self
  = if lock_ok_
    then (inr tt,
          with_slaves (<[targetIndex := setStatus SS_KNOWN None sl]>
                         (slaves self)) self,
          [EvSlaveUpdate (getSlaveStateVector (setStatus SS_KNOWN None sl))])
    else (inr tt, self, [EvPrint PW]).
Proof.
  intros Hsl Hst. unfold add, setSlaveStatus_at, setSlaveStatus. munfold.
  mred. rewrite Hsl. mred. rewrite Hsl. mred.
  destruct lock_ok_; mred; [reflexivity|].
  rewrite list_insert_id by done. by destruct self.
Qed.


(** ** Telemetry *)

Lemma stateless_ret {St A} ok (a : A) : stateless (St := St) ok (ret a).
Proof. exists (inr a). split; [intros e; discriminate|done]. Qed.

Lemma stateless_raise {St A} (ok : exn -> Prop) (e : exn) :
  ok e -> stateless (St := St) (A := A) ok (raise e).
Proof. intros He. exists (inl e). split; [by intros ? [= <-]|done]. Qed.

Lemma stateless_or_raise {St A} (ok : exn -> Prop) (o : option A) e :
  ok e -> stateless (St := St) ok (or_raise o e).
Proof. destruct o; [intros _; apply stateless_ret|apply stateless_raise]. Qed.

Lemma stateless_bind {St A B} ok (m : M event St A) (k : A -> M event St B) :
  stateless ok m -> (forall a, stateless ok (k a)) -> stateless ok (bind m k).
Proof.
  intros ([e|a] & Hok & Hm) Hk.
  - exists (inl e). split; [by intros ? [= <-]; apply Hok|].
    intros s. unfold bind. by rewrite Hm.
  - destruct (Hk a) as (r & Hokr & Hr). exists r. split; [exact Hokr|].
    intros s. unfold bind. by rewrite Hm, Hr.
Qed.

Lemma stateless_convert_parts {St A} ok (conv : string -> M event St A) parts :
  (forall p, stateless ok (conv p)) -> stateless ok (convert_parts conv parts).
Proof.
  intros Hconv. induction parts as [|p parts IH]; cbn [convert_parts].
  - apply stateless_ret.
  - apply stateless_bind; [apply Hconv|]. intros x.
    apply stateless_bind; [apply IH|]. intros xs. apply stateless_ret.
Qed.

(** Converting the two fields of a telemetry reply does not touch the
    worker's state and never raises [queue.Full]. *)
Lemma stateless_parse_feedback self reply :
  stateless (fun e => e <> QueueFull) (parse_feedback self reply).
Proof.
  assert (forall (St A : Type) (l : list A) k,
            stateless (St := St) (fun e => e <> QueueFull) (getitem_neg l k))
    as Hneg.
  { intros St A l k. unfold getitem_neg, getitem.
    destruct (decide _); [by apply stateless_or_raise|by apply stateless_raise]. }
  assert (forall (St : Type) v,
            stateless (St := St) (fun e => e <> QueueFull) (split_pyval v))
    as Hsplit.
  { intros St [z|s]; [by apply stateless_raise|apply stateless_ret]. }
  unfold parse_feedback.
  apply stateless_bind; [apply Hneg|]. intros r2.
  apply stateless_bind; [apply Hsplit|]. intros rpm_parts.
  apply stateless_bind.
  { apply stateless_convert_parts. intros p. unfold store_rpm, int_of_str.
    apply stateless_bind; [by apply stateless_or_raise|]. intros z.
    destruct (np_int_fits z); [apply stateless_ret|by apply stateless_raise]. }
  intros rpms.
  apply stateless_bind; [apply Hneg|]. intros r1.
  apply stateless_bind; [apply Hsplit|]. intros dc_parts.
  apply stateless_bind.
  { apply stateless_convert_parts. intros p. by apply stateless_or_raise. }
  intros dcs. apply stateless_ret.
Qed.

Lemma process_reply_T self reply w :
  reply !! 1%nat = Some (PyStr "T") ->
  process_reply self reply w
  = (let '(r, w', t) :=
       process_telemetry self reply
         (with_loc (fun l => set_timeouts 0 (totalTimeouts l) l) w) in
     (r, w', t)).
Proof.
  intros Htag. unfold process_reply. munfold. mred. rewrite Htag. mred.
  destruct (process_telemetry _ _ _) as [[r w'] t]. reflexivity.
Qed.

Lemma process_telemetry_stale self reply w v receivedDataIndex :
  reply !! 2%nat = Some v ->
  int_value v = Some receivedDataIndex ->
  (receivedDataIndex <= getDataIndex (slave w))%Z ->
  process_telemetry self reply w = (inr tt, w, []).
Proof.
  intros Hv Hint Hle. unfold process_telemetry, int_of_pyval. munfold. mred.
  rewrite Hv. mred. rewrite Hint. mred.
  rewrite (proj2 (Z.ltb_ge _ _)) by done. reflexivity.
Qed.

Lemma process_telemetry_fresh self reply w v receivedDataIndex :
  reply !! 2%nat = Some v ->
  int_value v = Some receivedDataIndex ->
  (getDataIndex (slave w) < receivedDataIndex)%Z ->
  exists r,
    (forall s, parse_feedback self reply s = (r, s, [])) /\
    process_telemetry self reply w
    = match r with
      | inr update =>
          (inr tt,
           with_slave (fun sl =>
             with_miso update (setDataIndex receivedDataIndex sl)) w, [])
      | inl e =>
          (inl e, with_slave (setDataIndex receivedDataIndex) w, [])
      end.
Proof.
  intros Hv Hint Hlt.
  destruct (stateless_parse_feedback self reply) as (r & Hok & Hr).
  exists r. split; [exact Hr|].
  unfold process_telemetry, int_of_pyval. munfold. mred.
  rewrite Hv. mred. rewrite Hint. mred.
  rewrite (proj2 (Z.ltb_lt _ _)) by done. mred. rewrite Hr.
  destruct r as [e|update]; mred.
  - rewrite bool_decide_eq_false_2 by (by apply Hok). reflexivity.
  - reflexivity.
Qed.

(** C2 (as amended). For a reply tagged 'T' that carries the data index
    [receivedDataIndex]: if that index is not above the slave's stored
    one, the slave (feedback pair and stored index included) is left as
    it was.  If it is above, the stored index becomes the carried one;
    the conversion of the RPM and duty-cycle fields then either gives a
    pair, which becomes the feedback pair by one assignment, or raises,
    and then the exception leaves the turn with the index advanced and
    the feedback pair as it was.  Either way the stored index ends at
    the larger of the two, so processing the same reply once more
    changes nothing: a telemetry reply is applied at most once. *)
Theorem C2_telemetry_applied_at_most_once :
  forall (self : FCCommunicator) (reply : list pyval) (w : wstate)
         (v : pyval) (receivedDataIndex : Z),
    reply !! 1%nat = Some (PyStr "T") ->
    reply !! 2%nat = Some v ->
    int_value v = Some receivedDataIndex ->
    ((receivedDataIndex <= getDataIndex (slave w))%Z ->
     exists w',
       process_reply self reply w = (inr tt, w', []) /\
       slave w' = slave w) /\
    ((getDataIndex (slave w) < receivedDataIndex)%Z ->
     forall update,
       (forall s, parse_feedback self reply s = (inr update, s, [])) ->
       exists w',
         process_reply self reply w = (inr tt, w', []) /\
         slave w'
         = with_miso update (setDataIndex receivedDataIndex (slave w)) /\
         getDataIndex (slave w') = receivedDataIndex /\
         getMISO (slave w') = update) /\
    ((getDataIndex (slave w) < receivedDataIndex)%Z ->
     forall e,
       (forall s, parse_feedback self reply s = (inl e, s, [])) ->
       exists w',
         process_reply self reply w = (inl e, w', []) /\
         slave w' = setDataIndex receivedDataIndex (slave w) /\
         getDataIndex (slave w') = receivedDataIndex /\
         getMISO (slave w') = getMISO (slave w)) /\
    (exists r, forall s, parse_feedback self reply s = (r, s, [])) /\
    (forall r w1 t,
       process_reply self reply w = (r, w1, t) ->
       getDataIndex (slave w1)
       = Z.max (getDataIndex (slave w)) receivedDataIndex /\
       exists w2,
         process_reply self reply w1 = (inr tt, w2, []) /\
         slave w2 = slave w1).
Proof.
  intros self reply w v receivedDataIndex Htag Hv Hint.
  set (w0 := with_loc (fun l => set_timeouts 0 (totalTimeouts l) l) w).
  assert (forall w', (receivedDataIndex <= getDataIndex (slave w'))%Z ->
            process_reply self reply w'
            = (inr tt,
               with_loc (fun l => set_timeouts 0 (totalTimeouts l) l) w', []))
    as Hstale.
  { intros w' Hle. rewrite (process_reply_T _ _ _ Htag).
    by rewrite (process_telemetry_stale _ _ _ _ _ Hv Hint). }
  split; [|split; [|split; [|split]]].
  - intros Hle. eexists. split; [by apply Hstale|reflexivity].
  - intros Hlt update Hup. rewrite (process_reply_T _ _ _ Htag).
    destruct (process_telemetry_fresh self reply w0 v receivedDataIndex
                Hv Hint Hlt) as (r & Hr & Hrun).
    unfold w0 in Hrun. rewrite Hrun. specialize (Hr w). rewrite Hup in Hr. simplify_eq.
    eexists. split; [reflexivity|]. by repeat split.
  - intros Hlt e Hup. rewrite (process_reply_T _ _ _ Htag).
    destruct (process_telemetry_fresh self reply w0 v receivedDataIndex
                Hv Hint Hlt) as (r & Hr & Hrun).
    unfold w0 in Hrun. rewrite Hrun. specialize (Hr w). rewrite Hup in Hr. simplify_eq.
    eexists. split; [reflexivity|]. by repeat split.
  - destruct (stateless_parse_feedback self reply) as (r & _ & Hr).
    by exists r.
  - intros r w1 t Hrun.
    assert (getDataIndex (slave w1)
            = Z.max (getDataIndex (slave w)) receivedDataIndex) as Hidx.
    { destruct (Z_lt_le_dec (getDataIndex (slave w)) receivedDataIndex)
        as [Hlt|Hle].
      - rewrite (process_reply_T _ _ _ Htag) in Hrun.
        destruct (process_telemetry_fresh self reply w0 v receivedDataIndex
                    Hv Hint Hlt) as (r' & _ & Hrun').
        unfold w0 in Hrun'. rewrite Hrun' in Hrun.
        destruct r' as [e|update]; simplify_eq; cbn; lia.
      - rewrite (Hstale _ Hle) in Hrun. simplify_eq. cbn. lia. }
    split; [exact Hidx|].
    eexists. split; [apply Hstale; lia|reflexivity].
Qed.

(** ** The worker thread: handshake *)

Lemma receive_silent (env : worker_env) (w : wstate) :
  silent env -> inbox w = [] ->
  _receive (arrivals env) w = (inr None, w, [EvHandler log_timeout None]).
Proof.
  unfold silent, _receive. intros -> Hin. rewrite Hin. cbn.
  destruct w; cbn in *; by subst.
Qed.

(** An unanswered receive with tries left: one more descriptor, fresh
    sockets, one try less. *)
Lemma handshake_loop_retry self tries env envs w :
  silent env -> inbox w = [] -> (0 < tries)%Z ->
  let hsk := "H|" +:+ pretty (new_misoPort env) +:+ "," +:+
             pretty (new_mosiPort env) +:+ "," +:+ hsk_constants self in
  let w1 :=
    mkW (setSockets (new_misoPort env) (new_mosiPort env)
           (setMOSIIndex 0 (slave w)))
        (set_failedHSKs 0 (set_MHSK hsk (loc w))) [] in
  handshake_loop self tries (env :: envs) w
  = (let '(r, w2, t2) := handshake_loop self (tries - 1) envs w1 in
     (r, w2,
      [EvHandler log_timeout None;
       EvSendto (slave_mosiSocket (mac (slave w)))
         (DIndexed 0 (MHSK (loc w))) (ip (slave w), getMOSIPort (slave w));
       EvSocketsReopened (mac (slave w)); EvPrint PR] ++ t2)).
Proof.
  intros Hs Hin Ht hsk w1. cbn [handshake_loop].
  rewrite (bind_run _ _ _ _ _ _ (receive_silent env w Hs Hin)).
  cbn [reply_tag_is]. cbv iota.
  rewrite (proj2 (Z.ltb_lt _ _)) by done.
  unfold reopen_sockets, _makeHSK, _send. munfold. mred.
  destruct (handshake_loop self (tries - 1) envs _) as [[r w2] t2] eqn:Hloop.
  reflexivity.
Qed.

(** An unanswered receive with no tries left: the disconnect message,
    then the status update. *)
Lemma handshake_loop_give_up self tries env envs w :
  silent env -> inbox w = [] -> (tries <= 0)%Z ->
  failedHSKs (loc w) = 0%Z ->
  handshake_loop self tries (env :: envs) w
  = (let '(sl', t2) :=
       setSlaveStatus (incrementMOSIIndex (slave w)) SS_DISCONNECTED None
         (lock_ok env) in
     (inr true, mkW sl' (loc w) (inbox w),
      [EvHandler log_timeout None;
       EvSendto (slave_mosiSocket (mac (slave w)))
         (DIndexed (getMOSIIndex (slave w) + 1) "X")
         (ip (slave w), getMOSIPort (slave w))] ++ t2)).
Proof.
  intros Hs Hin Ht Hf. cbn [handshake_loop].
  rewrite (bind_run _ _ _ _ _ _ (receive_silent env w Hs Hin)).
  cbn [reply_tag_is]. cbv iota.
  rewrite (proj2 (Z.ltb_ge _ _)) by done.
  unfold _send, setSlaveStatus_w. munfold. mred. rewrite Hf. mred.
  destruct (setSlaveStatus _ _ _ _) as [sl' t2]. by rewrite app_nil_r.
Qed.

(** An acknowledgment-pending reply: the loop goes on with the same
    number of tries and sends nothing. *)
Lemma handshake_loop_pending self tries env envs w r w1 t1 :
  _receive (arrivals env) w = (inr (Some r), w1, t1) ->
  r !! 1%nat = Some (PyStr "K") ->
  handshake_loop self tries (env :: envs) w
  = (let '(res, w2, t2) := handshake_loop self tries envs w1 in
     (res, w2, t1 ++ t2)).
Proof.
  intros Hrecv Htag. cbn [handshake_loop].
  rewrite (bind_run _ _ _ _ _ _ Hrecv).
  unfold reply_tag_is. rewrite Htag. mred. reflexivity.
Qed.



(** ** The worker thread: missed replies *)

Lemma flash_check_false self sl :
  ~ flash_pending self sl ->
  flashFlag self && bool_decide (getVersion sl <> targetVersion self) = false.
Proof.
  unfold flash_pending. intros Hf.
  destruct (flashFlag self); [|reflexivity]. cbn.
  apply bool_decide_eq_false_2. intros Hv. by apply Hf.
Qed.

(** A turn of the CONNECTED state with an empty mailbox and no reply:
    the last message is sent again, the receive times out, and the
    missed reply is dealt with. *)
Lemma connected_cycle_silent self env w :
  ~ flash_pending self (slave w) ->
  mosi (slave w) = [] ->
  inbox w = [] ->
  silent env ->
  connected_cycle self env w
  = (let '(r, w', t) :=
       process_timeout self env (with_slave incrementMOSIIndex w) in
     (r, w',
      [EvSendto (slave_mosiSocket (mac (slave w)))
         (DIndexed (getMOSIIndex (slave w) + 1) (message (loc w)))
         (ip (slave w), getMOSIPort (slave w));
       EvHandler log_timeout None] ++ t)).
Proof.
  intros Hflash Hmosi Hin Hs. unfold connected_cycle.
  rewrite (bind_run _ _ w w w [] eq_refl).
  rewrite (flash_check_false _ _ Hflash).
  assert (getMOSI_w w = (inr None, w, [])) as Hget.
  { unfold getMOSI_w, getMOSI. rewrite Hmosi. by destruct w. }
  rewrite (bind_run _ _ _ _ _ _ Hget).
  rewrite (bind_run _ _ _ _ _ _ (send_plain _ _ _)).
  rewrite (bind_run _ _ _ _ _ _
             (receive_silent env (with_slave incrementMOSIIndex w) Hs Hin)).
  destruct (process_timeout _ _ _) as [[r w'] t]. reflexivity.
Qed.

Lemma slaveRoutine_connected self env more w r w' t :
  getStatus (slave w) = SS_CONNECTED ->
  connected_cycle self env w = (inr r, w', t) ->
  _slaveRoutine self env more w = (inr r, w', t).
Proof.
  intros Hst Hc. unfold _slaveRoutine, try_except.
  rewrite (bind_run _ _ w w w [] eq_refl). rewrite Hst, Hc. reflexivity.
Qed.

Lemma process_timeout_quiet self env w :
  (timeouts (loc w) + 1 <> maxTimeouts self - 1)%Z ->
  (timeouts (loc w) + 1 < maxTimeouts self)%Z ->
  process_timeout self env w = (inr tt, with_loc bump_timeouts w, []).
Proof.
  intros Hne Hlt. unfold process_timeout. munfold. mred.
  rewrite (proj2 (Z.eqb_neq _ _)) by done.
  rewrite (proj2 (Z.ltb_lt _ _)) by done. reflexivity.
Qed.

Lemma process_timeout_probe self env w :
  (timeouts (loc w) + 1 = maxTimeouts self - 1)%Z ->
  process_timeout self env w
  = (inr tt, with_slave incrementMOSIIndex (with_loc bump_timeouts w),
     [EvSendto (slave_mosiSocket (mac (slave w)))
        (DIndexed (getMOSIIndex (slave w) + 1) "Q")
        (ip (slave w), getMOSIPort (slave w))]).
Proof.
  intros Heq. unfold process_timeout. munfold. mred.
  rewrite (proj2 (Z.eqb_eq _ _)) by done. reflexivity.
Qed.

Lemma process_timeout_last_chance self env w :
  (timeouts (loc w) + 1 <> maxTimeouts self - 1)%Z ->
  (maxTimeouts self <= timeouts (loc w) + 1)%Z ->
  tryBuffer (loc w) = true ->
  process_timeout self env w
  = (inr tt,
     with_loc (set_tryBuffer false)
       (with_slave incrementMOSIIndex (with_loc bump_timeouts w)),
     [EvSendto (slave_mosiSocket (mac (slave w)))
        (DIndexed (getMOSIIndex (slave w) + 1) "Y")
        (ip (slave w), getMOSIPort (slave w))]).
Proof.
  intros Hne Hge Htry. unfold process_timeout. munfold. mred.
  rewrite (proj2 (Z.eqb_neq _ _)) by done.
  rewrite (proj2 (Z.ltb_ge _ _)) by done. rewrite Htry. reflexivity.
Qed.

Lemma process_timeout_disconnect self env w :
  (timeouts (loc w) + 1 <> maxTimeouts self - 1)%Z ->
  (maxTimeouts self <= timeouts (loc w) + 1)%Z ->
  tryBuffer (loc w) = false ->
  lock_ok env = true ->
  exists d,
    is_disconnect_directive d = true /\
    process_timeout self env w
    = (inr tt,
       with_slave (setStatus SS_DISCONNECTED None)
         (with_loc (set_timeouts 0 0) w),
       [EvPrint PW; d;
        EvSlaveUpdate
          (getSlaveStateVector (setStatus SS_DISCONNECTED None (slave w)))]).
Proof.
  intros Hne Hge Htry Hlock.
  unfold process_timeout, _sendToListener, setSlaveStatus_w, setSlaveStatus.
  munfold. mred.
  rewrite (proj2 (Z.eqb_neq _ _)) by done.
  rewrite (proj2 (Z.ltb_ge _ _)) by done. rewrite Htry, Hlock. mred.
  destruct (bool_decide (ip (slave w) <> None)); mred;
    eexists; (split; [|reflexivity]); reflexivity.
Qed.

Lemma silent_bump_add (j k : Z) (w : wstate) :
  silent_bump k (silent_bump j w) = silent_bump (j + k) w.
Proof.
  unfold silent_bump, set_timeouts, with_indices. cbn.
  f_equal; f_equal; lia.
Qed.

Lemma silent_bump_0 (w : wstate) : silent_bump 0 w = w.
Proof.
  destruct w as [[] [] ?]. unfold silent_bump, set_timeouts, with_indices.
  cbn. f_equal; f_equal; lia.
Qed.

Lemma steady_silent_bump self k w : steady self w -> steady self (silent_bump k w).
Proof. intros H. exact H. Qed.

(** The four kinds of turn without a reply. *)
Lemma turn_quiet self env w :
  steady self w -> silent env ->
  (timeouts (loc w) + 1 < maxTimeouts self - 1)%Z ->
  _slaveRoutine self env [] w
  = (inr tt, silent_bump 1 w,
     [EvSendto (slave_mosiSocket (mac (slave w)))
        (DIndexed (getMOSIIndex (slave w) + 1) (message (loc w)))
        (ip (slave w), getMOSIPort (slave w));
      EvHandler log_timeout None]).
Proof.
  intros (Hst & Hfl & Hmo & Hin) Hs Hlt.
  apply slaveRoutine_connected; [exact Hst|].
  rewrite connected_cycle_silent by done.
  rewrite process_timeout_quiet by (cbn; lia). reflexivity.
Qed.

Lemma turn_probe self env w :
  steady self w -> silent env ->
  (timeouts (loc w) + 1 = maxTimeouts self - 1)%Z ->
  _slaveRoutine self env [] w
  = (inr tt, with_slave incrementMOSIIndex (silent_bump 1 w),
     [EvSendto (slave_mosiSocket (mac (slave w)))
        (DIndexed (getMOSIIndex (slave w) + 1) (message (loc w)))
        (ip (slave w), getMOSIPort (slave w));
      EvHandler log_timeout None;
      EvSendto (slave_mosiSocket (mac (slave w)))
        (DIndexed (getMOSIIndex (slave w) + 1 + 1) "Q")
        (ip (slave w), getMOSIPort (slave w))]).
Proof.
  intros (Hst & Hfl & Hmo & Hin) Hs Heq.
  apply slaveRoutine_connected; [exact Hst|].
  rewrite connected_cycle_silent by done.
  rewrite process_timeout_probe by (cbn; lia). reflexivity.
Qed.

Lemma turn_last_chance self env w :
  steady self w -> silent env ->
  (timeouts (loc w) + 1 <> maxTimeouts self - 1)%Z ->
  (maxTimeouts self <= timeouts (loc w) + 1)%Z ->
  tryBuffer (loc w) = true ->
  _slaveRoutine self env [] w
  = (inr tt,
     with_loc (set_tryBuffer false)
       (with_slave incrementMOSIIndex (silent_bump 1 w)),
     [EvSendto (slave_mosiSocket (mac (slave w)))
        (DIndexed (getMOSIIndex (slave w) + 1) (message (loc w)))
        (ip (slave w), getMOSIPort (slave w));
      EvHandler log_timeout None;
      EvSendto (slave_mosiSocket (mac (slave w)))
        (DIndexed (getMOSIIndex (slave w) + 1 + 1) "Y")
        (ip (slave w), getMOSIPort (slave w))]).
Proof.
  intros (Hst & Hfl & Hmo & Hin) Hs Hne Hge Htry.
  apply slaveRoutine_connected; [exact Hst|].
  rewrite connected_cycle_silent by done.
  rewrite process_timeout_last_chance by (cbn; done). reflexivity.
Qed.

Lemma turn_disconnect self env w :
  steady self w -> silent env ->
  (timeouts (loc w) + 1 <> maxTimeouts self - 1)%Z ->
  (maxTimeouts self <= timeouts (loc w) + 1)%Z ->
  tryBuffer (loc w) = false ->
  lock_ok env = true ->
  exists d w',
    is_disconnect_directive d = true /\
    getStatus (slave w') = SS_DISCONNECTED /\
    _slaveRoutine self env [] w
    = (inr tt, w',
       [EvSendto (slave_mosiSocket (mac (slave w)))
          (DIndexed (getMOSIIndex (slave w) + 1) (message (loc w)))
          (ip (slave w), getMOSIPort (slave w));
        EvHandler log_timeout None;
        EvPrint PW; d;
        EvSlaveUpdate (getSlaveStateVector (slave w'))]).
Proof.
  intros (Hst & Hfl & Hmo & Hin) Hs Hne Hge Htry Hlock.
  destruct (process_timeout_disconnect self env
              (with_slave incrementMOSIIndex w) Hne Hge Htry Hlock)
    as (d & Hd & Hrun).
  exists d,
    (with_slave (setStatus SS_DISCONNECTED None)
       (with_loc (set_timeouts 0 0) (with_slave incrementMOSIIndex w))).
  split; [exact Hd|]. split; [reflexivity|].
  apply slaveRoutine_connected; [exact Hst|].
  rewrite connected_cycle_silent by done. rewrite Hrun. reflexivity.
Qed.

Lemma run_cycles_app self envs1 envs2 w :
  run_cycles self (envs1 ++ envs2) w
  = (let '(w1, ts1) := run_cycles self envs1 w in
     let '(w2, ts2) := run_cycles self envs2 w1 in
     (w2, ts1 ++ ts2)).
Proof.
  revert w. induction envs1 as [|env envs1 IH]; intros w; cbn.
  - by destruct (run_cycles self envs2 w).
  - destruct (_slaveRoutine self env [] w) as [[r w1] t]. rewrite IH.
    destruct (run_cycles self envs1 w1) as [w2 ts1].
    by destruct (run_cycles self envs2 w2).
Qed.

(** Turns without a reply while the counter stays below the limit minus
    one: the slave stays CONNECTED and no disconnect directive is sent. *)
Lemma run_quiet self envs : forall w,
  steady self w ->
  Forall silent envs ->
  (timeouts (loc w) + Z.of_nat (length envs) < maxTimeouts self - 1)%Z ->
  exists ts,
    run_cycles self envs w = (silent_bump (Z.of_nat (length envs)) w, ts) /\
    length ts = length envs /\
    List.filter is_disconnect_directive (concat ts) = [].
Proof.
  induction envs as [|env envs IH]; intros w Hw Hs Hlt.
  - exists []. cbn. by rewrite silent_bump_0.
  - apply Forall_cons in Hs as [Hs Hss]. cbn [length] in Hlt.
    destruct (IH (silent_bump 1 w)) as (ts & Hrun & Hlen & Hnone);
      [by apply steady_silent_bump|done|cbn; lia|].
    eexists (_ :: ts). cbn [run_cycles].
    rewrite turn_quiet by (done || lia). rewrite Hrun.
    rewrite silent_bump_add. split; [|split].
    + do 2 f_equal. cbn [length]. lia.
    + cbn. by rewrite Hlen.
    + cbn. exact Hnone.
Qed.

Ltac trace_eq :=
  unfold getMOSIIndex, getMOSIPort;
  repeat match goal with
    | |- Some _ = Some _ => f_equal
    | |- _ :: _ = _ :: _ => f_equal
    | |- EvSendto _ _ _ = EvSendto _ _ _ => f_equal
    | |- DIndexed _ _ = DIndexed _ _ => f_equal
    | |- @eq Z _ _ => lia
    end.


(** ** Full-vector duty-cycle dispatch *)

Lemma paddedDCs_length maxFans_ C i sl :
  (maxFans_ <= length (paddedDCs_at maxFans_ C i sl))%nat.
Proof. unfold paddedDCs_at. rewrite length_app, length_replicate. lia. Qed.

Lemma format_template_ok {St} maxFans_ C i sl (s : St) :
  (1 <= maxFans_)%nat ->
  format_template maxFans_ (paddedDCs_at maxFans_ C i sl) s
  = (inr (py_join ","
            (map str_num
               (take (S (maxFans_ - 1)) (paddedDCs_at maxFans_ C i sl)))),
     s, []).
Proof.
  intros Hm. unfold format_template.
  pose proof (paddedDCs_length maxFans_ C i sl).
  rewrite decide_True by lia. reflexivity.
Qed.

Lemma setMOSI_fans cmd sl : getFans (setMOSI cmd sl) = getFans sl.
Proof. unfold setMOSI. by destruct (decide _). Qed.

Lemma with_slaves_id self : with_slaves (slaves self) self = self.
Proof. by destruct self. Qed.

(** The loop, started at position [k] with the cursor at [i] and enough
    turns for the slaves that remain, handles exactly those slaves. *)
Lemma dc_vector_loop_spec C n : forall k i self,
  (1 <= maxFans self)%nat ->
  (length (slaves self) - k <= n)%nat ->
  dc_vector_loop C n k i self
  = (inr tt,
     with_slaves (take k (slaves self)
                    ++ dispatch (maxFans self) C i (drop k (slaves self)))
       self, []).
Proof.
  induction n as [|n IH]; intros k i self Hm Hn.
  - cbn. rewrite drop_ge, take_ge by lia. cbn.
    by rewrite app_nil_r, with_slaves_id.
  - cbn [dc_vector_loop]. rewrite (bind_run _ _ self self self [] eq_refl).
    destruct (i <? length C)%nat eqn:Hi; cbn [andb].
    2:{ replace (dispatch (maxFans self) C i (drop k (slaves self)))
          with (drop k (slaves self)).
        2:{ destruct (drop k (slaves self)); [done|]. cbn [dispatch].
            by rewrite Hi. }
        by rewrite take_drop, with_slaves_id. }
    destruct (k <? length (slaves self))%nat eqn:Hk.
    2:{ apply Nat.ltb_ge in Hk. rewrite drop_ge, take_ge by lia. cbn.
        by rewrite app_nil_r, with_slaves_id. }
    apply Nat.ltb_lt in Hk.
    destruct (lookup_lt_is_Some_2 (slaves self) k Hk) as [sl Hsl].
    rewrite (drop_S _ _ _ Hsl). cbn [dispatch]. rewrite Hi.
    unfold getitem. rewrite Hsl. munfold. mred.
    destruct (decide (getStatus sl = SS_CONNECTED)) as [Hc|Hc]; mred.
    + rewrite format_template_ok by done. mred.
      rewrite Nat.sub_0_r.
      rewrite list_lookup_insert_eq by done. mred.
      rewrite IH by (cbn; rewrite ?length_insert; lia).
      cbn [maxFans slaves with_slaves]. rewrite setMOSI_fans.
      rewrite take_S_r with (x := setMOSI (dc_multi_command (maxFans self) C i sl) sl)
        by (by apply list_lookup_insert_eq).
      rewrite take_insert_ge by lia. rewrite drop_insert_lt by lia.
      rewrite <- app_assoc. cbn. by destruct self.
    + rewrite Nat.sub_0_r. rewrite Hsl. mred.
      rewrite IH by (cbn; lia).
      rewrite (take_S_r _ _ _ Hsl), <- app_assoc. reflexivity.
Qed.

Lemma dispatch_length maxFans_ C l : forall i,
  length (dispatch maxFans_ C i l) = length l.
Proof.
  induction l as [|sl l IH]; intros i; cbn [dispatch]; [done|].
  destruct (i <? length C)%nat; cbn; [by rewrite IH|done].
Qed.

(** The slave at position [k] of the remaining slaves is handled with
    the cursor moved on by the fan counts of those before it. *)
Lemma dispatch_lookup maxFans_ C l : forall i k sl,
  l !! k = Some sl ->
  let c := (i + sum_list (map getFans (take k l)))%nat in
  dispatch maxFans_ C i l !! k
  = Some (if (c <? length C)%nat && bool_decide (getStatus sl = SS_CONNECTED)
          then setMOSI (dc_multi_command maxFans_ C c sl) sl
          else sl).
Proof.
  induction l as [|sl0 l IH]; intros i k sl Hsl c; [done|].
  cbn [dispatch]. destruct k as [|k].
  - cbn in Hsl. simplify_eq. subst c. cbn [take map sum_list].
    rewrite Nat.add_0_r.
    destruct (i <? length C)%nat; cbn [andb lookup list_lookup]; [|done].
    destruct (decide (getStatus sl = SS_CONNECTED)).
    + by rewrite bool_decide_eq_true_2.
    + by rewrite bool_decide_eq_false_2.
  - rewrite lookup_cons in Hsl. subst c. cbn [take map sum_list].
    destruct (i <? length C)%nat eqn:Hi; rewrite lookup_cons.
    + rewrite (IH (i + getFans sl0)%nat k sl Hsl). cbn zeta.
      by rewrite Nat.add_assoc.
    + apply Nat.ltb_ge in Hi. rewrite Hsl. unfold id.
      rewrite (proj2 (Nat.ltb_ge _ _)) by lia. reflexivity.
Qed.

Lemma setMOSI_last cmd sl : last (mosi (setMOSI cmd sl)) = Some cmd.
Proof.
  unfold setMOSI. destruct (decide _); cbn; by rewrite last_snoc.
Qed.

Lemma handle_DC_VECTOR_spec self C :
  (1 <= maxFans self)%nat ->
  __handle_input_CTL_DC_VECTOR C self
  = (inr tt,
     with_slaves
       (dispatch (maxFans self) C CTL_I_VECTOR_DC_OFFSET (slaves self)) self,
     []).
Proof.
  intros Hm. unfold __handle_input_CTL_DC_VECTOR.
  rewrite (bind_run _ _ self self self [] eq_refl).
  rewrite dc_vector_loop_spec by (done || lia).
  by rewrite take_0, drop_0.
Qed.

(** C9. The full-vector dispatch never raises when [maxFans] is at least
    1 and leaves the number of slaves as it is.  The slave at position
    [k] has its data at the offset of the duty cycles plus the fan counts
    of the slaves at positions 0 to k-1.  If it is CONNECTED and that
    cursor is inside the control vector, the command put last in its
    mailbox prints the slice of the control vector that starts at the
    cursor and spans the slave's own fan count, padded with zeros to
    [maxFans] values; the slice has exactly the slave's fan count of
    values when the vector reaches that far.  A slave that is not
    CONNECTED, or whose cursor is past the end of the vector, is left as
    it was. *)
Theorem C9_full_vector_dispatch_is_aligned :
  forall (self : FCCommunicator) (C : list num) (k : nat) (sl : FCSlave),
    (1 <= maxFans self)%nat ->
    slaves self !! k = Some sl ->
    let i := cursor_at (slaves self) k in
    let slaveDCs := py_slice C i (i + getFans sl) in
    let paddedDCs :=
      slaveDCs ++ replicate (maxFans self - length slaveDCs) (NInt 0) in
    exists self',
      __handle_input_CTL_DC_VECTOR C self = (inr tt, self', []) /\
      length (slaves self') = length (slaves self) /\
      (getStatus sl = SS_CONNECTED -> (i < length C)%nat ->
       (getFans sl <= maxFans self)%nat ->
       exists sl',
         slaves self' !! k = Some sl' /\
         sl' = setMOSI (MOSI_DC_MULTI (py_join "," (map str_num paddedDCs))) sl /\
         last (mosi sl')
         = Some (MOSI_DC_MULTI (py_join "," (map str_num paddedDCs))) /\
         length paddedDCs = maxFans self /\
         ((i + getFans sl <= length C)%nat ->
          length slaveDCs = getFans sl)) /\
      (getStatus sl <> SS_CONNECTED \/ (length C <= i)%nat ->
       slaves self' !! k = Some sl).
Proof.
  intros self C k sl Hm Hsl i slaveDCs paddedDCs.
  eexists. split; [|split; [|split]].
  - by apply handle_DC_VECTOR_spec.
  - cbn. apply dispatch_length.
  - intros Hc Hi Hfans. cbn.
    rewrite (dispatch_lookup _ _ _ _ _ _ Hsl). cbn zeta.
    fold (cursor_at (slaves self) k). fold i.
    rewrite (proj2 (Nat.ltb_lt _ _)) by done.
    rewrite bool_decide_eq_true_2 by done. cbn [andb].
    assert (length slaveDCs <= getFans sl)%nat as Hslice.
    { subst slaveDCs. unfold py_slice. rewrite length_take. lia. }
    assert (length paddedDCs = maxFans self) as Hpad.
    { subst paddedDCs. rewrite length_app, length_replicate. lia. }
    assert (dc_multi_command (maxFans self) C i sl
            = MOSI_DC_MULTI (py_join "," (map str_num paddedDCs))) as ->.
    { unfold dc_multi_command. do 3 f_equal.
      change (paddedDCs_at (maxFans self) C i sl) with paddedDCs.
      apply take_ge. lia. }
    eexists. split; [reflexivity|]. split; [reflexivity|].
    split; [apply setMOSI_last|]. split; [exact Hpad|].
    intros Hfit. subst slaveDCs. unfold py_slice.
    rewrite length_take, length_drop. lia.
  - intros Hcase. cbn.
    rewrite (dispatch_lookup _ _ _ _ _ _ Hsl). cbn zeta.
    fold (cursor_at (slaves self) k). fold i.
    destruct Hcase as [Hc|Hi].
    + rewrite bool_decide_eq_false_2 by done. by rewrite andb_false_r.
    + by rewrite (proj2 (Nat.ltb_ge _ _)).
Qed.

(** ** The feedback vector *)

(** *** Keeping an invariant through the monad *)

Lemma preserves_ret {St A} (I : St -> Prop) (a : A) : preserves I (ret a).
Proof. by intros s. Qed.

Lemma preserves_raise {St A} (I : St -> Prop) (e : exn) :
  preserves I (raise (A := A) e).
Proof. by intros s. Qed.

Lemma preserves_get {St} (I : St -> Prop) : preserves I get.
Proof. by intros s. Qed.

Lemma preserves_emit {St} (I : St -> Prop) (ev : event) :
  preserves I (emit ev).
Proof. by intros s. Qed.

Lemma preserves_or_raise {St A} (I : St -> Prop) (o : option A) e :
  preserves I (or_raise o e).
Proof. destruct o; [apply preserves_ret|apply preserves_raise]. Qed.

Lemma preserves_modify {St} (I : St -> Prop) (f : St -> St) :
  (forall s, I s -> I (f s)) -> preserves I (modify f).
Proof. intros Hf s Hs. by apply Hf. Qed.

Lemma preserves_bind {St A B} (I : St -> Prop) (m : M event St A)
    (k : A -> M event St B) :
  preserves I m -> (forall a, preserves I (k a)) -> preserves I (bind m k).
Proof.
  intros Hm Hk s Hs. unfold bind. specialize (Hm s Hs).
  destruct (m s) as [[[e|a] s1] t1]; [exact Hm|].
  specialize (Hk a s1 Hm). by destruct (k a s1) as [[r s2] t2].
Qed.

(** When the first step is [get], the rest may be checked on the state
    it was given. *)
Lemma preserves_bind_get {St B} (I : St -> Prop) (k : St -> M event St B) :
  (forall s, I s -> I (k s s).1.2) -> preserves I (bind get k).
Proof.
  intros Hk s Hs. unfold bind, get. specialize (Hk s Hs).
  by destruct (k s s) as [[r s2] t2].
Qed.

Lemma preserves_try_except {St A} (I : St -> Prop) (m : M event St A)
    handles (h : exn -> M event St A) :
  preserves I m -> (forall e, preserves I (h e)) ->
  preserves I (try_except m handles h).
Proof.
  intros Hm Hh s Hs. unfold try_except. specialize (Hm s Hs).
  destruct (m s) as [[[e|a] s1] t1]; [|exact Hm].
  destruct (handles e); [|exact Hm].
  specialize (Hh e s1 Hm). by destruct (h e s1) as [[r s2] t2].
Qed.

Lemma preserves_getitem {St A} (I : St -> Prop) (l : list A) i :
  preserves I (getitem l i).
Proof. apply preserves_or_raise. Qed.

Lemma preserves_int_of_str {St} (I : St -> Prop) s :
  preserves I (int_of_str s).
Proof. apply preserves_or_raise. Qed.

Create HintDb pres.

#[local] Hint Resolve preserves_getitem preserves_int_of_str : pres.

#[local] Hint Resolve preserves_ret preserves_raise preserves_get
  preserves_emit preserves_or_raise : pres.

Ltac pres :=
  repeat first
    [ solve [auto 2 with pres nocore]
    | apply preserves_bind; [|intros ?]
    | apply preserves_try_except; [|intros ?]
    | match goal with
      | |- preserves _ (if ?c then _ else _) => destruct c
      | |- preserves _ (match ?x with _ => _ end) => destruct x
      end ].

(** *** The worker keeps the shape of its slave's feedback pair *)

Lemma preserves_with_slave (n : nat) (f : FCSlave -> FCSlave) :
  (forall sl, getMISO (f sl) = getMISO sl) ->
  preserves (worker_ok n) (modify (with_slave f)).
Proof.
  intros Hf. apply preserves_modify. intros w Hw.
  unfold worker_ok, feedback_ok in *. cbn. by rewrite Hf.
Qed.

#[local] Hint Extern 1 (preserves _ (modify (with_slave _))) =>
  apply preserves_with_slave; done : pres.

Lemma preserves_with_loc (n : nat) (f : locals -> locals) :
  preserves (worker_ok n) (modify (with_loc f)).
Proof. apply preserves_modify. by intros w Hw. Qed.

Lemma preserves_with_inbox (n : nat) q : preserves (worker_ok n) (modify (with_inbox q)).
Proof. apply preserves_modify. by intros w Hw. Qed.

#[local] Hint Resolve preserves_with_loc preserves_with_inbox : pres.

Lemma preserves_send (n : nat) message_ repeat hsk :
  preserves (worker_ok n) (_send message_ repeat hsk).
Proof.
  unfold _send. pres.
Qed.

#[local] Hint Resolve preserves_send : pres.

Lemma preserves_sendToListener (n : nat) self message_ repeat targetted :
  preserves (worker_ok n) (_sendToListener self message_ repeat targetted).
Proof.
  unfold _sendToListener. apply preserves_bind; [apply preserves_get|].
  intros w. destruct (_ && _); by intros s Hs.
Qed.

#[local] Hint Resolve preserves_sendToListener : pres.

Lemma receive_loop_miso pending : forall sl,
  getMISO (receive_loop pending sl).1.1.2 = getMISO sl.
Proof.
  induction pending as [|m rest IH]; intros sl; cbn [receive_loop]; [done|].
  destruct (negb (is_ascii m)).
  { specialize (IH sl). by destruct (receive_loop rest sl) as [[[r sl'] q] t]. }
  destruct (py_split "|" m !! 0%nat ≫= py_int) as [index_|].
  2:{ specialize (IH sl). by destruct (receive_loop rest sl) as [[[r sl'] q] t]. }
  destruct (index_ <=? getMISOIndex sl)%Z; [apply IH|].
  destruct (receive_output index_ (py_split "|" m)) as [e|[output|]];
    [|done|done].
  specialize (IH sl). by destruct (receive_loop rest sl) as [[[r sl'] q] t].
Qed.

Lemma preserves_receive (n : nat) arrivals_ : preserves (worker_ok n) (_receive arrivals_).
Proof.
  intros w Hw. unfold _receive.
  pose proof (receive_loop_miso (inbox w ++ arrivals_) (slave w)) as Hm.
  destruct (receive_loop _ _) as [[[r sl'] q] t]. cbn in *.
  unfold worker_ok, feedback_ok in *. cbn. by rewrite Hm.
Qed.

#[local] Hint Resolve preserves_receive : pres.

Lemma setSlaveStatus_miso sl newStatus netargs lock_ok_ :
  getMISO (setSlaveStatus sl newStatus netargs lock_ok_).1 = getMISO sl.
Proof.
  unfold setSlaveStatus. destruct lock_ok_; [|done]. cbn.
  unfold setStatus. destruct netargs as [[[[? ?] ?] ?]|];
    by destruct (decide _).
Qed.

Lemma preserves_setSlaveStatus_w (n : nat) newStatus lock_ok_ :
  preserves (worker_ok n) (setSlaveStatus_w newStatus lock_ok_).
Proof.
  intros w Hw. unfold setSlaveStatus_w.
  pose proof (setSlaveStatus_miso (slave w) newStatus None lock_ok_) as Hm.
  destruct (setSlaveStatus _ _ _ _) as [sl' t]. cbn in *.
  unfold worker_ok, feedback_ok in *. cbn. by rewrite Hm.
Qed.

#[local] Hint Resolve preserves_setSlaveStatus_w : pres.

Lemma preserves_makeHSK (n : nat) self : preserves (worker_ok n) (_makeHSK self).
Proof. unfold _makeHSK. pres. Qed.

#[local] Hint Resolve preserves_makeHSK : pres.

Lemma preserves_reopen_sockets (n : nat) self env :
  preserves (worker_ok n) (reopen_sockets self env).
Proof.
  unfold reopen_sockets. pres.
Qed.

#[local] Hint Resolve preserves_reopen_sockets : pres.

Lemma preserves_handshake_loop (n : nat) self envs : forall tries,
  preserves (worker_ok n) (handshake_loop self tries envs).
Proof.
  induction envs as [|env envs IH]; intros tries; cbn [handshake_loop].
  - apply preserves_ret.
  - pres; apply IH.
Qed.

#[local] Hint Resolve preserves_handshake_loop : pres.

Lemma preserves_handshake (n : nat) self envs : preserves (worker_ok n) (handshake self envs).
Proof.
  unfold handshake. pres.
Qed.

#[local] Hint Resolve preserves_handshake : pres.


Lemma convert_parts_length {St A} (conv : string -> M event St A) parts :
  forall s xs s' t,
    convert_parts conv parts s = (inr xs, s', t) -> length xs = length parts.
Proof.
  induction parts as [|p parts IH]; intros s xs s' t; cbn [convert_parts].
  - unfold ret. intros Heq. by simplify_eq.
  - unfold bind at 1. destruct (conv p s) as [[[e|x] s1] t1]; [done|].
    unfold bind at 1.
    destruct (convert_parts conv parts s1) as [[[e|xs'] s2] t2] eqn:Hrec;
      [done|].
    unfold ret. intros Heq. simplify_eq. cbn. f_equal. by eapply IH.
Qed.

(** The arrays converted from a telemetry reply have [maxFans] entries
    each, whatever the reply holds. *)
Lemma parse_feedback_length self reply s update s' t :
  parse_feedback self reply s = (inr update, s', t) ->
  length update.1 = maxFans self /\ length update.2 = maxFans self.
Proof.
  unfold parse_feedback.
  unfold bind at 1. destruct (getitem_neg reply 2 s) as [[[e|r2] s1] t1]; [done|].
  unfold bind at 1. destruct (split_pyval r2 s1) as [[[e|rpm_parts] s2] t2]; [done|].
  unfold bind at 1.
  destruct (convert_parts store_rpm _ s2) as [[[e|rpms] s3] t3] eqn:Hrpm; [done|].
  unfold bind at 1. destruct (getitem_neg reply 1 s3) as [[[e|r1] s4] t4]; [done|].
  unfold bind at 1. destruct (split_pyval r1 s4) as [[[e|dc_parts] s5] t5]; [done|].
  unfold bind at 1.
  destruct (convert_parts store_dc _ s5) as [[[e|dcs] s6] t6] eqn:Hdc; [done|].
  unfold ret. intros Heq. simplify_eq. cbn [fst snd].
  apply convert_parts_length in Hrpm, Hdc.
  rewrite !length_app, !length_replicate, Hrpm, Hdc, !length_take. lia.
Qed.

Lemma preserves_apply_feedback self reply :
  preserves (worker_ok (maxFans self))
    (bind (parse_feedback self reply) setMISO_w).
Proof.
  intros w Hw. unfold bind.
  destruct (stateless_parse_feedback self reply) as (r & _ & Hr).
  rewrite Hr. destruct r as [e|update]; [exact Hw|].
  destruct (parse_feedback_length _ _ _ _ _ _ (Hr w)) as [H1 H2].
  unfold setMISO_w, setMISO. cbn. by split.
Qed.

Lemma preserves_process_telemetry self reply :
  preserves (worker_ok (maxFans self)) (process_telemetry self reply).
Proof.
  unfold process_telemetry, int_of_pyval.
  apply preserves_bind; [apply preserves_or_raise|intros r].
  apply preserves_bind; [apply preserves_or_raise|intros idx].
  apply preserves_bind; [apply preserves_get|intros w].
  destruct (_ <? _)%Z; [|apply preserves_ret].
  apply preserves_bind; [pres|intros _].
  apply preserves_try_except; [apply preserves_apply_feedback|intros e].
  pres.
Qed.

#[local] Hint Resolve preserves_process_telemetry : pres.

Lemma preserves_process_reply self reply :
  preserves (worker_ok (maxFans self)) (process_reply self reply).
Proof.
  unfold process_reply. pres.
Qed.

#[local] Hint Resolve preserves_process_reply : pres.

Lemma preserves_process_timeout self env :
  preserves (worker_ok (maxFans self)) (process_timeout self env).
Proof.
  unfold process_timeout. pres.
Qed.

#[local] Hint Resolve preserves_process_timeout : pres.

Lemma preserves_getMOSI_w n : preserves (worker_ok n) getMOSI_w.
Proof.
  intros w Hw. unfold getMOSI_w, getMOSI. by destruct (mosi (slave w)).
Qed.

#[local] Hint Resolve preserves_getMOSI_w : pres.

Lemma preserves_connected_cycle self env :
  preserves (worker_ok (maxFans self)) (connected_cycle self env).
Proof.
  unfold connected_cycle.
  apply preserves_bind; [apply preserves_get|intros w].
  destruct (_ && _).
  { pres. }
  apply preserves_bind; [apply preserves_getMOSI_w|intros fetched].
  apply preserves_bind.
  { destruct fetched as [[| | | |]|]; pres. }
  intros _. apply preserves_bind; [apply preserves_receive|intros reply].
  destruct reply;
    [apply preserves_process_reply|apply preserves_process_timeout].
Qed.

#[local] Hint Resolve preserves_connected_cycle : pres.

Lemma preserves_slaveRoutine_setup n self env :
  preserves (worker_ok n) (_slaveRoutine_setup self env).
Proof.
  unfold _slaveRoutine_setup. pres.
Qed.

(** A turn of the worker loop keeps the shape of the feedback pair. *)
Lemma preserves_slaveRoutine self env more :
  preserves (worker_ok (maxFans self)) (_slaveRoutine self env more).
Proof.
  unfold _slaveRoutine.
  apply preserves_try_except; [|intros e; pres].
  apply preserves_bind; [apply preserves_get|intros w].
  destruct (getStatus (slave w)); try apply preserves_emit.
  - apply preserves_connected_cycle.
  - pres.
Qed.

(** *** The communicator keeps the shape of every feedback pair *)

Lemma feedback_wf_with_slaves self l :
  Forall (feedback_ok (maxFans self)) l -> feedback_wf (with_slaves l self).
Proof. intros Hl. exact Hl. Qed.

Lemma feedback_wf_insert self i sl' :
  feedback_wf self ->
  feedback_ok (maxFans self) sl' ->
  feedback_wf (with_slaves (<[i := sl']> (slaves self)) self).
Proof.
  intros Hwf Hsl'. apply feedback_wf_with_slaves.
  apply Forall_insert; [exact Hwf|exact Hsl'].
Qed.

Lemma feedback_wf_lookup self i sl :
  feedback_wf self -> slaves self !! i = Some sl ->
  feedback_ok (maxFans self) sl.
Proof. intros Hwf Hsl. by eapply (Forall_lookup_1 _ _ _ _ Hwf Hsl). Qed.

Lemma new_FCSlave_feedback_ok name_ mac_ fans_ maxFans_ status_ version_
    q ip_ misoP_ mosiP_ index_ :
  feedback_ok maxFans_
    (new_FCSlave name_ mac_ fans_ maxFans_ status_ version_ q ip_ misoP_
       mosiP_ index_).
Proof. split; cbn; apply length_replicate. Qed.

Lemma preserves_setSlaveStatus_at i newStatus netargs lock_ok_ :
  preserves feedback_wf (setSlaveStatus_at i newStatus netargs lock_ok_).
Proof.
  unfold setSlaveStatus_at. apply preserves_bind_get. intros self Hwf.
  unfold bind, or_raise.
  destruct (slaves self !! i) as [sl|] eqn:Hsl; [|exact Hwf]. cbn.
  pose proof (setSlaveStatus_miso sl newStatus netargs lock_ok_) as Hm.
  destruct (setSlaveStatus sl newStatus netargs lock_ok_) as [sl' evs].
  cbn in *. apply feedback_wf_insert; [exact Hwf|].
  pose proof (feedback_wf_lookup _ _ _ Hwf Hsl) as Hok.
  unfold feedback_ok in *. by rewrite Hm.
Qed.

#[local] Hint Resolve preserves_setSlaveStatus_at : pres.

Lemma preserves_sendSlaves : preserves feedback_wf _sendSlaves.
Proof. unfold _sendSlaves. pres. Qed.

#[local] Hint Resolve preserves_sendSlaves : pres.

Lemma preserved_at {St A} (I : St -> Prop) (m : M event St A) s :
  preserves I m -> I s -> I (m s).1.2.
Proof. intros Hm Hs. by apply Hm. Qed.

Lemma preserves_listener_A messageSplitted senderAddress env :
  preserves feedback_wf (listener_A messageSplitted senderAddress env).
Proof.
  unfold listener_A.
  apply preserves_bind; [pres|intros mac_].
  apply preserves_bind; [pres|intros kind].
  destruct (decide (kind = "N")); [|pres].
  apply preserves_bind; [pres|intros s4].
  apply preserves_bind; [pres|intros misoPort].
  apply preserves_bind; [pres|intros s5].
  apply preserves_bind; [pres|intros mosiPort].
  apply preserves_bind; [pres|intros version_].
  apply preserves_bind; [pres|intros _].
  apply preserves_bind; [pres|intros _].
  apply preserves_bind; [pres|intros _].
  apply preserves_bind_get. intros self Hwf.
  destruct (_getSlaveIndexByMAC self mac_) as [index_|].
  - apply preserved_at; [pres|exact Hwf].
  - munfold. mred.
    rewrite lookup_app_r by lia. rewrite Nat.sub_diag. mred.
    apply Forall_app. split; [exact Hwf|].
    apply Forall_singleton. apply new_FCSlave_feedback_ok.
Qed.

Lemma preserves_listener_B messageSplitted senderAddress env :
  preserves feedback_wf (listener_B messageSplitted senderAddress env).
Proof.
  unfold listener_B.
  apply preserves_bind; [pres|intros kind].
  destruct (decide (kind = "N")); [|pres].
  apply preserves_bind_get. intros self Hwf.
  unfold bind at 1.
  assert (exists r t,
            (if negb (flashFlag self)
             then emit (EvSendto listenerSocket
                          (DToListener "L" (passcode self))
                          (Some senderAddress.1, Some senderAddress.2))
             else
               let* fm := or_raise (flashMessage self) TypeError in
               emit (EvSendto listenerSocket (DRaw fm)
                       (Some senderAddress.1, Some senderAddress.2))) self
            = (r, self, t)) as (r & t & ->).
  { destruct (negb (flashFlag self)); [by eexists _, _|].
    destruct (flashMessage self); by eexists _, _. }
  destruct r as [e0|[]]; [exact Hwf|].
  unfold bind at 1, getitem, or_raise.
  destruct (messageSplitted !! 2%nat) as [mac_|]; [|exact Hwf]. cbn [ret].
  destruct (_getSlaveIndexByMAC self mac_) as [index_|].
  2:{ cbn. exact Hwf. }
  unfold bind at 1.
  destruct (slaves self !! index_) as [sl|] eqn:Hsl; [|exact Hwf]. cbn [ret].
  unfold bind at 1, modify.
  pose proof (preserves_setSlaveStatus_at index_ SS_UPDATING None
                (listener_lock_ok env)
                (with_slaves (<[index_:=setVersion
                                  (default "Bootloader(?)"
                                     (messageSplitted !! 4%nat)) sl]>
                                (slaves self)) self)) as Hp.
  destruct (setSlaveStatus_at _ _ _ _ _) as [[r2 s2] t2]. cbn in *.
  apply Hp. apply feedback_wf_insert; [exact Hwf|].
  exact (feedback_wf_lookup _ _ _ Hwf Hsl).
Qed.

#[local] Hint Resolve preserves_listener_A preserves_listener_B : pres.

Lemma preserves_listenerRoutine messageReceived senderAddress env :
  preserves feedback_wf (_listenerRoutine messageReceived senderAddress env).
Proof. unfold _listenerRoutine, listener_try. pres. Qed.

Lemma preserves_add targetIndex lock_ok_ :
  preserves feedback_wf (add targetIndex lock_ok_).
Proof. unfold add. pres. Qed.

Lemma preserved_bind_at {St A B} (I : St -> Prop) (m : M event St A)
    (k : A -> M event St B) s :
  I (m s).1.2 -> (forall a, preserves I (k a)) -> I (bind m k s).1.2.
Proof.
  intros Hm Hk. unfold bind. destruct (m s) as [[[e|a] s1] t1]; [exact Hm|].
  specialize (Hk a s1 Hm). by destruct (k a s1) as [[r s2] t2].
Qed.

Lemma bind_state {St A B} (m : M event St A) (k : A -> M event St B) s :
  (bind m k s).1.2
  = match m s with
    | (inr a, s1, _) => (k a s1).1.2
    | (inl _, s1, _) => s1
    end.
Proof.
  unfold bind. destruct (m s) as [[[e|a] s1] t1]; [done|].
  by destruct (k a s1) as [[r s2] t2].
Qed.

Lemma setMOSI_miso cmd sl : getMISO (setMOSI cmd sl) = getMISO sl.
Proof. unfold setMOSI. by destruct (decide _). Qed.

Lemma preserves_dc_vector_loop C n : forall k i,
  preserves feedback_wf (dc_vector_loop C n k i).
Proof.
  induction n as [|n IH]; intros k i; cbn [dc_vector_loop]; [pres|].
  apply preserves_bind_get. intros self Hwf.
  destruct (_ && _); [|exact Hwf].
  rewrite bind_state. unfold getitem, or_raise.
  destruct (slaves self !! k) as [sl|] eqn:Hsl; [|exact Hwf]. cbn [ret].
  apply preserved_bind_at.
  2:{ intros _. pres. }
  destruct (decide (getStatus sl = SS_CONNECTED)); [|exact Hwf].
  rewrite bind_state. unfold format_template.
  destruct (decide _); [|exact Hwf]. cbn.
  apply feedback_wf_insert; [exact Hwf|].
  pose proof (feedback_wf_lookup _ _ _ Hwf Hsl) as Hok.
  unfold feedback_ok in *. by rewrite setMOSI_miso.
Qed.

Lemma preserves_handle_DC_VECTOR C :
  preserves feedback_wf (__handle_input_CTL_DC_VECTOR C).
Proof.
  unfold __handle_input_CTL_DC_VECTOR. pres. apply preserves_dc_vector_loop.
Qed.

(** Every move of a thread keeps the shape of the feedback pairs and the
    configured fan count. *)
Lemma comm_step_feedback_wf self self' :
  comm_step self self' -> feedback_wf self -> feedback_wf self'.
Proof.
  intros Hstep Hwf. destruct Hstep as
    [self msg addr env r self' t Hrun
    |self i sl l q env r w' t Hsl Hrun
    |self i sl l q env more r w' t Hsl Hrun
    |self targetIndex lk r self' t Hrun
    |self C r self' t Hrun
    |self flag target msg].
  - pose proof (preserves_listenerRoutine msg addr env self Hwf) as Hp.
    by rewrite Hrun in Hp.
  - apply feedback_wf_insert; [exact Hwf|].
    pose proof (preserves_slaveRoutine_setup (maxFans self) self env
                  (mkW sl l q) (feedback_wf_lookup _ _ _ Hwf Hsl)) as Hp.
    by rewrite Hrun in Hp.
  - apply feedback_wf_insert; [exact Hwf|].
    pose proof (preserves_slaveRoutine self env more
                  (mkW sl l q) (feedback_wf_lookup _ _ _ Hwf Hsl)) as Hp.
    by rewrite Hrun in Hp.
  - pose proof (preserves_add targetIndex lk self Hwf) as Hp.
    by rewrite Hrun in Hp.
  - pose proof (preserves_handle_DC_VECTOR C self Hwf) as Hp.
    by rewrite Hrun in Hp.
  - exact Hwf.
Qed.

Lemma initial_feedback_wf self : initial self -> feedback_wf self.
Proof.
  intros (saved & Hsl & _). unfold feedback_wf. rewrite Hsl.
  unfold init_slaves. apply Forall_forall. intros sl Hin.
  apply list_elem_of_lookup in Hin as [i Hi].
  rewrite list_lookup_imap in Hi.
  destruct (saved !! i) as [[[name_ mac_] fans_]|]; [|done].
  cbn in Hi. simplify_eq. apply new_FCSlave_feedback_ok.
Qed.

Lemma reachable_feedback_wf self : reachable self -> feedback_wf self.
Proof.
  intros (self0 & Hinit & Hsteps).
  apply initial_feedback_wf in Hinit.
  induction Hsteps as [|x y z Hstep _ IH]; [exact Hinit|].
  apply IH. by eapply comm_step_feedback_wf.
Qed.

Lemma gather_feedback_acc l : forall F_r F_d,
  fold_left
    (fun acc slave_ =>
       let '(rpms, dcs) := getMISO slave_ in
       (acc.1 ++ map NInt rpms, acc.2 ++ map NFloat dcs))
    l (F_r, F_d)
  = (F_r ++ concat (map (fun sl => map NInt (getMISO sl).1) l),
     F_d ++ concat (map (fun sl => map NFloat (getMISO sl).2) l)).
Proof.
  induction l as [|sl l IH]; intros F_r F_d; cbn [fold_left map concat].
  - by rewrite !app_nil_r.
  - destruct (getMISO sl) as [rpms dcs] eqn:Hm. cbn [fst snd].
    rewrite IH. by rewrite <- !app_assoc.
Qed.

Lemma feedback_vector_concat self :
  feedback_vector self
  = concat (map (fun sl => map NInt (getMISO sl).1) (slaves self))
    ++ concat (map (fun sl => map NFloat (getMISO sl).2) (slaves self)).
Proof.
  unfold feedback_vector, gather_feedback. by rewrite gather_feedback_acc.
Qed.

Lemma concat_length_uniform {A B} (f : A -> list B) (n : nat) (l : list A) :
  Forall (fun x => length (f x) = n) l ->
  length (concat (map f l)) = (length l * n)%nat.
Proof.
  induction 1 as [|x l Hx _ IH]; cbn; [done|].
  rewrite length_app, Hx, IH. lia.
Qed.


End Properties.

(** * The statements on a concrete communicator *)

(** The announce of an unknown MAC on the empty registry. *)
Lemma C1_witness :
  exists new self',
    _listenerRoutine test_announce test_address test_listener_env test_self
    = (inr tt, self',
       [EvSlavePipe (map getSlaveStateVector (slaves self')); EvStart 0]) /\
    slaves self' = [new] /\
    getStatus new = SS_AVAILABLE /\
    index new = 0%nat /\
    _getSlaveIndexByMAC self' test_mac = Some 0%nat.
Proof.
  destruct (C1_unknown_mac_is_appended test_self test_announce test_mac "v1"
              5000 5001 test_address test_listener_env)
    as (new & self' & Hrun & Hsl & Hst & Hidx & Hmac & Hmap & Hlook & _).
  - split; [reflexivity|].
    exists "A", "5000", "5001", []. repeat split; reflexivity.
  - unfold valid_port. lia.
  - unfold valid_port. lia.
  - reflexivity.
  - reflexivity.
  - exists new, self'. repeat split; assumption.
Defined.

(** A fresh telemetry reply is applied; the same reply a second time is
    not. *)
Lemma C2_witness :
  exists w',
    process_reply test_self test_telemetry (test_worker SS_CONNECTED)
    = (inr tt, w', []) /\
    getDataIndex (slave w') = 7%Z /\
    getMISO (slave w') = ([100; 200; 0]%Z, [5; 6; 0]%Z) /\
    exists w'',
      process_reply test_self test_telemetry w' = (inr tt, w'', []) /\
      slave w'' = slave w'.
Proof.
  destruct (C2_telemetry_applied_at_most_once test_self test_telemetry
              (test_worker SS_CONNECTED) (PyInt 7) 7)
    as (_ & Hfresh & _ & _ & Honce); [reflexivity..|].
  destruct (Hfresh ltac:(vm_compute; reflexivity)
              ([100; 200; 0]%Z, [5; 6; 0]%Z))
    as (w' & Hrun & _ & Hidx & Hmiso).
  { intros s. reflexivity. }
  exists w'. split; [exact Hrun|]. split; [exact Hidx|].
  split; [exact Hmiso|].
  destruct (Honce _ _ _ Hrun) as (_ & w'' & Hrun' & Hsame).
  by exists w''.
Defined.

(** A reply with a fresh data index whose RPM field does not convert:
    the index is stored and no feedback pair comes out of the reply, so
    the strict form of the property fails. *)
Lemma C2_counterexample : ~ fresh_telemetry_is_applied (RT := test_runtime).
Proof.
  intros H.
  destruct (H test_self test_telemetry_bad (test_worker SS_CONNECTED)
              (PyInt 7) 7%Z eq_refl eq_refl eq_refl
              ltac:(vm_compute; reflexivity) _ _ _ eq_refl)
    as (_ & update & Hparse & _).
  assert (Hp : (parse_feedback test_self test_telemetry_bad
                  (test_worker SS_CONNECTED)).1.1 = inl ValueError)
    by (vm_compute; reflexivity).
  rewrite Hparse in Hp. discriminate Hp.
Qed.




Lemma test_registry_reachable :
  reachable
    (_listenerRoutine test_announce test_address test_listener_env
       test_self).1.2.
Proof.
  exists test_self. split.
  - exists []. split; reflexivity.
  - apply rtc_once.
    destruct (_listenerRoutine test_announce test_address test_listener_env
                test_self) as [[r self'] t] eqn:Hrun.
    exact (step_listener _ _ _ _ _ _ _ Hrun).
Defined.


(** An announce that names a CONNECTED slave leaves the communicator as
    it was. *)
Lemma C6_witness :
  exists t,
    _listenerRoutine test_announce test_address test_listener_env
      (test_registry SS_CONNECTED)
    = (inr tt, test_registry SS_CONNECTED, t).
Proof.
  destruct (C6_connected_untouched_by_announce (test_registry SS_CONNECTED)
              test_announce test_mac test_address test_listener_env 0
              (test_slave SS_CONNECTED))
    as (self' & t & Hrun & Hconn & _).
  - exists "A", "pw", ["N"; "5000"; "5001"; "v1"]. split; reflexivity.
  - vm_compute. reflexivity.
  - reflexivity.
  - destruct (Hconn eq_refl) as [-> _]. by exists t.
Defined.

(** An announce with port 0: nothing changes, and what is reported is a
    NameError. *)
Lemma C8_witness :
  _listenerRoutine test_announce_bad_port test_address test_listener_env
    test_self
  = (inr tt, test_self,
     [EvHandler log_exception (Some NameError); EvPrint (PX NameError)]).
Proof.
  destruct (C8_invalid_announce_is_discarded test_self test_announce_bad_port
              test_mac "v1" 0 5001 test_address test_listener_env)
    as (t & Hrun & Hport & _).
  - split; [reflexivity|].
    exists "A", "0", "5001", []. repeat split; reflexivity.
  - left. unfold valid_port. lia.
  - rewrite Hrun. rewrite Hport; [reflexivity|].
    left. unfold valid_port. lia.
Defined.

(** The third slave of the fleet gets the three values that follow those
    of the first two slaves (2 fans and 1 fan), cursor 1 + 2 + 1 = 4. *)
Lemma C9_witness :
  exists self' sl',
    __handle_input_CTL_DC_VECTOR test_control_vector test_fleet = (inr tt, self', []) /\
    slaves self' !! 2%nat = Some sl' /\
    last (mosi sl') = Some (MOSI_DC_MULTI "40,50,60").
Proof.
  pose (sl := new_FCSlave (RT := test_runtime) "c" "cc:cc:cc:cc:cc:cc" 3 3
                SS_CONNECTED None 10 None None None 2).
  assert (H1 : (1 <= maxFans test_fleet)%nat) by (vm_compute; lia).
  assert (H2 : slaves test_fleet !! 2%nat = Some sl) by reflexivity.
  destruct (C9_full_vector_dispatch_is_aligned test_fleet test_control_vector 2 sl H1 H2)
    as (self' & Hrun & _ & Hconn & _).
  assert (H3 : getStatus sl = SS_CONNECTED) by reflexivity.
  assert (H4 : (cursor_at (slaves test_fleet) 2 < length test_control_vector)%nat)
    by (vm_compute; lia).
  assert (H5 : (getFans sl <= maxFans test_fleet)%nat) by (vm_compute; lia).
  destruct (Hconn H3 H4 H5) as (sl' & Hlook & _ & Hlast & _).
  exists self', sl'. split; [exact Hrun|]. split; [exact Hlook|].
  rewrite Hlast. reflexivity.
Defined.


(** A CONNECTED slave is left alone by [add]. *)
Example add_connected_unchanged :
  add 0 true (test_registry SS_CONNECTED) = (inr tt, test_registry SS_CONNECTED, []).
Proof.
  apply (add_not_available (RT := test_runtime) _ _ _ (test_slave SS_CONNECTED)).
  - reflexivity.
  - discriminate.
Qed.

(** A telemetry reply whose RPM field does not convert: the stored index
    moves on and the feedback pair stays. *)
Example telemetry_bad_field :
  let '(r, w', _) :=
    _slaveRoutine test_self
      {| arrivals := ["1|T|7|x|5,6"]; lock_ok := true;
         new_misoPort := 8000; new_mosiPort := 8001 |} []
      (test_worker SS_CONNECTED) in
  r = inr tt /\
  getDataIndex (slave w') = 7%Z /\
  getMISO (slave w') = getMISO (test_slave SS_CONNECTED).
Proof. vm_compute. repeat split. Qed.

(** A handshake with acknowledgment-pending replies between the
    unanswered receives still sends three descriptors. *)
Example handshake_with_pending :
  let pending i :=
    {| arrivals := [i +:+ "|K"]; lock_ok := true;
       new_misoPort := 8000; new_mosiPort := 8001 |} in
  let '(r, w', t) :=
    handshake test_self
      [pending "1"; test_silent; pending "2"; pending "3"; test_silent;
       test_silent]
      (test_worker SS_KNOWN) in
  r = inr true /\
  getStatus (slave w') = SS_DISCONNECTED /\
  length (List.filter is_descriptor t) = 3%nat.
Proof. vm_compute. repeat split. Qed.

(** * Further properties of the back end *)

Section MoreProperties.
Context `{RT : Runtime} `{STD : Standards}.

Ltac munfold :=
  cbv beta delta [bind ret get put modify emit raise or_raise try_except
                  getitem int_of_str getitem_neg].

Ltac mred :=
  repeat first
    [ rewrite decide_True by done
    | rewrite decide_False by done
    | rewrite bool_decide_eq_true_2 by done
    | rewrite bool_decide_eq_false_2 by (first [done | intros Hne; by apply Hne])
    | progress cbn ].

(** ** The listener thread *)

(** X1. A datagram that does not decode as ASCII, has fewer than two
    fields, or whose second field is not the communicator's passcode
    changes nothing and is answered by nothing: the listener's turn ends
    normally with the communicator as it was, and all it does is print a
    warning, after reporting a parsing error when the datagram could not
    be read that far. *)
Theorem listener_ignores_foreign_datagrams :
  forall (self : FCCommunicator) (messageReceived : string)
         (senderAddress : address) (env : listener_env),
    ~ carries_passcode self messageReceived ->
    exists t,
      _listenerRoutine messageReceived senderAddress env self
      = (inr tt, self, t) /\
      (t = [EvPrint PW] \/
       exists e, t = [EvHandler handle_parsing_error (Some e); EvPrint PW]).
Proof.
  intros self msg addr env Hno.
  unfold _listenerRoutine, listener_try, try_except.
  destruct (is_ascii msg) eqn:Ha.
  2:{ munfold. cbn. eexists. split; [reflexivity|]. right. by eexists. }
  destruct (py_split "|" msg) as [|m0 [|p rest]] eqn:Hs.
  - munfold. cbn. eexists. split; [reflexivity|]. right. by eexists.
  - munfold. cbn. eexists. split; [reflexivity|]. right. by eexists.
  - assert (p <> passcode self) as Hp.
    { intros ->. apply Hno. split; [exact Ha|]. by exists m0, rest. }
    munfold. mred. eexists. split; [reflexivity|]. by left.
Qed.

(** ** The listener thread: the bootloader *)

(** X2. A hello of the bootloader ('B|passcode|mac|N|...') is answered
    with the flash message while a firmware update is on and with the
    launch message otherwise.  When the MAC is registered and the
    registry lock is obtained, the slave is marked UPDATING whatever
    its status was, with the version the datagram carries
    ('Bootloader(?)' when it carries none), and keeps its identity;
    when the MAC is not registered the communicator is unchanged and
    one more launch message is sent. *)
Theorem bootloader_hello_marks_updating :
  forall (self : FCCommunicator) (messageReceived m0 mac_ : string)
         (rest : list string) (senderAddress : address) (env : listener_env),
    is_ascii messageReceived = true ->
    py_split "|" messageReceived
      = m0 :: passcode self :: mac_ :: "N" :: rest ->
    str_head m0 = Some "B"%char ->
    (flashFlag self = true -> is_Some (flashMessage self)) ->
    let dest := (Some senderAddress.1, Some senderAddress.2) in
    let launch :=
      EvSendto listenerSocket (DToListener "L" (passcode self)) dest in
    let answer :=
      if flashFlag self
      then EvSendto listenerSocket
             (DRaw (default "" (flashMessage self))) dest
      else launch in
    (forall i sl,
       _getSlaveIndexByMAC self mac_ = Some i ->
       slaves self !! i = Some sl ->
       listener_lock_ok env = true ->
       let sl' :=
         setStatus SS_UPDATING None
           (setVersion (default "Bootloader(?)" (rest !! 0%nat)) sl) in
       _listenerRoutine messageReceived senderAddress env self
       = (inr tt, with_slaves (<[i := sl']> (slaves self)) self,
          [answer; EvSlaveUpdate (getSlaveStateVector sl')]) /\
       getStatus sl' = SS_UPDATING /\
       getVersion sl' = Some (default "Bootloader(?)" (rest !! 0%nat)) /\
       same_id sl sl') /\
    (_getSlaveIndexByMAC self mac_ = None ->
     _listenerRoutine messageReceived senderAddress env self
     = (inr tt, self, [answer; launch])).
Proof.
  intros self msg m0 mac_ rest addr env Ha Hs Hm0 Hfm dest launch answer.
  destruct m0 as [|c m0']; [done|]. cbn in Hm0. simplify_eq.
  split.
  - intros i sl Hi Hsl Hlock sl'.
    split; [|by repeat split].
    unfold _listenerRoutine, listener_try, listener_B, setSlaveStatus_at,
      setSlaveStatus, try_except.
    rewrite Ha, Hs. munfold. mred. 
    destruct (flashFlag self) eqn:Hff; mred.
    + destruct (Hfm eq_refl) as [fm Hfmeq]. rewrite Hfmeq. mred.
      rewrite Hi. mred. rewrite Hsl. mred.
      rewrite list_lookup_insert_eq by (by eapply lookup_lt_Some).
      rewrite Hlock. mred. rewrite list_insert_insert_eq.
      subst answer. rewrite Hfmeq. reflexivity.
    + rewrite Hi. mred. rewrite Hsl. mred.
      rewrite list_lookup_insert_eq by (by eapply lookup_lt_Some).
      rewrite Hlock. mred. rewrite list_insert_insert_eq.
      reflexivity.
  - intros Hi.
    unfold _listenerRoutine, listener_try, listener_B, try_except.
    rewrite Ha, Hs. munfold. mred.
    destruct (flashFlag self) eqn:Hff; mred.
    + destruct (Hfm eq_refl) as [fm Hfmeq]. rewrite Hfmeq. mred.
      rewrite Hi. mred. subst answer. rewrite Hfmeq. reflexivity.
    + rewrite Hi. mred. by destruct self.
Qed.

(** The 'A' branch for a MAC of the index, up to the choice it makes on
    the firmware flag and the slave's status. *)
Lemma listener_A_registered self senderAddress env m0 p mac_ s4 s5 version_
    rest misoPort mosiPort i :
  py_int s4 = Some misoPort -> py_int s5 = Some mosiPort ->
  valid_port misoPort -> valid_port mosiPort ->
  String.length mac_ = 17%nat ->
  _getSlaveIndexByMAC self mac_ = Some i ->
  listener_A (m0 :: p :: mac_ :: "N" :: s4 :: s5 :: version_ :: rest)
    senderAddress env self
  = (if flashFlag self && bool_decide (Some version_ <> targetVersion self)
     then
       emit (EvSendto listenerSocket (DToListener "R" (passcode self))
               (Some senderAddress.1, Some senderAddress.2))
     else
       let* slave_ := getitem (slaves self) i in
       if bool_decide (getStatus slave_ = SS_DISCONNECTED)
          || bool_decide (getStatus slave_ = SS_UPDATING)
       then
         setSlaveStatus_at i SS_KNOWN
           (Some (senderAddress.1, misoPort, mosiPort, version_))
           (listener_lock_ok env)
       else ret tt) self.
Proof.
  intros H4 H5 Hp4 Hp5 Hlen Hmap.
  unfold listener_A. munfold. mred.
  rewrite H4, H5. mred. rewrite (port_checks _ Hp4), (port_checks _ Hp5). mred.
  rewrite Hmap.
  destruct (flashFlag self && bool_decide (Some version_ <> targetVersion self));
    [reflexivity|].
  destruct (slaves self !! i) as [sl|]; [|reflexivity].
  destruct (_ || _); [|reflexivity].
  by destruct (setSlaveStatus_at _ _ _ _ _) as [[r s] t].
Qed.

(** X3. While a firmware update is on, a device whose version is not the
    target one is sent back to its bootloader from both sides.  An
    announce from a registered MAC that reports another version is
    answered with ["R|<passcode>"] and changes nothing, whatever the
    status of the slave, so a DISCONNECTED slave is not made KNOWN again.
    The worker of a CONNECTED slave with another version sends the
    indexed message ["R"] instead of its command, takes nothing from the
    mailbox, does not wait for a reply and, the registry lock being
    obtained, sets the slave DISCONNECTED. *)
Theorem firmware_update_reboots_other_versions :
  forall (self : FCCommunicator),
    flashFlag self = true ->
    (forall (messageReceived mac_ version_ : string) (misoPort mosiPort : Z)
            (senderAddress : address) (env : listener_env) (i : nat),
       device_announce messageReceived (passcode self) mac_ misoPort
         mosiPort version_ ->
       valid_port misoPort -> valid_port mosiPort ->
       String.length mac_ = 17%nat ->
       _getSlaveIndexByMAC self mac_ = Some i ->
       Some version_ <> targetVersion self ->
       _listenerRoutine messageReceived senderAddress env self
       = (inr tt, self,
          [EvSendto listenerSocket (DToListener "R" (passcode self))
             (Some senderAddress.1, Some senderAddress.2)])) /\
    (forall (env : worker_env) (more : list worker_env) (w : wstate),
       getStatus (slave w) = SS_CONNECTED ->
       getVersion (slave w) <> targetVersion self ->
       lock_ok env = true ->
       let sl' :=
         setStatus SS_DISCONNECTED None (incrementMOSIIndex (slave w)) in
       _slaveRoutine self env more w
       = (inr tt, mkW sl' (loc w) (inbox w),
          [EvSendto (slave_mosiSocket (mac (slave w)))
             (DIndexed (getMOSIIndex (slave w) + 1) "R")
             (ip (slave w), getMOSIPort (slave w));
           EvSlaveUpdate (getSlaveStateVector sl')]) /\
       getStatus sl' = SS_DISCONNECTED /\
       mosi sl' = mosi (slave w)).
Proof.
  intros self Hflag. split.
  - intros msg mac_ version_ misoPort mosiPort addr env i
      (Hascii & m0 & s4 & s5 & rest & Hsplit & Hhead & H4 & H5)
      Hp4 Hp5 Hlen Hmap Hver.
    apply listener_try_ok_run.
    rewrite (listener_try_A _ _ _ _ _ _ Hascii Hsplit Hhead).
    unfold try_except.
    rewrite (listener_A_registered _ _ _ _ _ _ _ _ _ _ _ _ _ H4 H5 Hp4 Hp5
               Hlen Hmap).
    rewrite Hflag. mred. reflexivity.
  - intros env more w Hst Hver Hlock sl'. split; [|by split].
    unfold _slaveRoutine, connected_cycle, try_except, setSlaveStatus_w,
      setSlaveStatus.
    munfold. cbn. rewrite Hst. cbn. rewrite Hflag. mred. rewrite Hlock.
    mred. reflexivity.
Qed.

(** X4. An announce with valid ports from a registered slave that is
    DISCONNECTED or UPDATING, when no firmware update holds it back and
    the registry lock is obtained, makes the slave KNOWN with the
    sender's address, the ports and the version of the datagram; its
    index, MAC, name and fan count stay, its state vector is queued for
    the front end, and no other record changes. *)
Theorem announce_readmits_registered_slave :
  forall (self : FCCommunicator) (messageReceived mac_ version_ : string)
         (misoPort mosiPort : Z) (senderAddress : address)
         (env : listener_env) (i : nat) (sl : FCSlave),
    device_announce messageReceived (passcode self) mac_ misoPort mosiPort
      version_ ->
    valid_port misoPort -> valid_port mosiPort ->
    String.length mac_ = 17%nat ->
    _getSlaveIndexByMAC self mac_ = Some i ->
    slaves self !! i = Some sl ->
    getStatus sl = SS_DISCONNECTED \/ getStatus sl = SS_UPDATING ->
    ~ (flashFlag self = true /\ Some version_ <> targetVersion self) ->
    listener_lock_ok env = true ->
    let sl' :=
      setStatus SS_KNOWN
        (Some (senderAddress.1, misoPort, mosiPort, version_)) sl in
    _listenerRoutine messageReceived senderAddress env self
    = (inr tt, with_slaves (<[i := sl']> (slaves self)) self,
       [EvSlaveUpdate (getSlaveStateVector sl')]) /\
    getStatus sl' = SS_KNOWN /\
    ip sl' = Some senderAddress.1 /\
    misoP sl' = Some misoPort /\ mosiP sl' = Some mosiPort /\
    version sl' = Some version_ /\
    same_id sl sl'.
Proof.
  intros self msg mac_ version_ misoPort mosiPort addr env i sl
    (Hascii & m0 & s4 & s5 & rest & Hsplit & Hhead & H4 & H5)
    Hp4 Hp5 Hlen Hmap Hsl Hst Hnoflash Hlock sl'.
  split; [|by repeat split].
  apply listener_try_ok_run.
  rewrite (listener_try_A _ _ _ _ _ _ Hascii Hsplit Hhead).
  unfold try_except.
  rewrite (listener_A_registered _ _ _ _ _ _ _ _ _ _ _ _ _ H4 H5 Hp4 Hp5
             Hlen Hmap).
  assert (flashFlag self && bool_decide (Some version_ <> targetVersion self)
          = false) as ->.
  { destruct (flashFlag self) eqn:Hf; [|reflexivity]. cbn.
    apply bool_decide_eq_false_2. intros Hv. by apply Hnoflash. }
  unfold setSlaveStatus_at, setSlaveStatus. munfold. rewrite Hsl. mred.
  assert (bool_decide (getStatus sl = SS_DISCONNECTED)
          || bool_decide (getStatus sl = SS_UPDATING) = true) as ->.
  { destruct Hst as [Hd|Hu].
    - by rewrite (bool_decide_eq_true_2 _ Hd).
    - rewrite (bool_decide_eq_true_2 _ Hu). apply orb_true_r. }
  rewrite Hsl, Hlock. mred. reflexivity.
Qed.

(** ** The worker thread: what [_receive] lets through *)

Lemma receive_output_shape index_ splitted output :
  receive_output index_ splitted = inr (Some output) ->
  reply_index output = Some index_.
Proof.
  unfold receive_output.
  destruct splitted as [|s0 [|s1 [|s2 [|s3 [|s4 [|s5 rest]]]]]]; try done.
  - intros Heq. by simplify_eq.
  - intros Heq. by simplify_eq.
  - intros Heq. by simplify_eq.
  - destruct (py_int s2); [|done]. intros Heq. by simplify_eq.
Qed.

Lemma receive_loop_spec pending : forall sl r sl' q t,
  receive_loop pending sl = (r, sl', q, t) ->
  (exists consumed, pending = consumed ++ q) /\
  match r with
  | Some reply =>
      exists k, reply_index reply = Some k /\
                (getMISOIndex sl < k)%Z /\ sl' = setMISOIndex k sl
  | None => sl' = sl
  end.
Proof.
  induction pending as [|m rest IH]; intros sl r sl' q t; cbn [receive_loop].
  - intros Heq. simplify_eq. split; [by exists []|done].
  - assert (forall e r sl' q t,
              (let '(r0, sl0, q0, t0) := receive_loop rest sl in
               (r0, sl0, q0,
                EvHandler handle_communication_error (Some e)
                  :: EvPrint PW :: t0)) = (r, sl', q, t) ->
              (exists consumed, m :: rest = consumed ++ q) /\
              match r with
              | Some reply =>
                  exists k, reply_index reply = Some k /\
                            (getMISOIndex sl < k)%Z /\ sl' = setMISOIndex k sl
              | None => sl' = sl
              end) as Hskip.
    { intros e r0 sl0 q0 t0.
      destruct (receive_loop rest sl) as [[[r1 sl1] q1] t1] eqn:Hrec.
      intros Heq. simplify_eq.
      destruct (IH _ _ _ _ _ Hrec) as [[c Hc] Hr]. split; [|exact Hr].
      exists (m :: c). by rewrite Hc. }
    destruct (negb (is_ascii m)); [apply Hskip|].
    destruct (py_split "|" m !! 0%nat ≫= py_int) as [index_|]; [|apply Hskip].
    destruct (index_ <=? getMISOIndex sl)%Z eqn:Hle.
    { intros Hrec. destruct (IH _ _ _ _ _ Hrec) as [[c Hc] Hr].
      split; [|exact Hr]. exists (m :: c). by rewrite Hc. }
    destruct (receive_output index_ (py_split "|" m)) as [e|[output|]] eqn:Hout;
      [apply Hskip| |].
    + intros Heq. simplify_eq. split; [by exists [m]|].
      exists index_. split; [by eapply receive_output_shape|].
      split; [|reflexivity]. apply Z.leb_gt in Hle. lia.
    + intros Heq. simplify_eq. split; [by exists [m]|done].
Qed.


(** ** Invariants of a worker's slave *)

Create HintDb keep.

#[local] Hint Resolve preserves_ret preserves_raise preserves_get
  preserves_emit preserves_or_raise preserves_getitem
  preserves_int_of_str : keep.

Ltac keep :=
  repeat first
    [ solve [auto 2 with keep nocore]
    | apply preserves_bind; [|intros ?]
    | apply preserves_try_except; [|intros ?]
    | match goal with
      | |- preserves _ (if ?c then _ else _) => destruct c
      | |- preserves _ (match ?x with _ => _ end) => destruct x
      end ].

Lemma keeps_with_slave P Q (f : FCSlave -> FCSlave) :
  (forall sl, P sl -> P (f sl)) ->
  preserves (worker_inv P Q) (modify (with_slave f)).
Proof. intros Hf. apply preserves_modify. intros w [HP HQ]. split; [by apply Hf|done]. Qed.

Lemma keeps_with_loc P Q (f : locals -> locals) :
  (forall l, Q l -> Q (f l)) ->
  preserves (worker_inv P Q) (modify (with_loc f)).
Proof. intros Hf. apply preserves_modify. intros w [HP HQ]. split; [done|by apply Hf]. Qed.

Lemma keeps_with_inbox P Q q :
  preserves (worker_inv P Q) (modify (with_inbox q)).
Proof. apply preserves_modify. by intros w [HP HQ]. Qed.

#[local] Hint Resolve keeps_with_inbox : keep.

Lemma keeps_send P Q `{!WorkerStable P} message_ repeat hsk :
  preserves (worker_inv P Q) (_send message_ repeat hsk).
Proof.
  unfold _send. apply preserves_bind; [|intros _; keep].
  destruct (negb hsk); apply keeps_with_slave; intros sl Hsl;
    by apply stable_indices.
Qed.

Lemma keeps_sendToListener P Q self message_ repeat targetted :
  preserves (worker_inv P Q) (_sendToListener self message_ repeat targetted).
Proof.
  unfold _sendToListener. apply preserves_bind; [apply preserves_get|].
  intros w. destruct (_ && _); by intros s Hs.
Qed.

Lemma keeps_receive P Q `{!WorkerStable P} arrivals_ :
  preserves (worker_inv P Q) (_receive arrivals_).
Proof.
  intros w [HP HQ]. unfold _receive.
  destruct (receive_loop (inbox w ++ arrivals_) (slave w))
    as [[[r sl'] q] t] eqn:Hrec.
  destruct (receive_loop_spec _ _ _ _ _ _ Hrec) as [_ Hr].
  split; [|exact HQ]. cbn.
  destruct r as [reply|]; [|by subst].
  destruct Hr as (k & _ & _ & ->). by apply stable_indices.
Qed.

Lemma keeps_getMOSI_w P Q `{!WorkerStable P} :
  preserves (worker_inv P Q) getMOSI_w.
Proof.
  intros w [HP HQ]. unfold getMOSI_w, getMOSI.
  destruct (mosi (slave w)); [done|]. split; [|exact HQ]. cbn.
  by apply stable_mosi.
Qed.

Lemma keeps_setMISO_w P Q `{!WorkerStable P} update :
  preserves (worker_inv P Q) (setMISO_w update).
Proof.
  intros w [HP HQ]. unfold setMISO_w, setMISO. split; [|exact HQ]. cbn.
  by apply stable_miso.
Qed.

#[local] Hint Resolve keeps_send keeps_sendToListener keeps_receive
  keeps_getMOSI_w keeps_setMISO_w : keep.

Lemma keeps_setSlaveStatus_w P Q `{!WorkerStable P} `{!StatusStable P}
    newStatus lock_ok_ :
  preserves (worker_inv P Q) (setSlaveStatus_w newStatus lock_ok_).
Proof.
  intros w [HP HQ]. unfold setSlaveStatus_w, setSlaveStatus.
  destruct lock_ok_; [|done]. split; [|exact HQ]. cbn.
  unfold setStatus. apply stable_status.
  destruct (decide _); [by apply stable_indices|done].
Qed.

#[local] Hint Resolve keeps_setSlaveStatus_w : keep.

Lemma keeps_any_loc P (f : locals -> locals) :
  preserves (worker_inv P any_locals) (modify (with_loc f)).
Proof. by apply keeps_with_loc. Qed.

#[local] Hint Resolve keeps_any_loc : keep.

Lemma keeps_apply_feedback P `{!WorkerStable P} self reply :
  preserves (worker_inv P any_locals)
    (bind (parse_feedback self reply) setMISO_w).
Proof.
  intros w Hw. unfold bind.
  destruct (stateless_parse_feedback self reply) as (r & _ & Hr).
  rewrite Hr. destruct r as [e|update]; [exact Hw|].
  pose proof (keeps_setMISO_w P any_locals update w Hw) as Hk.
  by destruct (setMISO_w update w) as [[r s] t].
Qed.

Lemma keeps_process_reply P `{!WorkerStable P} self reply :
  preserves (worker_inv P any_locals) (process_reply self reply).
Proof.
  unfold process_reply.
  apply preserves_bind; [keep|intros _].
  apply preserves_bind; [keep|intros tag].
  destruct (decide (tag = PyStr "T")) as [HT|HT].
  { unfold process_telemetry, int_of_pyval.
    apply preserves_bind; [keep|intros r].
    apply preserves_bind; [keep|intros idx].
    apply preserves_bind; [keep|intros w].
    destruct (_ <? _)%Z; [|keep].
    apply preserves_bind.
    { apply keeps_with_slave. intros sl Hsl. by apply stable_indices. }
    intros _. apply preserves_try_except; [by apply keeps_apply_feedback|].
    intros e. apply keeps_with_slave. intros sl Hsl. by apply stable_indices. }
  destruct (decide (tag = PyStr "I")) as [HI|HI].
  { apply preserves_bind; [|keep].
    apply keeps_with_slave. intros sl Hsl. by apply stable_indices. }
  keep.
Qed.

Lemma connected_stable :
  WorkerStable (fun sl => getStatus sl = SS_CONNECTED).
Proof. by split. Qed.

(** X6. A turn of the worker never raises, and it takes a CONNECTED slave
    out of that state only by setting it DISCONNECTED, and only in two
    cases: a firmware update asks for the reboot of its version, or no
    reply came in this turn, the count of missed replies in a row has
    reached [maxTimeouts] with this one, and the reconnect probe had
    already been used.  In particular a turn in which a reply is read
    never disconnects the slave. *)
Theorem worker_disconnects_only_at_limit :
  forall (self : FCCommunicator) (env : worker_env)
         (more : list worker_env) (w : wstate),
    getStatus (slave w) = SS_CONNECTED ->
    exists w' t,
      _slaveRoutine self env more w = (inr tt, w', t) /\
      (getStatus (slave w') = SS_CONNECTED \/
       (getStatus (slave w') = SS_DISCONNECTED /\
        (flash_pending self (slave w) \/
         ((maxTimeouts self <= timeouts (loc w) + 1)%Z /\
          tryBuffer (loc w) = false)))).
Proof.
  intros self env more w Hst.
  assert (exists r w' t,
            connected_cycle self env w = (r, w', t) /\
            (getStatus (slave w') = SS_CONNECTED \/
             (getStatus (slave w') = SS_DISCONNECTED /\
              (flash_pending self (slave w) \/
               ((maxTimeouts self <= timeouts (loc w) + 1)%Z /\
                tryBuffer (loc w) = false))))) as (r & w' & t & Hc & Hpost).
  2:{ unfold _slaveRoutine, try_except.
      rewrite (bind_run _ _ w w w [] eq_refl). rewrite Hst, Hc.
      destruct r as [e|[]]; cbn; eexists _, _;
        (split; [reflexivity|exact Hpost]). }
  unfold connected_cycle. rewrite (bind_run _ _ w w w [] eq_refl).
  destruct (flashFlag self
            && bool_decide (getVersion (slave w) <> targetVersion self))
    eqn:Hflash.
  { apply andb_prop in Hflash as [Hf Hv]. apply bool_decide_eq_true_1 in Hv.
    unfold setSlaveStatus_w, setSlaveStatus. munfold. cbn.
    destruct (lock_ok env); cbn; eexists _, _, _; (split; [reflexivity|]).
    - right. split; [reflexivity|]. by left.
    - left. exact Hst. }
  set (P := fun sl => getStatus sl = SS_CONNECTED).
  set (Q := fun l => timeouts l = timeouts (loc w)
                     /\ tryBuffer l = tryBuffer (loc w)).
  assert (worker_inv P Q w) as Hw by done.
  pose proof connected_stable as HP.
  (* the mailbox *)
  unfold bind at 1.
  pose proof (keeps_getMOSI_w P Q w Hw) as H1.
  destruct (getMOSI_w w) as [[[e1|fetched] w1] t1] eqn:Hget; cbn in H1.
  { eexists _, _, _. split; [reflexivity|]. left. apply H1. }
  (* the command *)
  unfold bind at 1.
  assert (preserves (worker_inv P Q)
            (match fetched with
             | Some (MOSI_DC dc selection) =>
                 let m := "S|D:" +:+ str_num dc +:+ ":" +:+ selection in
                 modify (with_loc (set_message m));; _send m 2 false
             | Some (MOSI_DC_MULTI dcs) =>
                 let m := "S|F:" +:+ dcs in
                 modify (with_loc (set_message m));; _send m 2 false
             | Some MOSI_DISCONNECT => _sendToListener self "X" 2 true
             | Some MOSI_REBOOT => _sendToListener self "R" 2 true
             | Some (MOSI_OTHER _) => ret tt
             | None => _send (message (loc w)) 2 false
             end)) as Hsend.
  { destruct fetched as [[| | | |]|]; cbn zeta;
      repeat first [ solve [auto 2 with keep nocore]
                   | apply keeps_with_loc; intros l Hl; exact Hl
                   | apply preserves_bind; [|intros ?] ]. }
  specialize (Hsend w1 H1).
  match goal with
  | |- context [match ?m w1 with _ => _ end] =>
      destruct (m w1) as [[[e2|[]] w2] t2] eqn:Hsent
  end; cbn in Hsend.
  { eexists _, _, _. split; [reflexivity|]. left. apply Hsend. }
  (* the receive *)
  unfold bind at 1.
  pose proof (keeps_receive P Q (arrivals env) w2 Hsend) as H3.
  destruct (_receive (arrivals env) w2) as [[[e3|reply] w3] t3] eqn:Hrecv;
    cbn in H3.
  { eexists _, _, _. split; [reflexivity|]. left. apply H3. }
  destruct reply as [reply|].
  - (* a reply *)
    assert (worker_inv P any_locals w3) as H3' by (split; [apply H3|done]).
    pose proof (keeps_process_reply P self reply w3 H3') as H4.
    destruct (process_reply self reply w3) as [[r4 w4] t4].
    eexists _, _, _. split; [reflexivity|]. left. apply H4.
  - (* no reply *)
    destruct H3 as [Hst3 [Ht3 Hb3]].
    unfold process_timeout. munfold. cbn.
    destruct (timeouts (loc w3) + 1 =? maxTimeouts self - 1)%Z eqn:Heq; cbn.
    { eexists _, _, _. split; [reflexivity|]. by left. }
    destruct (timeouts (loc w3) + 1 <? maxTimeouts self)%Z eqn:Hlt; cbn.
    { eexists _, _, _. split; [reflexivity|]. by left. }
    destruct (tryBuffer (loc w3)) eqn:Hb; cbn.
    { eexists _, _, _. split; [reflexivity|]. by left. }
    unfold _sendToListener, setSlaveStatus_w, setSlaveStatus. munfold. cbn.
    apply Z.ltb_ge in Hlt. rewrite Ht3 in Hlt.
    destruct (bool_decide (ip (slave w3) <> None)); cbn;
      destruct (lock_ok env); cbn; eexists _, _, _;
      (split; [reflexivity|]);
      first [ left; exact Hst3
            | right; split; [reflexivity|]; right;
              split; [exact Hlt|by symmetry] ].
Qed.

(** ** The worker thread: missed replies once the probe is used *)


(** ** From the control vector to the wire *)


(** ** The worker thread: an acknowledged handshake *)


(** ** The registry and the MAC index *)

Lemma same_id_refl sl : same_id sl sl.
Proof. by repeat split. Qed.

Lemma same_id_trans sl1 sl2 sl3 :
  same_id sl1 sl2 -> same_id sl2 sl3 -> same_id sl1 sl3.
Proof.
  intros (H1 & H2 & H3 & H4) (G1 & G2 & G3 & G4).
  repeat split; congruence.
Qed.

Lemma same_id_worker_stable sl0 : WorkerStable (same_id sl0).
Proof. by split. Qed.

Lemma same_id_status_stable sl0 : StatusStable (same_id sl0).
Proof. by split. Qed.

Lemma setStatus_same_id newStatus netargs sl :
  same_id sl (setStatus newStatus netargs sl).
Proof.
  unfold setStatus. destruct netargs as [[[[? ?] ?] ?]|];
    by destruct (decide _).
Qed.

Lemma setSlaveStatus_same_id sl newStatus netargs lock_ok_ :
  same_id sl (setSlaveStatus sl newStatus netargs lock_ok_).1.
Proof.
  unfold setSlaveStatus. destruct lock_ok_; [|apply same_id_refl].
  apply setStatus_same_id.
Qed.

Lemma setMOSI_same_id cmd sl : same_id sl (setMOSI cmd sl).
Proof. unfold setMOSI. by destruct (decide _). Qed.

Lemma index_agrees_insert l m i sl sl' :
  index_agrees l m -> l !! i = Some sl -> same_id sl sl' ->
  index_agrees (<[i := sl']> l) m.
Proof.
  intros (H1 & H2 & H3) Hsl (Hidx & Hmac & _ & _).
  pose proof (lookup_lt_Some _ _ _ Hsl) as Hlt.
  split; [|split].
  - intros j x Hj. destruct (decide (j = i)) as [->|Hne].
    + rewrite list_lookup_insert_eq in Hj by done. simplify_eq.
      rewrite Hidx. by apply H1.
    + rewrite list_lookup_insert_ne in Hj by done. by apply H1.
  - intros mac_ j Hj. destruct (H2 _ _ Hj) as (x & Hx & Hm).
    destruct (decide (j = i)) as [->|Hne].
    + exists sl'. rewrite list_lookup_insert_eq by done.
      split; [done|]. simplify_eq. exact Hmac.
    + exists x. by rewrite list_lookup_insert_ne.
  - intros j x Hj. destruct (decide (j = i)) as [->|Hne].
    + rewrite list_lookup_insert_eq in Hj by done. simplify_eq.
      rewrite Hmac. by eapply H3.
    + rewrite list_lookup_insert_ne in Hj by done. by eapply H3.
Qed.

Lemma index_agrees_snoc l m new :
  index_agrees l m -> index new = length l ->
  index_agrees (l ++ [new]) (<[mac new := length l]> m).
Proof.
  intros (H1 & H2 & H3) Hidx. split; [|split].
  - intros j x Hj. apply lookup_app_Some in Hj as [Hj|[Hge Hj]].
    + by apply H1.
    + apply list_lookup_singleton_Some in Hj as [Hj ->]. lia.
  - intros mac_ j Hj. destruct (decide (mac_ = mac new)) as [->|Hne].
    + rewrite lookup_insert_eq in Hj. simplify_eq. exists new.
      split; [|done]. rewrite lookup_app_r by lia.
      by rewrite Nat.sub_diag.
    + rewrite lookup_insert_ne in Hj by done.
      destruct (H2 _ _ Hj) as (x & Hx & Hm). exists x.
      split; [by apply lookup_app_l_Some|done].
  - intros j x Hj. apply lookup_app_Some in Hj as [Hj|[Hge Hj]].
    + destruct (decide (mac x = mac new)) as [->|Hne].
      * rewrite lookup_insert_eq. by eexists.
      * rewrite lookup_insert_ne by done. by eapply H3.
    + apply list_lookup_singleton_Some in Hj as [Hj ->].
      rewrite lookup_insert_eq. by eexists.
Qed.

Lemma registry_extends_refl l : registry_extends l l.
Proof. intros i sl Hsl. exists sl. split; [done|apply same_id_refl]. Qed.

Lemma registry_extends_insert l0 l i sl sl' :
  registry_extends l0 l -> l !! i = Some sl -> same_id sl sl' ->
  registry_extends l0 (<[i := sl']> l).
Proof.
  intros Hext Hsl Hid j x Hj. destruct (Hext _ _ Hj) as (y & Hy & Hxy).
  pose proof (lookup_lt_Some _ _ _ Hsl) as Hlt.
  destruct (decide (j = i)) as [->|Hne].
  - exists sl'. rewrite list_lookup_insert_eq by done. split; [done|].
    simplify_eq. by eapply same_id_trans.
  - exists y. by rewrite list_lookup_insert_ne.
Qed.

Lemma registry_extends_snoc l0 l new :
  registry_extends l0 l -> registry_extends l0 (l ++ [new]).
Proof.
  intros Hext j x Hj. destruct (Hext _ _ Hj) as (y & Hy & Hxy).
  exists y. split; [by apply lookup_app_l_Some|done].
Qed.

Lemma macs_insert l i (sl sl' : FCSlave) :
  l !! i = Some sl -> mac sl' = mac sl ->
  map mac (<[i := sl']> l) = map mac l.
Proof.
  intros Hsl Hmac. rewrite list_fmap_insert, Hmac.
  apply list_insert_id. by rewrite list_lookup_fmap, Hsl.
Qed.

Lemma registry_inv_insert u l0 self i sl sl' :
  registry_inv u l0 self -> slaves self !! i = Some sl -> same_id sl sl' ->
  registry_inv u l0 (with_slaves (<[i := sl']> (slaves self)) self).
Proof.
  intros (Hc & He & Hu) Hsl Hid. split; [|split].
  - by eapply index_agrees_insert.
  - by eapply registry_extends_insert.
  - intros Hut. cbn. rewrite (macs_insert _ _ _ _ Hsl); [by apply Hu|].
    by destruct Hid as (_ & ? & _).
Qed.

Lemma registry_inv_append u l0 self new :
  registry_inv u l0 self ->
  macToIndexMap self !! mac new = None ->
  index new = length (slaves self) ->
  registry_inv u l0
    (with_macToIndexMap (<[mac new := length (slaves self)]> (macToIndexMap self))
       (with_slaves (slaves self ++ [new]) self)).
Proof.
  intros (Hc & He & Hu) Hnone Hidx. split; [|split].
  - by apply index_agrees_snoc.
  - by apply registry_extends_snoc.
  - intros Hut. cbn. rewrite map_app. apply NoDup_app. split; [by apply Hu|].
    split; [|apply NoDup_singleton].
    intros m Hm Hnew. apply list_elem_of_singleton in Hnew as ->.
    apply list_elem_of_fmap in Hm as (x & Hx & Hin).
    apply list_elem_of_lookup in Hin as [j Hj].
    destruct Hc as (_ & _ & H3). destruct (H3 _ _ Hj) as [k Hk].
    rewrite <- Hx in Hk. by rewrite Hnone in Hk.
Qed.

Lemma keeps_registry_setSlaveStatus_at u l0 i newStatus netargs lock_ok_ :
  preserves (registry_inv u l0)
    (setSlaveStatus_at i newStatus netargs lock_ok_).
Proof.
  unfold setSlaveStatus_at. apply preserves_bind_get. intros self Hinv.
  unfold bind, or_raise.
  destruct (slaves self !! i) as [sl|] eqn:Hsl; [|exact Hinv]. cbn.
  pose proof (setSlaveStatus_same_id sl newStatus netargs lock_ok_) as Hid.
  destruct (setSlaveStatus sl newStatus netargs lock_ok_) as [sl' evs].
  cbn in *. by eapply registry_inv_insert.
Qed.

Lemma keeps_registry_sendSlaves u l0 :
  preserves (registry_inv u l0) _sendSlaves.
Proof. unfold _sendSlaves. keep. Qed.

#[local] Hint Resolve keeps_registry_setSlaveStatus_at
  keeps_registry_sendSlaves : keep.

Lemma keeps_registry_listener_A u l0 messageSplitted senderAddress env :
  preserves (registry_inv u l0)
    (listener_A messageSplitted senderAddress env).
Proof.
  unfold listener_A.
  apply preserves_bind; [keep|intros mac_].
  apply preserves_bind; [keep|intros kind].
  destruct (decide (kind = "N")); [|keep].
  apply preserves_bind; [keep|intros s4].
  apply preserves_bind; [keep|intros misoPort].
  apply preserves_bind; [keep|intros s5].
  apply preserves_bind; [keep|intros mosiPort].
  apply preserves_bind; [keep|intros version_].
  apply preserves_bind; [keep|intros _].
  apply preserves_bind; [keep|intros _].
  apply preserves_bind; [keep|intros _].
  apply preserves_bind_get. intros self Hinv.
  destruct (_getSlaveIndexByMAC self mac_) as [index_|] eqn:Hmap.
  - apply preserved_at; [keep|exact Hinv].
  - munfold. mred.
    rewrite lookup_app_r by lia. rewrite Nat.sub_diag. mred.
    set (new := new_FCSlave (chosen_name env) mac_ (defaultSlave_maxFans self)
                  (maxFans self) SS_AVAILABLE (Some version_)
                  (misoQueueSize self) (Some senderAddress.1) (Some misoPort)
                  (Some mosiPort) (length (slaves self))).
    exact (registry_inv_append u l0 self new Hinv Hmap eq_refl).
Qed.

Lemma keeps_registry_listener_B u l0 messageSplitted senderAddress env :
  preserves (registry_inv u l0)
    (listener_B messageSplitted senderAddress env).
Proof.
  unfold listener_B.
  apply preserves_bind; [keep|intros kind].
  destruct (decide (kind = "N")); [|keep].
  apply preserves_bind_get. intros self Hinv.
  unfold bind at 1.
  assert (exists r t,
            (if negb (flashFlag self)
             then emit (EvSendto listenerSocket
                          (DToListener "L" (passcode self))
                          (Some senderAddress.1, Some senderAddress.2))
             else
               let* fm := or_raise (flashMessage self) TypeError in
               emit (EvSendto listenerSocket (DRaw fm)
                       (Some senderAddress.1, Some senderAddress.2))) self
            = (r, self, t)) as (r & t & ->).
  { destruct (negb (flashFlag self)); [by eexists _, _|].
    destruct (flashMessage self); by eexists _, _. }
  destruct r as [e0|[]]; [exact Hinv|].
  unfold bind at 1, getitem, or_raise.
  destruct (messageSplitted !! 2%nat) as [mac_|]; [|exact Hinv]. cbn [ret].
  destruct (_getSlaveIndexByMAC self mac_) as [index_|].
  2:{ cbn. exact Hinv. }
  unfold bind at 1.
  destruct (slaves self !! index_) as [sl|] eqn:Hsl; [|exact Hinv]. cbn [ret].
  unfold bind at 1, modify.
  pose proof (keeps_registry_setSlaveStatus_at u l0 index_ SS_UPDATING None
                (listener_lock_ok env)
                (with_slaves (<[index_:=setVersion
                                  (default "Bootloader(?)"
                                     (messageSplitted !! 4%nat)) sl]>
                                (slaves self)) self)) as Hp.
  destruct (setSlaveStatus_at _ _ _ _ _) as [[r2 s2] t2]. cbn in *.
  apply Hp. eapply registry_inv_insert; [exact Hinv|exact Hsl|].
  by repeat split.
Qed.

#[local] Hint Resolve keeps_registry_listener_A keeps_registry_listener_B
  : keep.

Lemma keeps_registry_listenerRoutine u l0 messageReceived senderAddress env :
  preserves (registry_inv u l0)
    (_listenerRoutine messageReceived senderAddress env).
Proof. unfold _listenerRoutine, listener_try. keep. Qed.

Lemma keeps_registry_add u l0 targetIndex lock_ok_ :
  preserves (registry_inv u l0) (add targetIndex lock_ok_).
Proof. unfold add. keep. Qed.

Lemma keeps_registry_dc_vector_loop u l0 C n : forall k i,
  preserves (registry_inv u l0) (dc_vector_loop C n k i).
Proof.
  induction n as [|n IH]; intros k i; cbn [dc_vector_loop]; [keep|].
  apply preserves_bind_get. intros self Hinv.
  destruct (_ && _); [|exact Hinv].
  rewrite bind_state. unfold getitem, or_raise.
  destruct (slaves self !! k) as [sl|] eqn:Hsl; [|exact Hinv]. cbn [ret].
  apply preserved_bind_at.
  2:{ intros _. keep. }
  destruct (decide (getStatus sl = SS_CONNECTED)); [|exact Hinv].
  rewrite bind_state. unfold format_template.
  destruct (decide _); [|exact Hinv]. cbn.
  eapply registry_inv_insert; [exact Hinv|exact Hsl|].
  apply setMOSI_same_id.
Qed.

Lemma keeps_registry_handle_DC_VECTOR u l0 C :
  preserves (registry_inv u l0) (__handle_input_CTL_DC_VECTOR C).
Proof.
  unfold __handle_input_CTL_DC_VECTOR. keep.
  apply keeps_registry_dc_vector_loop.
Qed.

(** A worker never changes which device its slave record stands for. *)

Lemma keeps_id_makeHSK sl0 self :
  preserves (worker_inv (same_id sl0) any_locals) (_makeHSK self).
Proof. unfold _makeHSK. keep. Qed.

#[local] Hint Resolve keeps_id_makeHSK : keep.

Lemma keeps_id_with_slave sl0 (f : FCSlave -> FCSlave) :
  (forall sl, same_id sl (f sl)) ->
  preserves (worker_inv (same_id sl0) any_locals) (modify (with_slave f)).
Proof.
  intros Hf. apply keeps_with_slave. intros sl Hsl.
  by eapply same_id_trans.
Qed.

Lemma keeps_id_send sl0 message_ repeat hsk :
  preserves (worker_inv (same_id sl0) any_locals) (_send message_ repeat hsk).
Proof. apply keeps_send. apply same_id_worker_stable. Qed.

Lemma keeps_id_receive sl0 arrivals_ :
  preserves (worker_inv (same_id sl0) any_locals) (_receive arrivals_).
Proof. apply keeps_receive. apply same_id_worker_stable. Qed.

Lemma keeps_id_getMOSI_w sl0 :
  preserves (worker_inv (same_id sl0) any_locals) getMOSI_w.
Proof. apply keeps_getMOSI_w. apply same_id_worker_stable. Qed.

Lemma keeps_id_setSlaveStatus_w sl0 newStatus lock_ok_ :
  preserves (worker_inv (same_id sl0) any_locals)
    (setSlaveStatus_w newStatus lock_ok_).
Proof.
  apply keeps_setSlaveStatus_w;
    [apply same_id_worker_stable|apply same_id_status_stable].
Qed.

Lemma keeps_id_process_reply sl0 self reply :
  preserves (worker_inv (same_id sl0) any_locals) (process_reply self reply).
Proof. apply keeps_process_reply. apply same_id_worker_stable. Qed.

#[local] Hint Resolve keeps_id_send keeps_id_receive keeps_id_getMOSI_w
  keeps_id_setSlaveStatus_w keeps_id_process_reply : keep.

#[local] Hint Extern 1
  (preserves (worker_inv (same_id _) any_locals) (modify (with_slave _))) =>
  apply keeps_id_with_slave; done : keep.

Lemma keeps_id_reopen_sockets sl0 self env :
  preserves (worker_inv (same_id sl0) any_locals) (reopen_sockets self env).
Proof. unfold reopen_sockets. keep. Qed.

#[local] Hint Resolve keeps_id_reopen_sockets : keep.

Lemma keeps_id_handshake_loop sl0 self envs : forall tries,
  preserves (worker_inv (same_id sl0) any_locals)
    (handshake_loop self tries envs).
Proof.
  induction envs as [|env envs IH]; intros tries; cbn [handshake_loop].
  - apply preserves_ret.
  - keep; apply IH.
Qed.

#[local] Hint Resolve keeps_id_handshake_loop : keep.

Lemma keeps_id_slaveRoutine_setup sl0 self env :
  preserves (worker_inv (same_id sl0) any_locals)
    (_slaveRoutine_setup self env).
Proof. unfold _slaveRoutine_setup. keep. Qed.

Lemma keeps_id_slaveRoutine sl0 self env more :
  preserves (worker_inv (same_id sl0) any_locals)
    (_slaveRoutine self env more).
Proof.
  unfold _slaveRoutine, handshake, connected_cycle, process_timeout. keep.
Qed.

(** Every move of a thread keeps the registry and the MAC index in
    agreement. *)
Lemma comm_step_registry_inv u l0 self self' :
  comm_step self self' -> registry_inv u l0 self -> registry_inv u l0 self'.
Proof.
  intros Hstep Hinv. destruct Hstep as
    [self msg addr env r self' t Hrun
    |self i sl l q env r w' t Hsl Hrun
    |self i sl l q env more r w' t Hsl Hrun
    |self targetIndex lk r self' t Hrun
    |self C r self' t Hrun
    |self flag target msg].
  - pose proof (keeps_registry_listenerRoutine u l0 msg addr env self Hinv)
      as Hp.
    by rewrite Hrun in Hp.
  - eapply registry_inv_insert; [exact Hinv|exact Hsl|].
    pose proof (keeps_id_slaveRoutine_setup sl self env (mkW sl l q)) as Hp.
    rewrite Hrun in Hp. apply Hp. split; [apply same_id_refl|done].
  - eapply registry_inv_insert; [exact Hinv|exact Hsl|].
    pose proof (keeps_id_slaveRoutine sl self env more (mkW sl l q)) as Hp.
    rewrite Hrun in Hp. apply Hp. split; [apply same_id_refl|done].
  - pose proof (keeps_registry_add u l0 targetIndex lk self Hinv) as Hp.
    by rewrite Hrun in Hp.
  - pose proof (keeps_registry_handle_DC_VECTOR u l0 C self Hinv) as Hp.
    by rewrite Hrun in Hp.
  - exact Hinv.
Qed.

Lemma init_index_agrees maxFans_ misoQueueSize_ saved :
  index_agrees (init_slaves maxFans_ misoQueueSize_ saved)
    (init_macToIndexMap saved).
Proof.
  induction saved as [|[[name_ mac_] fans_] saved IH] using rev_ind.
  - split; [|split]; intros ? ? Hl; cbn in Hl; done.
  - unfold init_slaves, init_macToIndexMap in *.
    rewrite !imap_app, fold_left_app. cbn [imap fold_left].
    rewrite Nat.add_0_r.
    set (new := new_FCSlave name_ mac_ fans_ maxFans_ SS_DISCONNECTED None
                  misoQueueSize_ None None None (length saved)).
    set (l := imap _ saved) in *.
    assert (length l = length saved) as Hlen by (subst l; apply length_imap).
    pose proof (index_agrees_snoc l _ new IH) as Hs.
    cbn [mac new_FCSlave] in Hs. rewrite Hlen in Hs. apply Hs. reflexivity.
Qed.

Lemma steps_registry_inv u l0 self0 self :
  rtc comm_step self0 self ->
  registry_inv u l0 self0 -> registry_inv u l0 self.
Proof.
  induction 1 as [|x y z Hstep _ IH]; [done|].
  intros Hinv. apply IH. by eapply comm_step_registry_inv.
Qed.

Lemma reachable_registry_inv u self0 self :
  initial self0 -> rtc comm_step self0 self ->
  (u = true -> NoDup (map mac (slaves self0))) ->
  registry_inv u (slaves self0) self.
Proof.
  intros (saved & Hsl & Hmap) Hsteps Hu.
  apply (steps_registry_inv _ _ _ _ Hsteps).
  split; [|split; [apply registry_extends_refl|exact Hu]].
  unfold registry_consistent. rewrite Hsl, Hmap.
  apply init_index_agrees.
Qed.

(** X10. In every state the communicator reaches from its construction,
    whatever the threads did: every record sits at the position its
    index names, every entry of the MAC index points at a record with
    that MAC, and every record's MAC is in the index; no record the
    registry started with has been removed, moved or given to another
    device (same index, MAC, name and fan count).  If the saved slaves
    had distinct MACs, all records still have, and looking a record's
    MAC up in the index gives that record's own position. *)
Theorem registry_and_mac_index_agree :
  forall (self0 self : FCCommunicator),
    initial self0 ->
    rtc comm_step self0 self ->
    registry_consistent self /\
    registry_extends (slaves self0) (slaves self) /\
    (NoDup (map mac (slaves self0)) ->
     NoDup (map mac (slaves self)) /\
     forall i sl, slaves self !! i = Some sl ->
                  _getSlaveIndexByMAC self (mac sl) = Some i).
Proof.
  intros self0 self Hinit Hsteps.
  destruct (reachable_registry_inv false self0 self Hinit Hsteps)
    as (Hc & He & _); [done|].
  split; [exact Hc|]. split; [exact He|].
  intros Hnd.
  destruct (reachable_registry_inv true self0 self Hinit Hsteps)
    as (_ & _ & Hu); [done|].
  specialize (Hu eq_refl). split; [exact Hu|].
  intros i sl Hsl. destruct Hc as (_ & H2 & H3).
  destruct (H3 _ _ Hsl) as [j Hj]. unfold _getSlaveIndexByMAC. rewrite Hj.
  destruct (H2 _ _ Hj) as (x & Hx & Hm). f_equal.
  eapply (NoDup_lookup (map mac (slaves self))); [exact Hu| |].
  - rewrite list_lookup_fmap, Hx. cbn. by rewrite Hm.
  - by rewrite list_lookup_fmap, Hsl.
Qed.

(** ** The input thread: the ADD command *)

Lemma add_promotes self targetIndex sl :
  slaves self !! targetIndex = Some sl ->
  add targetIndex true self
  = (inr tt, with_slaves (<[targetIndex := promote sl]> (slaves self)) self,
     promotions [sl]).
Proof.
  intros Hsl.
  destruct (decide (getStatus sl = SS_AVAILABLE)) as [Hst|Hst].
  - rewrite (add_available _ _ _ _ Hsl Hst). unfold promotions, promote.
    cbn. by rewrite !decide_True.
  - rewrite (add_not_available _ _ _ _ Hsl Hst). unfold promotions, promote.
    cbn. rewrite !decide_False by done.
    rewrite list_insert_id by done. by destruct self.
Qed.

Lemma promotions_cons sl l :
  promotions (sl :: l) = promotions [sl] ++ promotions l.
Proof.
  unfold promotions. cbn. by destruct (decide _).
Qed.

Lemma add_all_loop (lock_ok_ : nat -> bool) (l : list FCSlave) n :
  (forall k, lock_ok_ k = true) ->
  forall k c self,
    slaves self = map promote (take k l) ++ drop k l ->
    (k + n = length l)%nat ->
    for_each_from c (seq k n) (fun c index_ => add index_ (lock_ok_ c)) self
    = (inr tt, with_slaves (map promote l) self, promotions (drop k l)).
Proof.
  intros Hlock. induction n as [|n IH]; intros k c self Hsl Hlen.
  - cbn. rewrite drop_ge by lia. rewrite take_ge in Hsl by lia.
    rewrite drop_ge, app_nil_r in Hsl by lia. rewrite <- Hsl.
    by destruct self.
  - cbn [seq for_each_from].
    assert (k < length l)%nat as Hk by lia.
    destruct (lookup_lt_is_Some_2 l k Hk) as [sl Hl].
    assert (slaves self !! k = Some sl) as Hlook.
    { rewrite Hsl. rewrite lookup_app_r;
        rewrite length_map, length_take, Nat.min_l by lia; [|lia].
      rewrite Nat.sub_diag. by rewrite (drop_S _ _ _ Hl). }
    rewrite Hlock.
    rewrite (bind_run _ _ _ _ _ _ (add_promotes _ _ _ Hlook)).
    rewrite (drop_S _ _ _ Hl), (promotions_cons sl (drop (S k) l)).
    rewrite (IH (S k) (S c)
               (with_slaves (<[k:=promote sl]> (slaves self)) self)).
    + reflexivity.
    + cbn [slaves with_slaves]. rewrite Hsl.
      rewrite (drop_S _ _ _ Hl), (take_S_r _ _ _ Hl), map_app.
      rewrite <- app_assoc. cbn [map app].
      rewrite insert_app_r_alt;
        rewrite length_map, length_take, Nat.min_l by lia; [|lia].
      by rewrite Nat.sub_diag.
    + lia.
Qed.

(** X11. The ADD command for all slaves never raises and, the registry
    lock being obtained each time, makes KNOWN exactly the slaves that
    were AVAILABLE: every other record, the MAC index and the order of
    the registry are as they were, and one state vector is queued per
    slave made KNOWN, in registry order. *)
Theorem add_all_promotes_available_slaves :
  forall (self : FCCommunicator) (D : list Z) (lock_ok_ : nat -> bool),
    D !! CMD_I_TGT_CODE = Some TGT_ALL ->
    (forall k, lock_ok_ k = true) ->
    __handle_input_CMD_ADD D lock_ok_ self
    = (inr tt, with_slaves (map promote (slaves self)) self,
       promotions (slaves self)) /\
    forall i sl,
      slaves self !! i = Some sl ->
      (getStatus sl = SS_AVAILABLE ->
       exists sl', map promote (slaves self) !! i = Some sl' /\
                   getStatus sl' = SS_KNOWN /\ same_id sl sl') /\
      (getStatus sl <> SS_AVAILABLE ->
       map promote (slaves self) !! i = Some sl).
Proof.
  intros self D lock_ok_ HD Hlock. split.
  - unfold __handle_input_CMD_ADD. unfold getitem. rewrite HD.
    munfold. mred.
    rewrite (add_all_loop lock_ok_ (slaves self) _ Hlock 0 0 self);
      [by rewrite drop_0|by rewrite take_0, drop_0|lia].
  - intros i sl Hsl. rewrite list_lookup_fmap, Hsl. cbn. unfold promote.
    split; intros Hst.
    + rewrite decide_True by done. eexists. split; [reflexivity|].
      split; [reflexivity|apply setStatus_same_id].
    + by rewrite decide_False.
Qed.

Lemma py_position_lt len i n :
  py_position len i = Some n -> (n < len)%nat.
Proof.
  unfold py_position. destruct (0 <=? i)%Z eqn:H0.
  - destruct (i <? Z.of_nat len)%Z eqn:H1; [|done].
    intros Heq. simplify_eq. apply Z.leb_le in H0. apply Z.ltb_lt in H1. lia.
  - destruct (- Z.of_nat len <=? i)%Z eqn:H1; [|done].
    intros Heq. simplify_eq. apply Z.leb_gt in H0. apply Z.leb_le in H1. lia.
Qed.

Lemma promote_idemp sl : promote (promote sl) = promote sl.
Proof.
  unfold promote. destruct (decide (getStatus sl = SS_AVAILABLE)); [|by rewrite decide_False].
  by rewrite decide_False.
Qed.

Lemma add_at_promotes self i n sl :
  py_position (length (slaves self)) i = Some n ->
  slaves self !! n = Some sl ->
  add_at i true self
  = (inr tt, with_slaves (<[n := promote sl]> (slaves self)) self,
     promotions [sl]).
Proof.
  intros Hpos Hsl. unfold add_at.
  rewrite (bind_run _ _ self self self [] eq_refl). rewrite Hpos.
  unfold or_raise. rewrite (bind_run _ _ self n self [] eq_refl).
  by rewrite (add_promotes _ _ _ Hsl).
Qed.

Lemma add_selected_loop (lock_ok_ : nat -> bool) good :
  (forall k, lock_ok_ k = true) ->
  forall c self,
    Forall (fun i => is_Some (py_position (length (slaves self)) i)) good ->
    exists l' t,
      for_each_from c good (fun c index_ => add_at index_ (lock_ok_ c)) self
      = (inr tt, with_slaves l' self, t) /\
      length l' = length (slaves self) /\
      forall p sl,
        slaves self !! p = Some sl ->
        l' !! p
        = Some (if decide
                     (p ∈ omap (py_position (length (slaves self))) good)
                then promote sl else sl).
Proof.
  intros Hlock. induction good as [|i good IH]; intros c self Hgood.
  - exists (slaves self), []. cbn. split; [by destruct self|].
    split; [done|]. intros p sl Hsl. rewrite decide_False; [done|].
    apply not_elem_of_nil.
  - apply Forall_cons in Hgood as [[n Hn] Hgood].
    pose proof (py_position_lt _ _ _ Hn) as Hlt.
    destruct (lookup_lt_is_Some_2 (slaves self) n Hlt) as [sln Hsln].
    set (self1 := with_slaves (<[n := promote sln]> (slaves self)) self).
    assert (length (slaves self1) = length (slaves self)) as Hlen1
      by (cbn; apply length_insert).
    destruct (IH (S c) self1) as (l' & t & Hrun & Hlen & Hl').
    { by rewrite Hlen1. }
    exists l', (promotions [sln] ++ t). cbn [for_each_from].
    rewrite Hlock.
    rewrite (bind_run _ _ _ _ _ _ (add_at_promotes _ _ _ _ Hn Hsln)).
    fold self1. rewrite Hrun. split; [reflexivity|].
    split; [by rewrite Hlen, Hlen1|].
    intros p sl Hsl. rewrite Hlen1 in Hl'.
    change (omap (py_position (length (slaves self))) (i :: good))
      with (match py_position (length (slaves self)) i with
            | Some y => y :: omap (py_position (length (slaves self))) good
            | None => omap (py_position (length (slaves self))) good
            end).
    rewrite Hn.
    destruct (decide (p = n)) as [->|Hne].
    + assert (sl = sln) as -> by congruence.
      rewrite (Hl' n (promote sln)) by (cbn; by rewrite list_lookup_insert_eq).
      rewrite (decide_True (P := n ∈ n :: _)) by apply list_elem_of_here.
      destruct (decide _); by rewrite ?promote_idemp.
    + rewrite (Hl' p sl) by (cbn; by rewrite list_lookup_insert_ne).
      f_equal. destruct (decide (p ∈ omap _ good)) as [Hin|Hin].
      * rewrite decide_True; [done|]. by apply list_elem_of_further.
      * rewrite decide_False; [done|].
        intros Hin'. apply elem_of_cons in Hin' as [?|?]; done.
Qed.

Lemma for_each_from_app {E St A} (l1 l2 : list A)
    (body : nat -> A -> M E St unit) : forall c s,
  for_each_from c (l1 ++ l2) body s
  = (for_each_from c l1 body ;;
     for_each_from (c + length l1) l2 body) s.
Proof.
  induction l1 as [|x l1 IH]; intros c s; cbn [app for_each_from length].
  - rewrite Nat.add_0_r. unfold bind, ret.
    by destruct (for_each_from c l2 body s) as [[r s'] t].
  - replace (c + S (length l1))%nat with (S c + length l1)%nat by lia.
    specialize (IH (S c)). unfold bind in *.
    destruct (body c x s) as [[[e|[]] s1] t1]; [done|].
    rewrite IH.
    destruct (for_each_from (S c) l1 body s1) as [[[e|[]] s2] t2]; [done|].
    destruct (for_each_from _ l2 body s2) as [[r s3] t3].
    by rewrite app_assoc.
Qed.

(** X12. The ADD command for selected slaves reads each argument as a
    Python index into the registry, so negative ones count from the end.
    The registry lock being obtained each time: if every index is inside
    the registry the command ends normally; at the first index that is
    not, it raises [IndexError], and the indices after that one are not
    looked at.  Either way what was done stays done: exactly the
    AVAILABLE slaves named before that point have been made KNOWN, and
    every other record and the size of the registry are as they were. *)
Theorem add_selected_stops_at_bad_index :
  forall (self : FCCommunicator) (D : list Z) (lock_ok_ : nat -> bool)
         (good : list Z),
    D !! CMD_I_TGT_CODE = Some TGT_SELECTED ->
    TGT_SELECTED <> TGT_ALL ->
    (forall k, lock_ok_ k = true) ->
    Forall (fun i => is_Some (py_position (length (slaves self)) i)) good ->
    let named := omap (py_position (length (slaves self))) good in
    let outcome (r : exn + unit) :=
      exists l' t,
        __handle_input_CMD_ADD D lock_ok_ self = (r, with_slaves l' self, t) /\
        length l' = length (slaves self) /\
        forall p sl,
          slaves self !! p = Some sl ->
          l' !! p = Some (if decide (p ∈ named) then promote sl else sl) in
    (drop CMD_I_TGT_OFFSET D = good -> outcome (inr tt)) /\
    (forall bad rest,
       drop CMD_I_TGT_OFFSET D = good ++ bad :: rest ->
       py_position (length (slaves self)) bad = None ->
       outcome (inl IndexError)).
Proof.
  intros self D lock_ok_ good HD Hne Hlock Hgood named outcome.
  destruct (add_selected_loop lock_ok_ good Hlock 0 self Hgood)
    as (l' & t & Hrun & Hlen & Hl').
  assert (forall args,
            drop CMD_I_TGT_OFFSET D = args ->
            __handle_input_CMD_ADD D lock_ok_ self
            = for_each_from 0 args
                (fun c index_ => add_at index_ (lock_ok_ c)) self) as Hadd.
  { intros args <-. unfold __handle_input_CMD_ADD, getitem. rewrite HD.
    munfold. mred.
    by destruct (for_each_from 0 (drop CMD_I_TGT_OFFSET D) _ self)
      as [[r0 s0] t0]. }
  split.
  - intros Hargs. exists l', t. by rewrite (Hadd _ Hargs).
  - intros bad rest Hargs Hbad. exists l', t.
    rewrite (Hadd _ Hargs), for_each_from_app.
    rewrite (bind_run _ _ _ _ _ _ Hrun). cbn [for_each_from].
    set (s1 := with_slaves l' self).
    assert (forall b, add_at bad b s1 = (inl IndexError, s1, [])) as Hraise.
    { intros b. unfold add_at.
      rewrite (bind_run _ _ s1 s1 s1 [] eq_refl).
      assert (length (slaves s1) = length (slaves self)) as -> by exact Hlen.
      by rewrite Hbad. }
    rewrite (bind_raise _ _ _ _ _ _ (Hraise _)).
    rewrite app_nil_r. by repeat split.
Qed.

(** ** The input thread: the CHASE command *)

(** X13. The CHASE command never targets a slave.  Whatever target code
    and indices the command vector holds, when it has a target RPM the
    handler sends one datagram, from the disconnect socket to the
    broadcast address, of the form ["C|<passcode>|<fanID>|<targetRPM>"],
    and prints twice; the communicator is unchanged and the per-slave
    form ["c|...|<MAC>"] is never sent.  The list of selected indices is
    not used as a list of targets: it is what goes into the [fanID]
    field, which reads [None] when there is no such list.  A vector too
    short to hold a target RPM only prints an error. *)
Theorem chase_command_always_broadcasts :
  forall (getSlaveByIndex : FCCommunicator -> Z -> exn + option FCSlave)
         (self : FCCommunicator) (D : list Z),
    let fanID :=
      if bool_decide (D !! CMD_I_TGT_CODE = Some TGT_SELECTED)
         && negb (bool_decide (TGT_SELECTED = TGT_ALL))
         && (CMD_I_TGT_OFFSET + 1 <? length D)%nat
      then ChaseList (drop (CMD_I_TGT_OFFSET + 1) D)
      else ChaseNone in
    __handle_input_CMD_CHASE getSlaveByIndex D self
    = match D !! CMD_I_TGT_OFFSET with
      | Some targetRPM =>
          (inr tt, self,
           [EvSendto disconnectSocket
              (DRaw ("C|" +:+ passcode self +:+ "|" +:+
                     str_chase_arg fanID +:+ "|" +:+ pretty targetRPM))
              (Some (defaultBroadcastIP self), Some (broadcastPort self));
            EvPrint PW; EvPrint PS])
      | None => (inr tt, self, [EvPrint PE])
      end.
Proof.
  intros getSlaveByIndex self D fanID.
  unfold __handle_input_CMD_CHASE, sendChase, getitem. subst fanID.
  destruct (CMD_I_TGT_OFFSET + 1 <? length D)%nat eqn:Hargs.
  all: destruct (D !! CMD_I_TGT_OFFSET) as [targetRPM|] eqn:Hrpm.
  all: try (munfold; cbn; reflexivity).
  all: destruct (CMD_I_TGT_CODE <? length D)%nat eqn:Hlen.
  all: try (apply Nat.ltb_ge in Hlen;
            assert (D !! CMD_I_TGT_CODE = None) as Hnone
              by (by apply lookup_ge_None_2);
            rewrite Hnone; munfold; mred; reflexivity).
  all: apply Nat.ltb_lt in Hlen.
  all: destruct (lookup_lt_is_Some_2 D _ Hlen) as [code Hcode].
  all: rewrite Hcode.
  all: destruct (decide (code = TGT_ALL)) as [->|Hall];
    [|destruct (decide (code = TGT_SELECTED)) as [->|Hsel]];
    munfold; mred;
    repeat first
      [ reflexivity
      | rewrite bool_decide_eq_true_2 by congruence
      | rewrite bool_decide_eq_false_2 by congruence
      | rewrite andb_false_r
      | progress cbn [negb andb]
      | match goal with
        | |- context [(?a <? ?b)%nat] => destruct (a <? b)%nat
        | |- context [bool_decide (?a = ?b)] =>
            destruct (decide (a = b))
        end ].
Qed.

(** ** The input thread: the broadcast address *)

Lemma octets_in_range_spec numbers :
  octets_in_range numbers = true
  <-> Forall (fun n => (0 <= n <= 255)%Z) numbers.
Proof.
  induction numbers as [|n numbers IH]; cbn; [by split|].
  destruct (n <? 0)%Z eqn:H0; cbn.
  { split; [done|]. intros HF. apply Forall_cons in HF as [Hn _].
    apply Z.ltb_lt in H0. lia. }
  destruct (255 <? n)%Z eqn:H1.
  { split; [done|]. intros HF. apply Forall_cons in HF as [Hn _].
    apply Z.ltb_lt in H1. lia. }
  apply Z.ltb_ge in H0, H1. rewrite IH. split.
  - intros HF. constructor; [lia|done].
  - intros HF. by apply Forall_cons in HF as [_ HF].
Qed.

(** X14. [_validBIP] never raises, and it accepts exactly the string
    ["<broadcast>"] and the strings made of four fields separated by
    dots, each of which [int] converts to a number from 0 to 255; a
    value that is not a string is refused.  The BIP command stores the
    address it is given only when [_validBIP] accepts it; otherwise the
    broadcast address stays as it was and an error is printed. *)
Theorem validBIP_accepts_dotted_quads_only :
  (forall (ip : pyval),
     _validBIP ip = true
     <-> exists s,
           ip = PyStr s /\
           (s = "<broadcast>" \/
            exists a b c d,
              mapM py_int (py_split "." s) = Some [a; b; c; d] /\
              Forall (fun n => (0 <= n <= 255)%Z) [a; b; c; d])) /\
  (forall (D : list pyval) (broadcastIP ip : pyval),
     D !! CMD_I_BIP_IP = Some ip ->
     __handle_input_CMD_BIP D broadcastIP
     = if _validBIP ip
       then (inr tt, ip, [EvPrint PS; EvNetworkPipe])
       else (inr tt, broadcastIP, [EvPrint PE])).
Proof.
  split.
  - intros [z|s]; cbn.
    { split; [done|]. by intros (s & Hs & _). }
    destruct (decide (s = "<broadcast>")) as [->|Hb].
    { split; [|done]. intros _. exists "<broadcast>". split; [done|by left]. }
    destruct (mapM py_int (py_split "." s)) as [numbers|] eqn:Hm.
    2:{ split; [done|]. intros (s' & Hs & [Hs'|(a & b & c & d & Hq & _)]);
          simplify_eq. }
    destruct (decide (length numbers <> 4%nat)) as [Hl|Hl].
    { split; [done|]. intros (s' & Hs & [Hs'|(a & b & c & d & Hq & _)]);
        simplify_eq; try (by apply Hl). }
    rewrite octets_in_range_spec. split.
    + intros HF. exists s. split; [done|]. right.
      destruct numbers as [|a [|b [|c [|d [|]]]]]; cbn in Hl; try lia.
      by exists a, b, c, d.
    + intros (s' & Hs & [Hs'|(a & b & c & d & Hq & HF)]); by simplify_eq.
  - intros D broadcastIP ip HD. unfold __handle_input_CMD_BIP, getitem.
    rewrite HD. munfold. cbn. by destruct (_validBIP ip).
Qed.

(** ** The RPM data *)

Lemma get_rpm_data_acc l : forall F_r,
  fold_left (fun F_r slave_ => F_r ++ (getMISO slave_).1) l F_r
  = F_r ++ concat (map (fun sl => (getMISO sl).1) l).
Proof.
  induction l as [|sl l IH]; intros F_r; cbn; [by rewrite app_nil_r|].
  by rewrite IH, app_assoc.
Qed.


(** ** The input thread: the DISCONNECT and REBOOT commands *)

Lemma times_named_cons p n named :
  times_named p (n :: named)
  = ((if decide (n = p) then 1 else 0) + times_named p named)%nat.
Proof.
  unfold times_named. rewrite filter_cons.
  destruct (decide (n = p)); cbn; lia.
Qed.

Lemma times_named_pos p named : p ∈ named -> (0 < times_named p named)%nat.
Proof.
  induction named as [|n named IH]; intros Hin; [by apply elem_of_nil in Hin|].
  rewrite times_named_cons. apply elem_of_cons in Hin as [->|Hin].
  - rewrite decide_True by done. lia.
  - specialize (IH Hin). lia.
Qed.

Lemma queue_disconnect_run self i n sl :
  py_position (length (slaves self)) i = Some n ->
  slaves self !! n = Some sl ->
  queue_disconnect i self
  = (inr tt,
     with_slaves (<[n := setMOSI MOSI_DISCONNECT sl]> (slaves self)) self, []).
Proof.
  intros Hpos Hsl. unfold queue_disconnect.
  rewrite (bind_run _ _ self self self [] eq_refl). rewrite Hpos.
  unfold or_raise. rewrite (bind_run _ _ self n self [] eq_refl).
  unfold getitem, or_raise. rewrite Hsl.
  by rewrite (bind_run _ _ self sl self [] eq_refl).
Qed.

Lemma disconnect_selected_loop good : forall c self,
  Forall (fun i => is_Some (py_position (length (slaves self)) i)) good ->
  exists l',
    for_each_from c good (fun _ index_ => queue_disconnect index_) self
    = (inr tt, with_slaves l' self, []) /\
    length l' = length (slaves self) /\
    forall p sl,
      slaves self !! p = Some sl ->
      l' !! p
      = Some (Nat.iter
                (times_named p
                   (omap (py_position (length (slaves self))) good))
                (setMOSI MOSI_DISCONNECT) sl).
Proof.
  induction good as [|i good IH]; intros c self Hgood.
  - exists (slaves self). cbn. split; [by destruct self|]. done.
  - apply Forall_cons in Hgood as [[n Hn] Hgood].
    pose proof (py_position_lt _ _ _ Hn) as Hlt.
    destruct (lookup_lt_is_Some_2 (slaves self) n Hlt) as [sln Hsln].
    set (self1 :=
           with_slaves (<[n := setMOSI MOSI_DISCONNECT sln]> (slaves self))
             self).
    assert (length (slaves self1) = length (slaves self)) as Hlen1
      by (cbn; apply length_insert).
    destruct (IH (S c) self1) as (l' & Hrun & Hlen & Hl').
    { by rewrite Hlen1. }
    exists l'. cbn [for_each_from].
    rewrite (bind_run _ _ _ _ _ _ (queue_disconnect_run _ _ _ _ Hn Hsln)).
    fold self1. rewrite Hrun. split; [reflexivity|].
    split; [by rewrite Hlen, Hlen1|].
    intros p sl Hsl. rewrite Hlen1 in Hl'.
    change (omap (py_position (length (slaves self))) (i :: good))
      with (match py_position (length (slaves self)) i with
            | Some y => y :: omap (py_position (length (slaves self))) good
            | None => omap (py_position (length (slaves self))) good
            end).
    rewrite Hn, times_named_cons.
    destruct (decide (n = p)) as [->|Hne].
    + assert (sl = sln) as -> by congruence.
      rewrite (Hl' p (setMOSI MOSI_DISCONNECT sln))
        by (cbn; by rewrite list_lookup_insert_eq).
      f_equal. cbn [Nat.add]. by rewrite Nat.iter_succ_r.
    + rewrite (Hl' p sl) by (cbn; by rewrite list_lookup_insert_ne).
      done.
Qed.

(** What the worker reads of a slave is left alone by [setMOSI], and a
    mailbox that held nothing else holds disconnect commands only. *)
Lemma queued_disconnects n sl :
  (0 < n)%nat ->
  mosi sl = [] ->
  let sl' := Nat.iter n (setMOSI MOSI_DISCONNECT) sl in
  getStatus sl' = getStatus sl /\
  getVersion sl' = getVersion sl /\
  exists q, mosi sl' = MOSI_DISCONNECT :: q.
Proof.
  intros Hn Hmosi sl'. subst sl'.
  assert (forall k,
            getStatus (Nat.iter k (setMOSI MOSI_DISCONNECT) sl) = getStatus sl /\
            getVersion (Nat.iter k (setMOSI MOSI_DISCONNECT) sl)
            = getVersion sl /\
            Forall (fun c => c = MOSI_DISCONNECT)
              (mosi (Nat.iter k (setMOSI MOSI_DISCONNECT) sl)) /\
            ((0 < k)%nat ->
             mosi (Nat.iter k (setMOSI MOSI_DISCONNECT) sl) <> [])) as H.
  { induction k as [|k (IH1 & IH2 & IH3 & IH4)].
    - cbn. rewrite Hmosi. repeat split; [constructor|lia].
    - cbn [Nat.iter nat_rect].
      set (s := Nat.iter k (setMOSI MOSI_DISCONNECT) sl) in *.
      change (nat_rect _ _ _ k) with s.
      unfold setMOSI. destruct (decide _); cbn; repeat split; try done.
      + apply Forall_app. split; [|by repeat constructor].
        destruct (mosi s) as [|x qs]; [constructor|].
        by apply Forall_cons in IH3 as [_ ?].
      + intros _. by destruct (tail (mosi s)).
      + apply Forall_app. split; [done|by repeat constructor].
      + intros _. by destruct (mosi s). }
  destruct (H n) as (H1 & H2 & H3 & H4).
  split; [done|]. split; [done|].
  destruct (mosi (Nat.iter n (setMOSI MOSI_DISCONNECT) sl)) as [|x q] eqn:Hq;
    [by destruct (H4 Hn)|].
  apply Forall_cons in H3 as [-> _]. by exists q.
Qed.

(** A turn of the worker of a CONNECTED slave whose mailbox starts with
    a disconnect command. *)
Lemma worker_sends_disconnect_directive self env more sl l inb q :
  getStatus sl = SS_CONNECTED ->
  ~ flash_pending self sl ->
  mosi sl = MOSI_DISCONNECT :: q ->
  exists d w' t,
    _slaveRoutine self env more (mkW sl l inb) = (inr tt, w', d :: d :: t) /\
    is_disconnect_directive d = true.
Proof.
  intros Hst Hflash Hmosi.
  assert (exists d r w' t,
            connected_cycle self env (mkW sl l inb) = (r, w', d :: d :: t) /\
            is_disconnect_directive d = true) as (d & r & w' & t & Hc & Hd).
  { unfold connected_cycle.
    set (w0 := mkW sl l inb).
    rewrite (bind_run _ _ w0 w0 w0 [] eq_refl). subst w0.
    assert (flashFlag self
            && bool_decide (getVersion (slave (mkW sl l inb))
                            <> targetVersion self) = false) as ->
      by (by apply flash_check_false).
    assert (getMOSI_w (mkW sl l inb)
            = (inr (Some MOSI_DISCONNECT), mkW (with_mosi q sl) l inb, []))
      as Hget.
    { unfold getMOSI_w, getMOSI. cbn [slave loc inbox]. by rewrite Hmosi. }
    rewrite (bind_run _ _ _ _ _ _ Hget). cbn iota.
    set (w1 := mkW (with_mosi q sl) l inb).
    assert (exists d,
              _sendToListener self "X" 2 true w1 = (inr tt, w1, [d; d]) /\
              is_disconnect_directive d = true) as (d & Hsend & Hd).
    { unfold _sendToListener.
      rewrite (bind_run _ _ w1 w1 w1 [] eq_refl).
      destruct (true && bool_decide (ip (slave w1) <> None));
        eexists; (split; [reflexivity|done]). }
    rewrite (bind_run _ _ _ _ _ _ Hsend). cbn [app].
    destruct (bind (_receive (arrivals env)) _ _) as [[r2 w2] t2].
    by eexists _, _, _, _. }
  unfold _slaveRoutine, try_except.
  set (w0 := mkW sl l inb) in *.
  rewrite (bind_run _ _ w0 w0 w0 [] eq_refl). subst w0. cbn [slave].
  rewrite Hst, Hc. exists d.
  destruct r as [e|[]]; cbn; by eexists _, _.
Qed.

(** X16. The DISCONNECT command.  For all slaves it broadcasts one
    ['X|passcode'] and changes nothing.  For selected slaves it sends
    nothing and changes no status: it puts one disconnect command in
    the mailbox of a slave each time the slave is named (Python indices,
    negative ones from the end), and at the first index outside the
    registry it raises [IndexError] with what was queued before kept.
    The directive is sent by the worker: the next turn of the worker of
    a named slave that is CONNECTED, had an empty mailbox and is not due
    for a firmware reboot begins by sending the disconnect directive
    twice to the slave's listener. *)
Theorem disconnect_command_is_left_to_the_workers :
  forall (self : FCCommunicator) (D : list Z),
    (D !! CMD_I_TGT_CODE = Some TGT_ALL ->
     __handle_input_CMD_DISCONNECT D self
     = (inr tt, self,
        [EvSendto disconnectSocket (DToListener "X" (passcode self))
           (Some (defaultBroadcastIP self), Some (broadcastPort self))])) /\
    (D !! CMD_I_TGT_CODE = Some TGT_SELECTED ->
     TGT_SELECTED <> TGT_ALL ->
     forall good : list Z,
       Forall (fun i => is_Some (py_position (length (slaves self)) i)) good ->
       let named := omap (py_position (length (slaves self))) good in
       let outcome (r : exn + unit) :=
         exists l',
           __handle_input_CMD_DISCONNECT D self
           = (r, with_slaves l' self, []) /\
           length l' = length (slaves self) /\
           (forall p sl,
              slaves self !! p = Some sl ->
              l' !! p
              = Some (Nat.iter (times_named p named)
                        (setMOSI MOSI_DISCONNECT) sl)) /\
           (forall p sl sl' env more l q,
              slaves self !! p = Some sl ->
              l' !! p = Some sl' ->
              p ∈ named ->
              getStatus sl = SS_CONNECTED ->
              mosi sl = [] ->
              ~ flash_pending self sl ->
              exists d w' t,
                _slaveRoutine (with_slaves l' self) env more (mkW sl' l q)
                = (inr tt, w', d :: d :: t) /\
                is_disconnect_directive d = true) in
       (drop CMD_I_TGT_OFFSET D = good -> outcome (inr tt)) /\
       (forall bad rest,
          drop CMD_I_TGT_OFFSET D = good ++ bad :: rest ->
          py_position (length (slaves self)) bad = None ->
          outcome (inl IndexError))).
Proof.
  intros self D. split.
  - intros HD. unfold __handle_input_CMD_DISCONNECT, getitem. rewrite HD.
    munfold. mred. by destruct self.
  - intros HD Hne good Hgood named outcome.
    destruct (disconnect_selected_loop good 0 self Hgood)
      as (l' & Hrun & Hlen & Hl').
    fold named in Hl'.
    assert (forall args,
              drop CMD_I_TGT_OFFSET D = args ->
              __handle_input_CMD_DISCONNECT D self
              = for_each_from 0 args
                  (fun _ index_ => queue_disconnect index_) self) as Hcmd.
    { intros args <-. unfold __handle_input_CMD_DISCONNECT, getitem.
      rewrite HD. munfold. mred.
      by destruct (for_each_from 0 (drop CMD_I_TGT_OFFSET D) _ self)
        as [[r0 s0] t0]. }
    assert (forall p sl sl' env more l q,
              slaves self !! p = Some sl ->
              l' !! p = Some sl' ->
              p ∈ named ->
              getStatus sl = SS_CONNECTED ->
              mosi sl = [] ->
              ~ flash_pending self sl ->
              exists d w' t,
                _slaveRoutine (with_slaves l' self) env more (mkW sl' l q)
                = (inr tt, w', d :: d :: t) /\
                is_disconnect_directive d = true) as Hworker.
    { intros p sl sl' env more l q Hsl Hsl' Hin Hst Hmosi Hflash.
      rewrite (Hl' p sl Hsl) in Hsl'. injection Hsl' as <-.
      destruct (queued_disconnects (times_named p named) sl
                  (times_named_pos _ _ Hin) Hmosi)
        as (Hst' & Hver' & qs & Hq).
      apply (worker_sends_disconnect_directive _ _ _ _ _ _ qs).
      - by rewrite Hst'.
      - unfold flash_pending in *. cbn. by rewrite Hver'.
      - exact Hq. }
    split.
    + intros Hargs. exists l'. by rewrite (Hcmd _ Hargs).
    + intros bad rest Hargs Hbad. exists l'.
      rewrite (Hcmd _ Hargs), for_each_from_app.
      rewrite (bind_run _ _ _ _ _ _ Hrun). cbn [for_each_from].
      set (s1 := with_slaves l' self).
      assert (queue_disconnect bad s1 = (inl IndexError, s1, [])) as Hraise.
      { unfold queue_disconnect.
        rewrite (bind_run _ _ s1 s1 s1 [] eq_refl).
        assert (length (slaves s1) = length (slaves self)) as -> by exact Hlen.
        by rewrite Hbad. }
      rewrite (bind_raise _ _ _ _ _ _ Hraise).
      by repeat split.
Qed.

Lemma sendReboot_run self sl :
  sendReboot (Some sl) self = (inr tt, self, [reboot_datagram self sl]).
Proof.
  unfold sendReboot, reboot_datagram, try_except.
  rewrite (bind_run _ _ self self self [] eq_refl).
  by destruct (getIP sl).
Qed.

Lemma reboot_at_run self i n sl :
  py_position (length (slaves self)) i = Some n ->
  slaves self !! n = Some sl ->
  reboot_at i self = (inr tt, self, [reboot_datagram self sl]).
Proof.
  intros Hpos Hsl. unfold reboot_at.
  rewrite (bind_run _ _ self self self [] eq_refl). rewrite Hpos.
  unfold or_raise. rewrite (bind_run _ _ self n self [] eq_refl).
  unfold getitem, or_raise. rewrite Hsl.
  rewrite (bind_run _ _ self sl self [] eq_refl).
  by rewrite sendReboot_run.
Qed.

Lemma reboot_selected_loop self good targets : forall c,
  Forall2 (fun i sl =>
             exists p, py_position (length (slaves self)) i = Some p /\
                       slaves self !! p = Some sl) good targets ->
  for_each_from c good (fun _ index_ => reboot_at index_) self
  = (inr tt, self, map (reboot_datagram self) targets).
Proof.
  intros c H. revert c.
  induction H as [|i sl good targets (p & Hp & Hsl) _ IH]; intros c; [done|].
  cbn [for_each_from map].
  rewrite (bind_run _ _ _ _ _ _ (reboot_at_run _ _ _ _ Hp Hsl)).
  by rewrite IH.
Qed.

(** X17. The REBOOT command never changes the communicator.  For all
    slaves it broadcasts one ['R|passcode'].  For selected slaves it
    sends one datagram per index, in order (Python indices, negative
    ones from the end): ['R|passcode'] to the slave's own address when
    it has one, ['r|passcode|MAC'] to the broadcast address otherwise;
    at the first index outside the registry it raises [IndexError],
    after the datagrams of the indices before it. *)
Theorem reboot_command_sends_one_datagram_per_target :
  forall (self : FCCommunicator) (D : list Z),
    (D !! CMD_I_TGT_CODE = Some TGT_ALL ->
     __handle_input_CMD_REBOOT D self
     = (inr tt, self,
        [EvSendto rebootSocket (DToListener "R" (passcode self))
           (Some (defaultBroadcastIP self), Some (broadcastPort self))])) /\
    (D !! CMD_I_TGT_CODE = Some TGT_SELECTED ->
     TGT_SELECTED <> TGT_ALL ->
     forall (good : list Z) (targets : list FCSlave),
       Forall2 (fun i sl =>
                  exists p, py_position (length (slaves self)) i = Some p /\
                            slaves self !! p = Some sl) good targets ->
       (drop CMD_I_TGT_OFFSET D = good ->
        __handle_input_CMD_REBOOT D self
        = (inr tt, self, map (reboot_datagram self) targets)) /\
       (forall bad rest,
          drop CMD_I_TGT_OFFSET D = good ++ bad :: rest ->
          py_position (length (slaves self)) bad = None ->
          __handle_input_CMD_REBOOT D self
          = (inl IndexError, self, map (reboot_datagram self) targets))).
Proof.
  intros self D. split.
  - intros HD. unfold __handle_input_CMD_REBOOT, getitem. rewrite HD.
    munfold. mred. by destruct self.
  - intros HD Hne good targets Hgood.
    assert (forall args,
              drop CMD_I_TGT_OFFSET D = args ->
              __handle_input_CMD_REBOOT D self
              = for_each_from 0 args (fun _ index_ => reboot_at index_) self)
      as Hcmd.
    { intros args <-. unfold __handle_input_CMD_REBOOT, getitem.
      rewrite HD. munfold. mred.
      by destruct (for_each_from 0 (drop CMD_I_TGT_OFFSET D) _ self)
        as [[r0 s0] t0]. }
    split.
    + intros Hargs. rewrite (Hcmd _ Hargs).
      by apply reboot_selected_loop.
    + intros bad rest Hargs Hbad.
      rewrite (Hcmd _ Hargs), for_each_from_app.
      rewrite (bind_run _ _ _ _ _ _ (reboot_selected_loop _ _ _ 0 Hgood)).
      cbn [for_each_from].
      assert (reboot_at bad self = (inl IndexError, self, [])) as Hraise.
      { unfold reboot_at.
        rewrite (bind_run _ _ self self self [] eq_refl).
        by rewrite Hbad. }
      rewrite (bind_raise _ _ _ _ _ _ Hraise).
      by rewrite app_nil_r.
Qed.

End MoreProperties.

(** ** The performance monitor *)

Section MonitorProperties.
Context `{PF : PyFloat}.

Lemma py_suffix_length {A} (n : nat) (l : list A) :
  length (py_suffix n l) = Nat.min n (length l).
Proof. unfold py_suffix. rewrite length_drop. lia. Qed.

Lemma py_suffix_short {A} (n : nat) (l : list A) :
  (length l <= n)%nat -> py_suffix n l = l.
Proof.
  intros H. unfold py_suffix.
  replace (length l - n)%nat with 0%nat by lia. done.
Qed.

Lemma py_suffix_app {A} (n : nat) (l1 l2 : list A) :
  py_suffix n (py_suffix n l1 ++ l2) = py_suffix n (l1 ++ l2).
Proof.
  unfold py_suffix. rewrite !length_app, length_drop.
  destruct (decide (length l1 <= n)%nat) as [Hle|Hgt].
  - replace (length l1 - n)%nat with 0%nat by lia.
    by rewrite drop_0, Nat.sub_0_r.
  - assert (l1 ++ l2
            = take (length l1 - n) l1 ++ (drop (length l1 - n) l1 ++ l2))
      as -> by (by rewrite app_assoc, take_drop).
    rewrite (drop_app_ge (take _ _)) by (rewrite length_take; lia).
    rewrite length_take. f_equal. lia.
Qed.

Lemma kind_insert (m : gmap string metric) (k key : string) (v : metric) :
  kind (Some v) = kind (m !! k) ->
  kind (<[k := v]> m !! key) = kind (m !! key).
Proof.
  intros Hk. destruct (decide (k = key)) as [->|Hne].
  - by rewrite lookup_insert_eq.
  - by rewrite lookup_insert_ne.
Qed.

Lemma well_formed_insert (self : FCPerformanceMonitor) k v :
  well_formed self ->
  kind (Some v) = kind (_metrics self !! k) ->
  well_formed (with_metrics (fun m => <[k := v]> m) self).
Proof.
  intros Hwf Hk key. cbn. rewrite kind_insert by done. apply Hwf.
Qed.

Lemma well_formed_new : well_formed new_FCPerformanceMonitor.
Proof.
  intros key. unfold declared_kind.
  destruct (decide (key ∈ timing_keys)) as [Ht|Ht].
  { unfold timing_keys in Ht. set_unfold.
    destruct Ht as [->|[->|[->|[->|[->|[]]]]]]; by vm_compute. }
  destruct (decide (key ∈ counter_keys)) as [Hc|Hc].
  { unfold counter_keys in Hc. set_unfold.
    destruct Hc as [->|[->|[]]]; by vm_compute. }
  unfold new_FCPerformanceMonitor. cbn [_metrics].
  rewrite not_elem_of_list_to_map_1; [done|].
  unfold timing_keys, counter_keys in *. cbn. set_solver.
Qed.

Lemma well_formed_list (self : FCPerformanceMonitor) (key : string) :
  well_formed self -> key ∈ timing_keys ->
  exists values, _metrics self !! key = Some (MList values).
Proof.
  intros Hwf Hin. specialize (Hwf key). unfold declared_kind in Hwf.
  rewrite decide_True in Hwf by done.
  destruct (_metrics self !! key) as [[vs|n]|]; try done. by exists vs.
Qed.

Lemma well_formed_count (self : FCPerformanceMonitor) (key : string) :
  well_formed self -> key ∈ counter_keys ->
  exists n, _metrics self !! key = Some (MCount n).
Proof.
  intros Hwf Hin. specialize (Hwf key). unfold declared_kind in Hwf.
  rewrite decide_False in Hwf
    by (unfold timing_keys, counter_keys in *; set_solver).
  rewrite decide_True in Hwf by done.
  destruct (_metrics self !! key) as [[vs|n]|]; try done. by exists n.
Qed.

Lemma well_formed_counter_keys (self : FCPerformanceMonitor) key n :
  well_formed self -> _metrics self !! key = Some (MCount n) ->
  key ∈ counter_keys.
Proof.
  intros Hwf Hk. specialize (Hwf key). rewrite Hk in Hwf.
  unfold declared_kind in Hwf.
  destruct (decide (key ∈ timing_keys)); [done|].
  by destruct (decide (key ∈ counter_keys)).
Qed.

Lemma well_formed_append key x self self' :
  well_formed self -> append_sample key x self = Some self' ->
  well_formed self'.
Proof.
  unfold append_sample. intros Hwf H.
  destruct (_metrics self !! key) as [[vs|n]|] eqn:Hk; simplify_eq.
  apply well_formed_insert; [done|by rewrite Hk].
Qed.

Lemma well_formed_limit key self self' :
  well_formed self -> limit_samples key self = Some self' ->
  well_formed self'.
Proof.
  unfold limit_samples. intros Hwf H.
  destruct (_metrics self !! key) as [[vs|n]|] eqn:Hk; simplify_eq.
  destruct (100 <? length vs)%nat; simplify_eq; [|done].
  apply well_formed_insert; [done|by rewrite Hk].
Qed.

Lemma well_formed_step (c : monitor_call) (self : FCPerformanceMonitor) :
  well_formed self -> well_formed (monitor_step c self).2.
Proof.
  intros Hwf. destruct c as [op now|op now| | |cpu mem| | |]; cbn.
  - unfold start_timing. by destruct (_enabled self).
  - unfold end_timing. destruct (_enabled self); [|done].
    destruct (_start_times self !! op); [|done].
    destruct (_metrics self !! op) as [[vs|n]|] eqn:Hk; cbn; try done.
    intros key. cbn. rewrite kind_insert by (by rewrite Hk). apply Hwf.
  - unfold record_message, increment. destruct (_enabled self); [|done].
    destruct (_metrics self !! _) as [[vs|n]|] eqn:Hk; cbn; try done.
    apply well_formed_insert; [done|by rewrite Hk].
  - unfold record_error, increment. destruct (_enabled self); [|done].
    destruct (_metrics self !! _) as [[vs|n]|] eqn:Hk; cbn; try done.
    apply well_formed_insert; [done|by rewrite Hk].
  - unfold record_system_metrics. destruct (_enabled self); [|done].
    destruct cpu as [cpu|]; [|done].
    destruct (append_sample _ cpu self) as [self1|] eqn:H1; [|done].
    pose proof (well_formed_append _ _ _ _ Hwf H1) as Hwf1.
    destruct mem as [mem|]; [|done].
    destruct (append_sample _ mem self1) as [self2|] eqn:H2; [|done].
    pose proof (well_formed_append _ _ _ _ Hwf1 H2) as Hwf2.
    destruct (limit_samples _ self2) as [self3|] eqn:H3; [|done].
    pose proof (well_formed_limit _ _ _ Hwf2 H3) as Hwf3.
    destruct (limit_samples _ self3) as [self4|] eqn:H4; [|done].
    exact (well_formed_limit _ _ _ Hwf3 H4).
  - intros key. cbn. rewrite lookup_fmap.
    specialize (Hwf key).
    by destruct (_metrics self !! key) as [[vs|n]|].
  - done.
  - done.
Qed.

Lemma monitor_run_snoc calls c (self : FCPerformanceMonitor) :
  monitor_run (calls ++ [c]) self
  = (monitor_step c (monitor_run calls self)).2.
Proof. unfold monitor_run. by rewrite foldl_app. Qed.

Lemma monitor_run_app calls1 calls2 (self : FCPerformanceMonitor) :
  monitor_run (calls1 ++ calls2) self
  = monitor_run calls2 (monitor_run calls1 self).
Proof. unfold monitor_run. by rewrite foldl_app. Qed.

Lemma well_formed_run calls (self : FCPerformanceMonitor) :
  well_formed self -> well_formed (monitor_run calls self).
Proof.
  revert self. induction calls as [|c calls IH]; intros self Hwf; [done|].
  cbn. apply IH. by apply well_formed_step.
Qed.

(** X18. From construction on, whatever methods of the monitor are
    called, [_metrics] keeps its seven keys, five lists and two
    counters, and a call returns without an exception, with one
    exception: [end_timing] under the name of a counter ([error_count]
    or [total_messages]) raises [AttributeError] and changes nothing,
    which happens when that name was passed to [start_timing] before. *)
Theorem monitor_raises_only_on_timed_counter :
  forall (calls : list monitor_call) (c : monitor_call),
    let self := monitor_run calls new_FCPerformanceMonitor in
    well_formed self /\
    ((monitor_step c self).1 = None \/
     exists operation now,
       c = EndTiming operation now /\
       operation ∈ counter_keys /\
       is_Some (_start_times self !! operation) /\
       monitor_step c self = (Some (Other AttributeError), self)) /\
    (forall t0 t1,
       _enabled self = true ->
       end_timing "error_count" t1 (start_timing "error_count" t0 self)
       = (Some (Other AttributeError),
          start_timing "error_count" t0 self)).
Proof.
  intros calls c self.
  assert (well_formed self) as Hwf
    by apply well_formed_run, well_formed_new.
  split; [exact Hwf|]. split.
  - destruct c as [op now|op now| | |cpu mem| | |]; cbn; try by left.
    + unfold end_timing. destruct (_enabled self); [|by left].
      destruct (_start_times self !! op) eqn:Hs; [|by left].
      destruct (_metrics self !! op) as [[vs|n]|] eqn:Hk; try by left.
      right. exists op, now. rewrite Hs. repeat split; try done.
      by eapply well_formed_counter_keys.
    + unfold record_message, increment. destruct (_enabled self); [|by left].
      destruct (well_formed_count self "total_messages" Hwf) as [n ->];
        [unfold counter_keys; set_solver|]. by left.
    + unfold record_error, increment. destruct (_enabled self); [|by left].
      destruct (well_formed_count self "error_count" Hwf) as [n ->];
        [unfold counter_keys; set_solver|]. by left.
  - intros t0 t1 Hen. unfold end_timing, start_timing. rewrite Hen. cbn.
    rewrite Hen, lookup_insert_eq.
    destruct (well_formed_count self "error_count" Hwf) as [n ->];
      [unfold counter_keys; set_solver|]. done.
Qed.

Lemma py_suffix_cond {A} (n : nat) (l : list A) :
  (if (n <? length l)%nat then py_suffix n l else l) = py_suffix n l.
Proof.
  destruct (n <? length l)%nat eqn:H; [done|].
  apply Nat.ltb_ge in H. by rewrite py_suffix_short.
Qed.

Lemma samples_insert (self : FCPerformanceMonitor) k key v :
  samples key (with_metrics (fun m => <[k := v]> m) self)
  = if decide (k = key)
    then match v with MList values => values | MCount _ => [] end
    else samples key self.
Proof.
  unfold samples. cbn. destruct (decide (k = key)) as [->|Hne].
  - by rewrite lookup_insert_eq.
  - by rewrite lookup_insert_ne.
Qed.

Lemma samples_lookup (self : FCPerformanceMonitor) key values :
  _metrics self !! key = Some (MList values) -> samples key self = values.
Proof. unfold samples. by intros ->. Qed.

(** What a full sample does to a well-formed monitor. *)
Lemma record_system_metrics_full (self : FCPerformanceMonitor) cpu memory key :
  well_formed self -> _enabled self = true ->
  samples key (record_system_metrics (Some cpu) (Some memory) self)
  = if decide (key = "thread_cpu_usage")
    then py_suffix 100 (samples key self ++ [cpu])
    else if decide (key = "memory_usage")
    then py_suffix 100 (samples key self ++ [memory])
    else samples key self.
Proof.
  intros Hwf Hen.
  destruct (well_formed_list self "thread_cpu_usage" Hwf) as [vc Hc];
    [unfold timing_keys; set_solver|].
  destruct (well_formed_list self "memory_usage" Hwf) as [vm Hm];
    [unfold timing_keys; set_solver|].
  set (self1 := with_metrics
                  (fun m => <["thread_cpu_usage" := MList (vc ++ [cpu])]> m)
                  self).
  assert (append_sample "thread_cpu_usage" cpu self = Some self1) as H1
    by (unfold append_sample; by rewrite Hc).
  set (self2 := with_metrics
                  (fun m => <["memory_usage" := MList (vm ++ [memory])]> m)
                  self1).
  assert (append_sample "memory_usage" memory self1 = Some self2) as H2.
  { unfold append_sample. cbn. rewrite lookup_insert_ne by done.
    by rewrite Hm. }
  unfold record_system_metrics. rewrite Hen, H1, H2.
  set (self3 :=
         if (100 <? length (vc ++ [cpu]))%nat
         then with_metrics
                (fun m =>
                   <["thread_cpu_usage" := MList (py_suffix 100 (vc ++ [cpu]))]>
                     m) self2
         else self2).
  assert (limit_samples "thread_cpu_usage" self2 = Some self3) as H3.
  { unfold limit_samples, self2, self1. cbn [_metrics with_metrics].
    rewrite lookup_insert_ne by done.
    rewrite lookup_insert_eq. subst self3.
    by destruct (100 <? length (vc ++ [cpu]))%nat. }
  rewrite H3.
  assert (_metrics self3 !! "memory_usage" = Some (MList (vm ++ [memory])))
    as Hm3.
  { subst self3 self2 self1.
    destruct (100 <? length (vc ++ [cpu]))%nat; cbn [_metrics with_metrics].
    - rewrite lookup_insert_ne by done. by rewrite lookup_insert_eq.
    - by rewrite lookup_insert_eq. }
  assert (samples key self3
          = if decide (key = "thread_cpu_usage")
            then py_suffix 100 (vc ++ [cpu])
            else if decide (key = "memory_usage") then vm ++ [memory]
            else samples key self) as Hs3.
  { subst self3. destruct (100 <? length (vc ++ [cpu]))%nat eqn:Hl.
    - rewrite samples_insert.
      destruct (decide (key = "thread_cpu_usage")) as [->|Hnc].
      + by rewrite decide_True.
      + rewrite decide_False by done. subst self2. rewrite samples_insert.
        destruct (decide (key = "memory_usage")) as [->|Hnm].
        * by rewrite decide_True.
        * rewrite decide_False by done. subst self1. rewrite samples_insert.
          by rewrite decide_False.
    - apply Nat.ltb_ge in Hl. subst self2 self1. rewrite !samples_insert.
      destruct (decide (key = "thread_cpu_usage")) as [->|Hnc].
      + rewrite decide_False by done. rewrite decide_True by done.
        by rewrite py_suffix_short.
      + destruct (decide (key = "memory_usage")) as [->|Hnm].
        * by rewrite decide_True.
        * by rewrite !decide_False by done. }
  unfold limit_samples. rewrite Hm3.
  assert (samples key
            (if (100 <? length (vm ++ [memory]))%nat
             then with_metrics
                    (fun m =>
                       <["memory_usage"
                         := MList (py_suffix 100 (vm ++ [memory]))]> m) self3
             else self3)
          = if decide (key = "memory_usage")
            then py_suffix 100 (vm ++ [memory])
            else samples key self3) as Hs4.
  { destruct (100 <? length (vm ++ [memory]))%nat eqn:Hl.
    - rewrite samples_insert.
      destruct (decide (key = "memory_usage")) as [->|Hnm].
      + by rewrite decide_True.
      + by rewrite decide_False.
    - apply Nat.ltb_ge in Hl.
      destruct (decide (key = "memory_usage")) as [->|Hnm]; [|done].
      rewrite (samples_lookup _ _ _ Hm3). by rewrite py_suffix_short. }
  destruct (100 <? length (vm ++ [memory]))%nat; rewrite Hs4, Hs3;
    (destruct (decide (key = "thread_cpu_usage")) as [->|Hnc];
     [ rewrite decide_False by done; by rewrite (samples_lookup _ _ _ Hc)
     | destruct (decide (key = "memory_usage")) as [->|Hnm]; [|done];
       by rewrite (samples_lookup _ _ _ Hm) ]).
Qed.

(** What a CPU reading alone does to a well-formed monitor. *)
Lemma record_system_metrics_half (self : FCPerformanceMonitor) cpu key :
  well_formed self -> _enabled self = true ->
  samples key (record_system_metrics (Some cpu) None self)
  = if decide (key = "thread_cpu_usage")
    then samples key self ++ [cpu]
    else samples key self.
Proof.
  intros Hwf Hen.
  destruct (well_formed_list self "thread_cpu_usage" Hwf) as [vc Hc];
    [unfold timing_keys; set_solver|].
  unfold record_system_metrics. rewrite Hen.
  unfold append_sample. rewrite Hc. rewrite samples_insert.
  destruct (decide (key = "thread_cpu_usage")) as [->|Hnc].
  - rewrite decide_True by done. by rewrite (samples_lookup _ _ _ Hc).
  - by rewrite decide_False by done.
Qed.

(** The list under a key after one call, in terms of the list before. *)
Lemma samples_step (c : monitor_call) (self : FCPerformanceMonitor) key :
  well_formed self ->
  let after := samples key (monitor_step c self).2 in
  after = samples key self \/
  after = [] \/
  (exists now d,
     c = EndTiming key now /\
     after = py_suffix 1000 (samples key self ++ [d])) \/
  (exists x,
     key ∈ sampled_keys /\ half_sample c = false /\
     after = py_suffix 100 (samples key self ++ [x])) \/
  (exists x,
     key = "thread_cpu_usage" /\ half_sample c = true /\
     after = samples key self ++ [x]).
Proof.
  intros Hwf after. subst after.
  destruct c as [op now|op now| | |cpu mem| | |]; cbn.
  - left. unfold start_timing. by destruct (_enabled self).
  - unfold end_timing. destruct (_enabled self); [|by left].
    destruct (_start_times self !! op) as [start|]; [|by left].
    destruct (_metrics self !! op) as [[vs|n]|] eqn:Hk; cbn [snd];
      try by left.
    change (samples key (with_start_times ?f ?s)) with (samples key s).
    rewrite samples_insert.
    destruct (decide (op = key)) as [->|Hne]; [|by left].
    right; right; left. exists now, (float_sub now start).
    split; [done|].
    rewrite (samples_lookup _ _ _ Hk). apply py_suffix_cond.
  - unfold record_message, increment. destruct (_enabled self); [|by left].
    destruct (_metrics self !! _) as [[vs|n]|] eqn:Hk; cbn; try by left.
    rewrite samples_insert. destruct (decide (_ = key)) as [<-|Hne];
      [|by left]. left. unfold samples. by rewrite Hk.
  - unfold record_error, increment. destruct (_enabled self); [|by left].
    destruct (_metrics self !! _) as [[vs|n]|] eqn:Hk; cbn; try by left.
    rewrite samples_insert. destruct (decide (_ = key)) as [<-|Hne];
      [|by left]. left. unfold samples. by rewrite Hk.
  - destruct (_enabled self) eqn:Hen;
      [|left; unfold record_system_metrics; by rewrite Hen].
    destruct cpu as [cpu|];
      [|left; unfold record_system_metrics; by rewrite Hen].
    destruct mem as [mem|].
    + rewrite record_system_metrics_full by done.
      destruct (decide (key = "thread_cpu_usage")) as [->|Hnc].
      { right; right; right; left. exists cpu.
        split; [unfold sampled_keys; set_solver|]. done. }
      destruct (decide (key = "memory_usage")) as [->|Hnm]; [|by left].
      right; right; right; left. exists mem.
      split; [unfold sampled_keys; set_solver|]. done.
    + rewrite record_system_metrics_half by done.
      destruct (decide (key = "thread_cpu_usage")) as [->|Hnc]; [|by left].
      right; right; right; right. by exists cpu.
  - right; left. unfold samples. cbn. rewrite lookup_fmap.
    by destruct (_metrics self !! key) as [[vs|n]|].
  - by left.
  - by left.
Qed.

Lemma samples_new key : samples key new_FCPerformanceMonitor = [].
Proof.
  pose proof (well_formed_new key) as H. unfold samples.
  destruct (_metrics new_FCPerformanceMonitor !! key) as [[vs|n]|] eqn:Hk;
    try done.
  assert (key ∈ timing_keys) as Hin.
  { unfold declared_kind in H. cbn in H.
    destruct (decide (key ∈ timing_keys)); [done|].
    by destruct (decide (key ∈ counter_keys)). }
  unfold timing_keys in Hin. set_unfold.
  destruct Hin as [->|[->|[->|[->|[->|[]]]]]];
    vm_compute in Hk; by simplify_eq.
Qed.

(** An invariant on the length of one list, kept by the calls that
    satisfy [allowed]. *)
Lemma samples_bound_run (allowed : monitor_call -> bool) key (bound : nat) :
  (forall c (self : FCPerformanceMonitor),
     allowed c = true -> well_formed self ->
     (length (samples key self) <= bound)%nat ->
     (length (samples key (monitor_step c self).2) <= bound)%nat) ->
  forall calls (self : FCPerformanceMonitor),
    forallb allowed calls = true -> well_formed self ->
    (length (samples key self) <= bound)%nat ->
    (length (samples key (monitor_run calls self)) <= bound)%nat.
Proof.
  intros Hstep calls. induction calls as [|c calls IH]; intros self Hall Hwf Hb;
    [done|].
  cbn in Hall. apply andb_true_iff in Hall as [Hc Hall]. cbn.
  apply IH; [done|by apply well_formed_step|by apply Hstep].
Qed.

(** X19. The lists of the monitor stay bounded: from construction on,
    whatever is called, every list except [thread_cpu_usage] holds at
    most 1000 entries, and so does [thread_cpu_usage] unless a memory
    reading raised after a CPU reading; when no time is recorded under
    the two sampled names, [memory_usage] holds at most 100 entries,
    and [thread_cpu_usage] too unless a memory reading raised.  The
    exception is real: each CPU reading followed by a memory reading
    that raises adds an entry to [thread_cpu_usage] that nothing
    removes. *)
Theorem monitor_histories_are_bounded :
  forall (calls : list monitor_call),
    let self := monitor_run calls new_FCPerformanceMonitor in
    (forall key, key <> "thread_cpu_usage" ->
       (length (samples key self) <= 1000)%nat) /\
    (forallb (fun c => negb (half_sample c)) calls = true ->
       (length (samples "thread_cpu_usage" self) <= 1000)%nat) /\
    (forallb (fun c => negb (times_sampled_key c)) calls = true ->
       (length (samples "memory_usage" self) <= 100)%nat /\
       (forallb (fun c => negb (half_sample c)) calls = true ->
          (length (samples "thread_cpu_usage" self) <= 100)%nat)) /\
    (forall (n : nat) (cpu : pyfloat),
       length (samples "thread_cpu_usage"
                 (monitor_run
                    (replicate n (RecordSystemMetrics (Some cpu) None))
                    self))
       = (length (samples "thread_cpu_usage" self)
          + (if _enabled self then n else 0))%nat).
Proof.
  intros calls self.
  assert (well_formed self) as Hwf
    by apply well_formed_run, well_formed_new.
  assert (forall (b : nat) (l : list pyfloat) x,
            (length (py_suffix b (l ++ [x])) <= b)%nat) as Hsuf.
  { intros b l x. rewrite py_suffix_length. lia. }
  split; [|split; [|split]].
  - intros key Hkey. subst self.
    apply (samples_bound_run (fun _ => true));
      [|clear; by induction calls|apply well_formed_new
       |rewrite samples_new; cbn; lia].
    intros c s _ Hs Hb.
    destruct (samples_step c s key Hs)
      as [->|[->|[(now & d & _ & ->)|[(x & _ & _ & ->)|(x & ? & _)]]]];
      [done|cbn; lia|apply Hsuf| |done].
    etrans; [apply Hsuf|lia].
  - intros Hall. subst self.
    apply (samples_bound_run (fun c => negb (half_sample c)));
      [|done|apply well_formed_new|rewrite samples_new; cbn; lia].
    intros c s Hc Hs Hb.
    destruct (samples_step c s "thread_cpu_usage" Hs)
      as [->|[->|[(now & d & _ & ->)|[(x & _ & _ & ->)|(x & _ & Hh & _)]]]];
      [done|cbn; lia|apply Hsuf| |by rewrite Hh in Hc].
    etrans; [apply Hsuf|lia].
  - intros Hall. split.
    + subst self.
      apply (samples_bound_run (fun c => negb (times_sampled_key c)));
        [|done|apply well_formed_new|rewrite samples_new; cbn; lia].
      intros c s Hc Hs Hb.
      destruct (samples_step c s "memory_usage" Hs)
        as [->|[->|[(now & d & -> & _)|[(x & _ & _ & ->)|(x & ? & _)]]]];
        [done|cbn; lia|by vm_compute in Hc|apply Hsuf|done].
    + intros Hall2. subst self.
      apply (samples_bound_run
               (fun c => negb (times_sampled_key c) && negb (half_sample c)));
        [| |apply well_formed_new|rewrite samples_new; cbn; lia].
      * intros c s Hc Hs Hb. apply andb_true_iff in Hc as [Hc1 Hc2].
        destruct (samples_step c s "thread_cpu_usage" Hs)
          as [->|[->|[(now & d & -> & _)|[(x & _ & _ & ->)|(x & _ & Hh & _)]]]];
          [done|cbn; lia|by vm_compute in Hc1|apply Hsuf
          |by rewrite Hh in Hc2].
      * clear Hwf. induction calls as [|c calls IH]; [done|].
        cbn in *. apply andb_true_iff in Hall as [-> Hall].
        apply andb_true_iff in Hall2 as [-> Hall2]. by apply IH.
  - intros n cpu. clear Hsuf. revert Hwf. generalize self. clear self.
    induction n as [|n IH]; intros self Hwf.
    { cbn. destruct (_enabled self); lia. }
    cbn [replicate monitor_run foldl].
    change (foldl _ ?s ?l) with (monitor_run l s).
    rewrite IH by (by apply well_formed_step). cbn [monitor_step snd].
    destruct (_enabled self) eqn:Hen.
    + rewrite record_system_metrics_half by done.
      rewrite decide_True by done. rewrite length_app. cbn.
      unfold record_system_metrics. rewrite Hen.
      destruct (append_sample _ _ _) as [s1|] eqn:H1.
      * unfold append_sample in H1.
        destruct (_metrics self !! _) as [[?|?]|]; simplify_eq.
        cbn. rewrite Hen. lia.
      * rewrite Hen. lia.
    + unfold record_system_metrics. rewrite Hen. cbv iota. rewrite Hen. lia.
Qed.
(** One timed operation on an enabled monitor. *)
Lemma timed_once (self : FCPerformanceMonitor) operation t0 t1 :
  _enabled self = true ->
  kind (_metrics self !! operation) <> KCount ->
  let after := (end_timing operation t1 (start_timing operation t0 self)).2 in
  (forall values,
     _metrics self !! operation = Some (MList values) ->
     _metrics after
     = <[operation := MList (py_suffix 1000 (values ++ [float_sub t1 t0]))]>
         (_metrics self)) /\
  (_metrics self !! operation = None -> _metrics after = _metrics self) /\
  _start_times after = delete operation (_start_times self) /\
  _enabled after = true.
Proof.
  intros Hen Hkind after. subst after. unfold start_timing, end_timing.
  rewrite Hen. cbn [_enabled _start_times _metrics with_start_times].
  rewrite Hen, lookup_insert_eq.
  destruct (_metrics self !! operation) as [[vs|n]|] eqn:Hk;
    cbn [snd _enabled _start_times _metrics with_start_times with_metrics];
    [| done |]; rewrite delete_insert_eq; repeat split; try done.
  intros values [= <-]. by rewrite py_suffix_cond.
Qed.

Lemma timed_cons operation p clock (self : FCPerformanceMonitor) :
  monitor_run (timed operation (p :: clock)) self
  = monitor_run (timed operation clock)
      (end_timing operation p.2 (start_timing operation p.1 self)).2.
Proof. done. Qed.

Lemma timed_run (operation : string) (clock : list (pyfloat * pyfloat)) :
  forall (self : FCPerformanceMonitor),
    _enabled self = true ->
    kind (_metrics self !! operation) <> KCount ->
    clock <> [] ->
    let after := monitor_run (timed operation clock) self in
    let durations := map (fun p => float_sub p.2 p.1) clock in
    (forall values,
       _metrics self !! operation = Some (MList values) ->
       _metrics after
       = <[operation := MList (py_suffix 1000 (values ++ durations))]>
           (_metrics self)) /\
    (_metrics self !! operation = None -> _metrics after = _metrics self) /\
    _start_times after = delete operation (_start_times self) /\
    _enabled after = true.
Proof.
  induction clock as [|p clock IH]; intros self Hen Hkind Hne; [done|].
  intros after durations. subst after durations. rewrite timed_cons.
  destruct (timed_once self operation p.1 p.2 Hen Hkind)
    as (Hl & Hn & Hs & He).
  set (self1 := (end_timing operation p.2 (start_timing operation p.1 self)).2)
    in *.
  destruct clock as [|q clock]; [by cbn|].
  assert (kind (_metrics self1 !! operation) <> KCount) as Hkind1.
  { destruct (_metrics self !! operation) as [[vs|n]|] eqn:Hk; [|done|].
    - rewrite (Hl vs eq_refl), lookup_insert_eq. done.
    - rewrite (Hn eq_refl), Hk. done. }
  destruct (IH self1 He Hkind1 ltac:(done)) as (Hl' & Hn' & Hs' & He').
  repeat split.
  - intros values Hv. rewrite (Hl' (py_suffix 1000 (values ++ [float_sub p.2 p.1]))).
    + rewrite (Hl values Hv), insert_insert_eq.
      rewrite py_suffix_app. by rewrite <- app_assoc.
    + by rewrite (Hl values Hv), lookup_insert_eq.
  - intros Hnone. rewrite Hn'; [by apply Hn|]. by rewrite (Hn Hnone).
  - rewrite Hs', Hs. by rewrite delete_delete_eq.
  - done.
Qed.

(** X20. Timing on a monitor that is enabled, in any state reached
    from construction: after a sequence of [start_timing(name)] ...
    [end_timing(name)] pairs under a name that is not one of the two
    counters, the list under a name of the five lists holds the last
    1000 of its old entries followed by the durations (end minus start)
    in order; under any other name (as [communicator_init], which the
    communicator times) the durations are dropped and [_metrics] is
    unchanged.  No other key changes, no start time is left pending
    under the name, and a further [end_timing] does nothing. *)
Theorem timed_operations_keep_latest_durations :
  forall (calls : list monitor_call) (operation : string)
         (clock : list (pyfloat * pyfloat)),
    let self := monitor_run calls new_FCPerformanceMonitor in
    let after := monitor_run (timed operation clock) self in
    let durations := map (fun p => float_sub p.2 p.1) clock in
    _enabled self = true ->
    operation ∉ counter_keys ->
    clock <> [] ->
    samples operation after
    = (if decide (operation ∈ timing_keys)
       then py_suffix 1000 (samples operation self ++ durations)
       else []) /\
    (operation ∉ timing_keys -> _metrics after = _metrics self) /\
    (forall key, key <> operation ->
       _metrics after !! key = _metrics self !! key) /\
    _start_times after = delete operation (_start_times self) /\
    (forall now, end_timing operation now after = (None, after)).
Proof.
  intros calls operation clock self after durations Hen Hop Hne.
  assert (well_formed self) as Hwf
    by apply well_formed_run, well_formed_new.
  assert (kind (_metrics self !! operation) <> KCount) as Hkind.
  { rewrite (Hwf operation). unfold declared_kind.
    destruct (decide (operation ∈ timing_keys)); [done|].
    by rewrite decide_False. }
  destruct (timed_run operation clock self Hen Hkind Hne)
    as (Hl & Hn & Hs & He).
  fold after in Hl, Hn, Hs, He. fold durations in Hl.
  pose proof (Hwf operation) as Hd. unfold declared_kind in Hd.
  destruct (decide (operation ∈ timing_keys)) as [Ht|Ht].
  - destruct (_metrics self !! operation) as [[vs|n]|] eqn:Hk; try done.
    specialize (Hl vs eq_refl).
    split; [|split; [done|split; [|split]]].
    + unfold samples at 1. rewrite Hl, lookup_insert_eq.
      by rewrite (samples_lookup _ _ _ Hk).
    + intros key Hkey. rewrite Hl. by rewrite lookup_insert_ne.
    + done.
    + intros now. unfold end_timing. rewrite He, Hs.
      by rewrite lookup_delete_eq.
  - rewrite decide_False in Hd by done.
    destruct (_metrics self !! operation) as [[vs|n]|] eqn:Hk; try done.
    specialize (Hn eq_refl).
    split; [|split; [done|split; [|split]]].
    + unfold samples. by rewrite Hn, Hk.
    + intros key Hkey. by rewrite Hn.
    + done.
    + intros now. unfold end_timing. rewrite He, Hs.
      by rewrite lookup_delete_eq.
Qed.

(** X21. [reset_metrics] on a monitor in any state reached from
    construction: afterwards [get_performance_stats] returns the two
    counters at zero and nothing else, every list is empty, and the
    pending start times and the enabled flag are as before, so that an
    operation whose timing started before the reset is recorded as the
    only entry of its list when it ends. *)
Theorem reset_leaves_only_zero_counters :
  forall (calls : list monitor_call),
    let self := monitor_run calls new_FCPerformanceMonitor in
    get_performance_stats (reset_metrics self)
    = <["error_count" := Value 0]> {["total_messages" := Value 0]} /\
    (forall key, samples key (reset_metrics self) = []) /\
    _start_times (reset_metrics self) = _start_times self /\
    _enabled (reset_metrics self) = _enabled self /\
    (forall key t0 t1,
       _enabled self = true -> key ∈ timing_keys ->
       samples key
         (end_timing key t1 (reset_metrics (start_timing key t0 self))).2
       = [float_sub t1 t0]).
Proof.
  intros calls self.
  assert (well_formed self) as Hwf
    by apply well_formed_run, well_formed_new.
  split; [|split; [|split; [done|split; [done|]]]].
  - apply map_eq. intros key. unfold get_performance_stats, reset_metrics.
    cbn [_metrics with_metrics]. rewrite lookup_omap, lookup_fmap.
    pose proof (Hwf key) as Hd. unfold declared_kind in Hd.
    destruct (decide (key ∈ timing_keys)) as [Ht|Ht].
    { destruct (_metrics self !! key) as [[vs|n]|]; try done. cbn.
      unfold timing_keys in Ht. set_unfold.
      destruct Ht as [->|[->|[->|[->|[->|[]]]]]]; by vm_compute. }
    destruct (decide (key ∈ counter_keys)) as [Hc|Hc].
    { destruct (_metrics self !! key) as [[vs|n]|]; try done. cbn.
      unfold counter_keys in Hc. set_unfold.
      destruct Hc as [->|[->|[]]]; by vm_compute. }
    destruct (_metrics self !! key) as [[vs|n]|]; try done. cbn.
    unfold counter_keys in Hc. set_unfold.
    rewrite lookup_insert_ne by naive_solver.
    rewrite lookup_singleton_ne by naive_solver. done.
  - intros key. unfold samples, reset_metrics. cbn [_metrics with_metrics].
    rewrite lookup_fmap. by destruct (_metrics self !! key) as [[vs|n]|].
  - intros key t0 t1 Hen Ht.
    destruct (well_formed_list self key Hwf Ht) as [vs Hk].
    unfold end_timing, reset_metrics, start_timing. rewrite Hen.
    cbn [_enabled _start_times _metrics with_start_times with_metrics].
    rewrite Hen, lookup_insert_eq, lookup_fmap, Hk. cbn [fmap option_fmap option_map].
    cbn [snd]. change (samples key (with_start_times ?f ?s)) with (samples key s).
    rewrite samples_insert, decide_True by done. done.
Qed.

End MonitorProperties.

(** ** The error-recovery manager *)

Section ManagerProperties.
Import error_recovery.
Context `{PF : PyFloat}.

Lemma sleeps_app (t1 t2 : list effect) :
  sleeps (t1 ++ t2) = sleeps t1 ++ sleeps t2.
Proof. unfold sleeps. apply omap_app. Qed.

Lemma same_settings_refl (self : ErrorRecoveryManager) :
  same_settings self self.
Proof. by repeat split. Qed.

Lemma same_settings_trans (s1 s2 s3 : ErrorRecoveryManager) :
  same_settings s1 s2 -> same_settings s2 s3 -> same_settings s1 s3.
Proof.
  intros (?&?&?&?&?&?) (?&?&?&?&?&?). repeat split; congruence.
Qed.

Lemma should_log_frame error_type_ now (self : ErrorRecoveryManager) :
  same_settings self (_should_log error_type_ now self).2 /\
  objects (_should_log error_type_ now self).2 = objects self.
Proof.
  unfold _should_log. destruct (float_ge _ _); cbn; by repeat split.
Qed.

Lemma socket_timeout_tail_spec error_type_ now (self : ErrorRecoveryManager) :
  exists self' t,
    socket_timeout_tail error_type_ now self = (Returns true, self', t) /\
    same_settings self self' /\ objects self' = objects self /\
    sleeps t = [].
Proof.
  unfold socket_timeout_tail.
  pose proof (should_log_frame error_type_ now self) as [Hs Ho].
  destruct (_should_log error_type_ now self) as [log self1]. cbn in *.
  eexists _, _. split; [done|]. repeat split; try apply Hs; try done.
  by destruct log.
Qed.

(** A strategy changes nothing but [last_log_time] and never sleeps. *)
Lemma run_strategy_frame strategy_ env info (self : ErrorRecoveryManager) :
  let '(success, self', t) := run_strategy strategy_ env info self in
  same_settings self self' /\ objects self' = objects self /\ sleeps t = [].
Proof.
  destruct strategy_; cbn [run_strategy].
  - destruct (default false (truthy <$> context info !! "socket")).
    + destruct (env_optimize env) as [|formats].
      * destruct (socket_timeout_tail_spec (error_type info) (env_time env)
                    self) as (s' & t & -> & ? & ? & ?). done.
      * pose proof (should_log_frame (error_type info) (env_time env) self)
          as [Hs Ho].
        destruct (_should_log (error_type info) (env_time env) self)
          as [log self1]. cbn [snd] in Hs, Ho.
        destruct log; [|done]. destruct formats; [done|].
        destruct (socket_timeout_tail_spec (error_type info) (env_time env)
                    self1) as (s' & t & -> & ? & ? & ?).
        split; [by eapply same_settings_trans|]. split; [congruence|done].
    + destruct (socket_timeout_tail_spec (error_type info) (env_time env)
                  self) as (s' & t & -> & ? & ? & ?). done.
  - pose proof (should_log_frame (error_type info) (env_time env) self)
      as [Hs Ho].
    destruct (_should_log (error_type info) (env_time env) self)
      as [log self1]. cbn [snd] in Hs, Ho. by destruct log.
  - destruct (env_connectivity env); split; try apply same_settings_refl; done.
  - split; [apply same_settings_refl|done].
  - destruct (env_memory_percent env) as [m|];
      [destruct (float_gt m 90)|]; (split; [apply same_settings_refl|done]).
  - split; [apply same_settings_refl|done].
  - destruct (env_cpu_percent env) as [c|];
      [destruct (env_memory_percent env) as [m|];
       [destruct (float_gt c 90 || float_gt m 90)|]|];
      (split; [apply same_settings_refl|done]).
  - split; [apply same_settings_refl|done].
Qed.

(** Whatever the environment gives, [_attempt_recovery] leaves the
    history and the settings alone, creates no object and touches no
    object but its own. *)
Lemma attempt_recovery_frame envs : forall error_info
    (self : ErrorRecoveryManager),
  same_settings self (_attempt_recovery envs error_info self).1.2 /\
  length (objects (_attempt_recovery envs error_info self).1.2)
  = length (objects self) /\
  forall j, j <> error_info ->
    objects (_attempt_recovery envs error_info self).1.2 !! j
    = objects self !! j.
Proof.
  induction envs as [|env envs IH]; intros error_info self; cbn.
  - destruct (objects self !! error_info) as [info|];
      [|split; [apply same_settings_refl|done]].
    destruct (dict_get _ _) as [strategy_|];
      [|split; [apply same_settings_refl|done]].
    destruct (_ <=? _)%Z; [split; [apply same_settings_refl|done]|].
    destruct (retry_delay _ _); (split; [apply same_settings_refl|done]).
  - destruct (objects self !! error_info) as [info|];
      [|split; [apply same_settings_refl|done]].
    destruct (dict_get _ _) as [strategy_|];
      [|split; [apply same_settings_refl|done]].
    destruct (_ <=? _)%Z; [split; [apply same_settings_refl|done]|].
    destruct (retry_delay _ _); [|split; [apply same_settings_refl|done]].
    pose proof (run_strategy_frame strategy_ env info self) as Hf.
    destruct (run_strategy strategy_ env info self) as [[success self1] done_].
    destruct Hf as (Hs & Ho & _).
    destruct success as [[|]|]; cbn;
      try (split; [done|split; [congruence|intros; congruence]]).
    set (self2 := with_objects _ self1).
    specialize (IH error_info self2).
    destruct (_attempt_recovery envs error_info self2) as [[r self3] rest].
    cbn in *. destruct IH as (IH1 & IH2 & IH3). split; [|split].
    + eapply same_settings_trans; [exact Hs|].
      eapply same_settings_trans; [|exact IH1]. by repeat split.
    + rewrite IH2. subst self2. cbn. rewrite length_insert. congruence.
    + intros j Hj. rewrite IH3 by done. subst self2. cbn.
      rewrite list_lookup_insert_ne by done. congruence.
Qed.

Lemma retry_delay_default (self : ErrorRecoveryManager) (n : Z) :
  retry_delays self = [1; 2; 5]%Z ->
  retry_delay 0 self = Some [] /\
  retry_delay 1 self = Some [Sleep 1] /\
  retry_delay 2 self = Some [Sleep 2].
Proof. intros H. unfold retry_delay. rewrite H. by vm_compute. Qed.

(** [_attempt_recovery] with the settings of [__init__], on a record
    whose type has a strategy. *)
Lemma attempt_recovery_spec envs : forall error_info info strategy_
    (self : ErrorRecoveryManager),
  objects self !! error_info = Some info ->
  dict_get (error_type info) (recovery_strategies self) = Some strategy_ ->
  max_retry_attempts self = 3%Z ->
  retry_delays self = [1; 2; 5]%Z ->
  (0 <= retry_count info <= 3)%Z ->
  (3 - retry_count info <= Z.of_nat (length envs))%Z ->
  exists (result : bool) (self' : ErrorRecoveryManager) (t : list effect)
         (n : Z),
    _attempt_recovery envs error_info self = (Some result, self', t) /\
    objects self' = <[error_info := with_retry_count n info]> (objects self) /\
    (retry_count info <= n <= 3)%Z /\
    (result = true -> n < 3)%Z /\
    sleeps t
    = drop (Z.to_nat (retry_count info - 1)) (take (Z.to_nat n) [1; 2]%Z).
Proof.
  induction envs as [|env envs IH];
    intros error_info info strategy_ self Hobj Hstr Hmax Hdel Hrc Hlen.
  - cbn in Hlen. assert (retry_count info = 3%Z) as H3 by lia.
    cbn. rewrite Hobj, Hstr, Hmax, H3. cbn.
    exists false, self, [Log ERROR], 3%Z.
    split; [done|]. split.
    { rewrite list_insert_id; [done|]. rewrite Hobj. f_equal.
      destruct info. cbn in *. by subst. }
    split; [lia|]. split; [done|]. done.
  - cbn [_attempt_recovery]. rewrite Hobj, Hstr, Hmax.
    destruct (3 <=? retry_count info)%Z eqn:Hle.
    { apply Z.leb_le in Hle. assert (retry_count info = 3%Z) as H3 by lia.
      exists false, self, [Log ERROR], 3%Z.
      split; [done|]. split.
      { rewrite list_insert_id; [done|]. rewrite Hobj. f_equal.
        destruct info. cbn in *. by subst. }
      split; [lia|]. split; [done|]. by rewrite H3. }
    apply Z.leb_gt in Hle.
    destruct (retry_delay_default self 0 Hdel) as (Hd0 & Hd1 & Hd2).
    assert (exists slept,
              retry_delay (retry_count info) self = Some slept /\
              sleeps slept
              = drop (Z.to_nat (retry_count info - 1))
                  (take (Z.to_nat (retry_count info)) [1; 2]%Z) /\
              forall n, (retry_count info < n <= 3)%Z ->
                sleeps slept
                ++ drop (Z.to_nat (retry_count info))
                     (take (Z.to_nat n) [1; 2]%Z)
                = drop (Z.to_nat (retry_count info - 1))
                    (take (Z.to_nat n) [1; 2]%Z))
      as (slept & Hslept & Hsl & Hnext).
    { assert (retry_count info = 0 \/ retry_count info = 1
              \/ retry_count info = 2)%Z as [->|[->| ->]] by lia.
      - exists []. split; [done|]. split; [done|]. intros n Hn.
        by cbn.
      - exists [Sleep 1%Z]. split; [done|]. split; [done|]. intros n Hn.
        assert (n = 2 \/ n = 3)%Z as [->| ->] by lia; done.
      - exists [Sleep 2%Z]. split; [done|]. split; [done|]. intros n Hn.
        assert (n = 3)%Z as -> by lia. done. }
    rewrite Hslept.
    pose proof (run_strategy_frame strategy_ env info self) as Hf.
    destruct (run_strategy strategy_ env info self) as [[success self1] done_].
    destruct Hf as (Hs & Ho & Hns).
    destruct success as [[|]|].
    + exists true, self1, (slept ++ done_ ++ [Log INFO]), (retry_count info).
      split; [done|]. split.
      { rewrite Ho, list_insert_id; [done|]. rewrite Hobj. f_equal.
        by destruct info. }
      split; [lia|]. split; [lia|].
      rewrite !sleeps_app, Hns, Hsl. cbn. by rewrite app_nil_r.
    + set (info1 := with_retry_count (retry_count info + 1) info).
      set (self2 := with_objects (fun o => <[error_info := info1]> o) self1).
      destruct Hs as (Hs1 & Hs2 & Hs3 & Hs4 & Hs5 & Hs6).
      assert (error_info < length (objects self))%nat as Hlt
        by (by eapply lookup_lt_Some).
      destruct (IH error_info info1 strategy_ self2)
        as (result & self3 & rest & n & Hrun & Hobj3 & Hn & Hres & Hsl3).
      { subst self2. cbn. rewrite Ho. by apply list_lookup_insert_eq. }
      { subst self2 info1. cbn. by rewrite Hs2. }
      { subst self2. cbn. congruence. }
      { subst self2. cbn. congruence. }
      { subst info1. cbn. lia. }
      { subst info1. cbn. cbn in Hlen. lia. }
      rewrite Hrun.
      exists result, self3, (slept ++ done_ ++ [Log WARNING] ++ rest), n.
      split; [done|]. subst info1. cbn in Hn, Hsl3.
      split.
      { rewrite Hobj3. subst self2. cbn. rewrite Ho.
        by rewrite list_insert_insert_eq. }
      split; [lia|]. split; [done|].
      rewrite !sleeps_app, Hns, Hsl3. cbn.
      replace (retry_count info + 1 - 1)%Z with (retry_count info) by lia.
      apply Hnext. lia.
    + exists false, self1, (slept ++ done_ ++ [Log ERROR]), (retry_count info).
      split; [done|]. split.
      { rewrite Ho, list_insert_id; [done|]. rewrite Hobj. f_equal.
        by destruct info. }
      split; [lia|]. split; [done|].
      rewrite !sleeps_app, Hns, Hsl. cbn. by rewrite app_nil_r.
Qed.

Lemma manager_ok_frame (self self' : ErrorRecoveryManager) :
  manager_ok self -> same_settings self self' ->
  length (objects self') = length (objects self) ->
  manager_ok self'.
Proof.
  intros (H1 & H2 & H3 & H4 & H5 & H6) (E1 & E2 & E3 & E4 & E5 & E6) Hl.
  unfold manager_ok. rewrite E1, E3, E4, E5, Hl. done.
Qed.

(** The first half of [handle_error]: the record is created and
    appended, and the oldest reference is dropped from a full
    history. *)
Lemma handle_error_record error_type_ message_ context_ now traceback_ envs
    (self : ErrorRecoveryManager) :
  manager_ok self ->
  let info :=
    mkErrorInfo error_type_ message_ now (_determine_severity error_type_)
      (default ∅ context_) traceback_ 0 in
  exists recorded : ErrorRecoveryManager,
    objects recorded = objects self ++ [info] /\
    error_history recorded
    = (if decide (length (error_history self) < 1000)%nat
       then error_history self else tail (error_history self))
      ++ [length (objects self)] /\
    recovery_strategies recorded = recovery_strategies self /\
    manager_ok recorded /\
    handle_error error_type_ message_ context_ now traceback_ envs self
    = (let '(result, self', done_) :=
         _attempt_recovery envs (length (objects self)) recorded in
       (result, self', Log ERROR :: done_)).
Proof.
  intros (H1 & H2 & H3 & H4 & H5 & H6) info.
  unfold handle_error. fold info.
  set (self1 := with_error_history _ (with_objects _ self)).
  assert (max_history_size self1 = 1000%Z) as Hm1 by done.
  assert (error_history self1 = error_history self ++ [length (objects self)])
    as Hh1 by done.
  rewrite Hm1, Hh1, length_app. cbn [length].
  assert (Forall (fun i => (i < length (objects self ++ [info]))%nat)
            (error_history self ++ [length (objects self)])) as Hvalid.
  { rewrite length_app. cbn. apply Forall_app. split.
    - eapply Forall_impl; [exact H4|]. cbn. lia.
    - repeat constructor. lia. }
  assert (StronglySorted lt (error_history self ++ [length (objects self)]))
    as Hsorted.
  { clear -H4 H5. induction H5 as [|x l Hs IH Hx]; cbn.
    - repeat constructor.
    - apply Forall_cons in H4 as [Hx4 H4]. constructor; [by apply IH|].
      apply Forall_app. split; [done|]. repeat constructor. done. }
  destruct (decide (length (error_history self) < 1000)%nat) as [Hlt|Hge].
  - rewrite (proj2 (Z.ltb_ge _ _)) by lia.
    exists self1. split; [done|]. split; [done|]. split; [done|].
    split; [|done].
    unfold manager_ok. rewrite Hh1. repeat split; try done.
    rewrite length_app. cbn. lia.
  - rewrite (proj2 (Z.ltb_lt _ _)) by lia.
    exists (with_error_history (fun h => tail h) self1).
    split; [done|].
    assert (tail (error_history self ++ [length (objects self)])
            = tail (error_history self) ++ [length (objects self)]) as Ht.
    { destruct (error_history self); [cbn in Hge; lia|done]. }
    split; [cbn; by rewrite Ht|]. split; [done|]. split; [|done].
    unfold manager_ok. cbn [error_history with_error_history objects
                             with_objects max_history_size max_retry_attempts
                             retry_delays self1].
    repeat split; try done.
    + destruct (error_history self ++ [length (objects self)]); [done|].
      by apply Forall_cons in Hvalid as [_ ?].
    + destruct (error_history self ++ [length (objects self)]); [done|].
      by inversion Hsorted.
    + rewrite Ht, length_app. cbn.
      destruct (error_history self); cbn in *; lia.
Qed.

Lemma manager_ok_new : manager_ok new_ErrorRecoveryManager.
Proof. repeat split; cbn; try done; try constructor. lia. Qed.

Lemma manager_ok_step (c : manager_call) (self : ErrorRecoveryManager) :
  manager_ok self -> manager_ok (manager_step c self).
Proof.
  intros Hok. destruct c as [et msg ctx now tb envs|et s|]; cbn.
  - destruct (handle_error_record et msg ctx now tb envs self Hok)
      as (recorded & Ho & Hh & Hs & Hok' & ->).
    destruct (attempt_recovery_frame envs (length (objects self)) recorded)
      as (Hf1 & Hf2 & _).
    destruct (_attempt_recovery envs (length (objects self)) recorded)
      as [[r s'] d]. cbn in *. by eapply manager_ok_frame.
  - destruct Hok as (H1 & H2 & H3 & H4 & H5 & H6). by repeat split.
  - destruct Hok as (H1 & H2 & H3 & H4 & H5 & H6).
    repeat split; cbn; try done; try constructor. lia.
Qed.

Lemma manager_ok_run calls : forall (self : ErrorRecoveryManager),
  manager_ok self -> manager_ok (manager_run calls self).
Proof.
  induction calls as [|c calls IH]; intros self Hok; [done|].
  cbn. apply IH. by apply manager_ok_step.
Qed.

Lemma history_valid (self : ErrorRecoveryManager) :
  Forall (fun i => (i < length (objects self))%nat) (error_history self) ->
  length (history self) = length (error_history self).
Proof.
  unfold history. induction 1 as [|i l Hi Hl IH]; [done|].
  cbn. destruct (lookup_lt_is_Some_2 _ _ Hi) as [info ->]. cbn. by rewrite IH.
Qed.

Lemma history_snoc (self : ErrorRecoveryManager) h error_info info :
  error_history self = h ++ [error_info] ->
  objects self !! error_info = Some info ->
  last (history self) = Some info.
Proof.
  intros Hh Ho. unfold history. rewrite Hh, omap_app. cbn. rewrite Ho. cbn.
  by rewrite last_snoc.
Qed.

(** X22. The history of the manager, from construction on and whatever
    is called: it never holds more than 1000 references, they refer to
    records of the manager and are in the order in which the records
    were created, without repetition.  [handle_error] appends the
    reference of the record it creates, after dropping the oldest
    reference when the history already holds 1000, and leaves every
    older record as it was. *)
Theorem error_history_is_bounded_and_ordered :
  forall (calls : list manager_call),
    let self := manager_run calls new_ErrorRecoveryManager in
    (length (error_history self) <= 1000)%nat /\
    length (history self) = length (error_history self) /\
    StronglySorted lt (error_history self) /\
    (forall error_type_ message_ context_ now traceback_ envs,
       let self' :=
         (handle_error error_type_ message_ context_ now traceback_ envs
            self).1.2 in
       error_history self'
       = (if decide (length (error_history self) < 1000)%nat
          then error_history self else tail (error_history self))
         ++ [length (objects self)] /\
       length (objects self') = S (length (objects self)) /\
       (forall j, (j < length (objects self))%nat ->
          objects self' !! j = objects self !! j)).
Proof.
  intros calls self.
  assert (manager_ok self) as Hok by apply manager_ok_run, manager_ok_new.
  pose proof Hok as (H1 & H2 & H3 & H4 & H5 & H6).
  split; [done|]. split; [by apply history_valid|]. split; [done|].
  intros et msg ctx now tb envs self'. subst self'.
  destruct (handle_error_record et msg ctx now tb envs self Hok)
    as (recorded & Ho & Hh & Hs & Hok' & ->).
  destruct (attempt_recovery_frame envs (length (objects self)) recorded)
    as (Hf1 & Hf2 & Hf3).
  destruct (_attempt_recovery envs (length (objects self)) recorded)
    as [[r s'] d]. cbn in *.
  destruct Hf1 as (E1 & _). split; [congruence|]. split.
  - rewrite Hf2, Ho, length_app. cbn. lia.
  - intros j Hj. rewrite Hf3 by lia. rewrite Ho.
    by rewrite lookup_app_l.
Qed.

(** X23. [handle_error] on a manager in any state reached from
    construction, when the environment answers three strategy calls:
    it returns; the record it appended is the last of the history, with
    the given type, message and context, the severity of the table and
    a retry count between 0 and 3, below 3 when the result is [True];
    it slept 1 second before the second call of the strategy and 2
    seconds before the third, so that the retry count tells what was
    slept and the delay of 5 seconds is never used.  A type without a
    strategy gives [False] at once. *)
Theorem handle_error_retries_at_most_three_times :
  forall (calls : list manager_call) (error_type_ message_ : string)
         (context_ : option (gmap string value)) (now : pyfloat)
         (traceback_ : string) (envs : list strategy_env),
    let self := manager_run calls new_ErrorRecoveryManager in
    (3 <= length envs)%nat ->
    exists (result : bool) (self' : ErrorRecoveryManager) (t : list effect)
           (n : Z),
      handle_error error_type_ message_ context_ now traceback_ envs self
      = (Some result, self', t) /\
      last (history self')
      = Some (mkErrorInfo error_type_ message_ now
                (_determine_severity error_type_) (default ∅ context_)
                traceback_ n) /\
      (0 <= n <= 3)%Z /\
      (result = true -> n < 3)%Z /\
      sleeps t = take (Z.to_nat n) [1; 2]%Z /\
      (dict_get error_type_ (recovery_strategies self) = None ->
       result = false /\ n = 0%Z).
Proof.
  intros calls et msg ctx now tb envs self Hlen.
  assert (manager_ok self) as Hok by apply manager_ok_run, manager_ok_new.
  destruct (handle_error_record et msg ctx now tb envs self Hok)
    as (recorded & Ho & Hh & Hs & Hok' & ->).
  set (info := mkErrorInfo et msg now (_determine_severity et)
                 (default ∅ ctx) tb 0) in *.
  assert (objects recorded !! length (objects self) = Some info) as Hobj.
  { rewrite Ho. by apply list_lookup_middle. }
  destruct Hok' as (H1 & H2 & H3 & H4 & H5 & H6).
  destruct (dict_get et (recovery_strategies self)) as [strategy_|] eqn:Hstr.
  - destruct (attempt_recovery_spec envs (length (objects self)) info
                strategy_ recorded Hobj)
      as (result & self' & t & n & Hrun & Hobj' & Hn & Hres & Hsl);
      [by rewrite Hs|done|done|cbn; lia|cbn; lia|].
    pose proof (attempt_recovery_frame envs (length (objects self)) recorded)
      as (Hf1 & _). rewrite Hrun in *. cbn in Hf1, Hn, Hsl.
    exists result, self', (Log ERROR :: t), n.
    split; [done|]. split.
    { eapply history_snoc; [destruct Hf1 as [-> _]; exact Hh|].
      rewrite Hobj'. apply list_lookup_insert_eq.
      by eapply lookup_lt_Some. }
    split; [lia|]. split; [done|]. split; [|done].
    cbn. exact Hsl.
  - destruct envs as [|env envs]; [cbn in Hlen; lia|].
    cbn [_attempt_recovery]. rewrite Hobj. cbn [error_type info].
    rewrite Hs, Hstr.
    exists false, recorded, [Log ERROR; Log WARNING], 0%Z.
    split; [done|]. split; [by eapply history_snoc|]. done.
Qed.

(** The strategies that always succeed. *)
Lemma run_strategy_succeeds strategy_ env info (self : ErrorRecoveryManager) :
  strategy_ ∈ [_handle_socket_timeout; _handle_socket_error;
               _handle_communication_error] ->
  exists self' t, run_strategy strategy_ env info self = (Returns true, self', t).
Proof.
  intros Hin. set_unfold. destruct Hin as [->|[->|[->|[]]]]; cbn [run_strategy].
  - destruct (default false (truthy <$> context info !! "socket")).
    + destruct (env_optimize env) as [|formats].
      * destruct (socket_timeout_tail_spec (error_type info) (env_time env)
                    self) as (s' & t & -> & _). by eexists _, _.
      * destruct (_should_log (error_type info) (env_time env) self)
          as [log self1].
        destruct log; [|by eexists _, _]. destruct formats; [by eexists _, _|].
        destruct (socket_timeout_tail_spec (error_type info) (env_time env)
                    self1) as (s' & t & -> & _). by eexists _, _.
    + destruct (socket_timeout_tail_spec (error_type info) (env_time env)
                  self) as (s' & t & -> & _). by eexists _, _.
  - destruct (_should_log (error_type info) (env_time env) self)
      as [log self1]. by eexists _, _.
  - by eexists _, _.
Qed.

(** X24. What the receive path of the communicator gets from the
    manager.  On a manager in any state reached from construction,
    [handle_error] for a type whose strategy is
    [_handle_socket_timeout], [_handle_socket_error] or
    [_handle_communication_error] (the strategies of [socket_timeout],
    [socket_error] and [communication_error] unless others were
    registered) returns [True] after one call of the strategy, whatever
    the context and the environment are, and never sleeps; the record
    it leaves in the history has retry count 0, and the strategies are
    as before. *)
Theorem socket_errors_recover_at_once :
  forall (calls : list manager_call) (error_type_ message_ : string)
         (context_ : option (gmap string value)) (now : pyfloat)
         (traceback_ : string) (env : strategy_env)
         (envs : list strategy_env) (strategy_ : strategy),
    let self := manager_run calls new_ErrorRecoveryManager in
    dict_get error_type_ (recovery_strategies self) = Some strategy_ ->
    strategy_ ∈ [_handle_socket_timeout; _handle_socket_error;
                 _handle_communication_error] ->
    exists (self' : ErrorRecoveryManager) (t : list effect),
      handle_error error_type_ message_ context_ now traceback_
        (env :: envs) self
      = (Some true, self', t) /\
      sleeps t = [] /\
      last (history self')
      = Some (mkErrorInfo error_type_ message_ now
                (_determine_severity error_type_) (default ∅ context_)
                traceback_ 0) /\
      recovery_strategies self' = recovery_strategies self.
Proof.
  intros calls et msg ctx now tb env envs strategy_ self Hstr Hin.
  assert (manager_ok self) as Hok by apply manager_ok_run, manager_ok_new.
  destruct (handle_error_record et msg ctx now tb (env :: envs) self Hok)
    as (recorded & Ho & Hh & Hs & Hok' & ->).
  set (info := mkErrorInfo et msg now (_determine_severity et)
                 (default ∅ ctx) tb 0) in *.
  assert (objects recorded !! length (objects self) = Some info) as Hobj.
  { rewrite Ho. by apply list_lookup_middle. }
  pose proof Hok' as (H1 & H2 & H3 & H4 & H5 & H6).
  destruct (retry_delay_default recorded 0 H3) as (Hd0 & _).
  cbn [_attempt_recovery]. rewrite Hobj. cbn [error_type info retry_count].
  rewrite Hs, Hstr, H2. cbn [Z.leb Z.compare]. rewrite Hd0.
  pose proof (run_strategy_frame strategy_ env info recorded) as Hf.
  destruct (run_strategy_succeeds strategy_ env info recorded Hin)
    as (self' & t & Hrun).
  rewrite Hrun in *. destruct Hf as (Hf1 & Hf2 & Hf3).
  exists self', (Log ERROR :: [] ++ t ++ [Log INFO]).
  split; [done|]. split.
  { cbn. rewrite sleeps_app, Hf3. done. }
  split.
  { eapply history_snoc; [destruct Hf1 as [-> _]; exact Hh|].
    by rewrite Hf2. }
  destruct Hf1 as (E1 & E2 & _). congruence.
Qed.

(** One turn of [_attempt_recovery] in which the strategy returns
    [False]. *)
Lemma attempt_recovery_retry env envs error_info info strategy_ slept done_
    (self self1 : ErrorRecoveryManager) :
  objects self !! error_info = Some info ->
  dict_get (error_type info) (recovery_strategies self) = Some strategy_ ->
  (retry_count info < max_retry_attempts self)%Z ->
  retry_delay (retry_count info) self = Some slept ->
  run_strategy strategy_ env info self = (Returns false, self1, done_) ->
  _attempt_recovery (env :: envs) error_info self
  = (let '(result, self3, rest) :=
       _attempt_recovery envs error_info
         (with_objects
            (fun o =>
               <[error_info := with_retry_count (retry_count info + 1) info]> o)
            self1) in
     (result, self3, slept ++ done_ ++ [Log WARNING] ++ rest)).
Proof.
  intros Hobj Hstr Hlt Hdelay Hrun. cbn [_attempt_recovery].
  rewrite Hobj, Hstr, (proj2 (Z.leb_gt _ _) Hlt), Hdelay, Hrun. done.
Qed.

(** X25. A dead lock is never recovered.  On a manager in any state
    reached from construction, [handle_error] for a type whose strategy
    is [_handle_thread_deadlock] (the strategy of [thread_deadlock]
    unless another was registered) calls the strategy three times,
    sleeping 1 second and then 2 seconds in between, and returns
    [False]; the record it leaves in the history has retry count 3. *)
Theorem deadlock_recovery_always_fails :
  forall (calls : list manager_call) (error_type_ message_ : string)
         (context_ : option (gmap string value)) (now : pyfloat)
         (traceback_ : string) (envs : list strategy_env),
    let self := manager_run calls new_ErrorRecoveryManager in
    dict_get error_type_ (recovery_strategies self)
    = Some _handle_thread_deadlock ->
    (3 <= length envs)%nat ->
    exists self' : ErrorRecoveryManager,
      handle_error error_type_ message_ context_ now traceback_ envs self
      = (Some false, self',
         [Log ERROR;
          Log WARNING; Log WARNING;
          Sleep 1; Log WARNING; Log WARNING;
          Sleep 2; Log WARNING; Log WARNING;
          Log ERROR]) /\
      last (history self')
      = Some (mkErrorInfo error_type_ message_ now
                (_determine_severity error_type_) (default ∅ context_)
                traceback_ 3).
Proof.
  intros calls et msg ctx now tb envs self Hstr Hlen.
  assert (manager_ok self) as Hok by apply manager_ok_run, manager_ok_new.
  destruct (handle_error_record et msg ctx now tb envs self Hok)
    as (recorded & Ho & Hh & Hs & Hok' & ->).
  set (info := mkErrorInfo et msg now (_determine_severity et)
                 (default ∅ ctx) tb 0) in *.
  set (id := length (objects self)) in *.
  assert (objects recorded !! id = Some info) as Hobj.
  { rewrite Ho. by apply list_lookup_middle. }
  assert (id < length (objects recorded))%nat as Hid
    by (by eapply lookup_lt_Some).
  pose proof Hok' as (H1 & H2 & H3 & H4 & H5 & H6).
  destruct (retry_delay_default recorded 0 H3) as (Hd0 & Hd1 & Hd2).
  destruct envs as [|e1 [|e2 [|e3 envs]]]; try (cbn in Hlen; lia).
  set (at_count := fun n : Z =>
         with_objects (fun o => <[id := with_retry_count n info]> o) recorded).
  assert (forall n, objects (at_count n) !! id = Some (with_retry_count n info))
    as Hat by (intros n; by apply list_lookup_insert_eq).
  assert (forall n m,
            with_objects
              (fun o =>
                 <[id := with_retry_count m (with_retry_count n info)]> o)
              (at_count n)
            = at_count m) as Hnext.
  { intros n m. unfold at_count, with_objects. cbn.
    by rewrite list_insert_insert_eq. }
  rewrite (attempt_recovery_retry e1 _ id info _handle_thread_deadlock
             [] [Log WARNING] recorded recorded);
    [|done|by rewrite Hs|by rewrite H2|done|done].
  change (with_objects _ recorded) with (at_count (0 + 1)%Z).
  rewrite (attempt_recovery_retry e2 _ id (with_retry_count (0 + 1) info)
             _handle_thread_deadlock [Sleep 1] [Log WARNING]
             (at_count (0 + 1)%Z) (at_count (0 + 1)%Z));
    [|by apply Hat|by (cbn; rewrite Hs)|by (cbn; rewrite H2)|done|done].
  rewrite Hnext.
  rewrite (attempt_recovery_retry e3 _ id (with_retry_count (0 + 1 + 1) info)
             _handle_thread_deadlock [Sleep 2] [Log WARNING]
             (at_count (0 + 1 + 1)%Z) (at_count (0 + 1 + 1)%Z));
    [|by apply Hat|by (cbn; rewrite Hs)|by (cbn; rewrite H2)|done|done].
  rewrite Hnext.
  assert (forall self3,
            self3 = at_count 3%Z ->
            _attempt_recovery envs id self3
            = (Some false, at_count 3%Z, [Log ERROR])) as Hlast.
  { intros self3 ->.
    destruct envs; cbn [_attempt_recovery]; rewrite (Hat 3%Z);
      cbn [error_type info with_retry_count retry_count];
      change (recovery_strategies (at_count 3%Z))
        with (recovery_strategies recorded);
      change (max_retry_attempts (at_count 3%Z))
        with (max_retry_attempts recorded);
      rewrite Hs, Hstr, H2; done. }
  match goal with
  | |- context [_attempt_recovery envs id ?self3] =>
      rewrite (Hlast self3 eq_refl)
  end.
  exists (at_count 3%Z). split; [done|].
  eapply history_snoc; [exact Hh|]. apply Hat.
Qed.
Lemma count_of_cons test error l :
  count_of test (error :: l)
  = ((if test error then 1 else 0) + count_of test l)%Z.
Proof.
  unfold count_of. rewrite filter_cons.
  destruct (test error) eqn:Ht.
  - rewrite decide_True by done. cbn [length]. lia.
  - rewrite decide_False by (by intros ?). lia.
Qed.

Lemma count_of_nonneg test l : (0 <= count_of test l)%Z.
Proof. unfold count_of. lia. Qed.

(** A dictionary of counts after one more key was counted. *)
Lemma counted_insert (counts : gmap string Z) (key k : string) :
  default 0%Z
    (<[key := (default 0 (counts !! key) + 1)%Z]> counts !! k)
  = (default 0 (counts !! k) + (if bool_decide (key = k) then 1 else 0))%Z.
Proof.
  destruct (decide (key = k)) as [->|Hne].
  - rewrite lookup_insert_eq, bool_decide_eq_true_2 by done. done.
  - rewrite lookup_insert_ne, bool_decide_eq_false_2 by done. cbn. lia.
Qed.

(** The loop of [get_error_statistics]. *)
Lemma count_errors_spec now (l : list ErrorInfo) :
  forall ec sc (re : list (string * string * pyfloat * string)),
    (forall k v, ec !! k = Some v -> (0 < v)%Z) ->
    (forall k v, sc !! k = Some v -> (0 < v)%Z) ->
    exists ec' sc',
      foldl (count_error now) (ec, sc, re) l
      = (ec', sc',
         re ++ map recent_entry
                 (filter (fun error =>
                            float_lt (float_sub now (timestamp error)) 3600
                            = true) l)) /\
      (forall k v, ec' !! k = Some v -> (0 < v)%Z) /\
      (forall k v, sc' !! k = Some v -> (0 < v)%Z) /\
      (forall k,
         default 0%Z (ec' !! k)
         = (default 0 (ec !! k)
            + count_of (fun error => bool_decide (error_type error = k)) l)%Z) /\
      (forall k,
         default 0%Z (sc' !! k)
         = (default 0 (sc !! k)
            + count_of
                (fun error =>
                   bool_decide (severity_name (severity error) = k)) l)%Z).
Proof.
  induction l as [|error l IH]; intros ec sc re Hec Hsc.
  - exists ec, sc. cbn. rewrite app_nil_r. repeat split; try done.
    + intros k. unfold count_of. cbn. lia.
    + intros k. unfold count_of. cbn. lia.
  - cbn [foldl]. unfold count_error at 2.
    set (ec1 := <[error_type error := _]> ec).
    set (sc1 := <[severity_name (severity error) := _]> sc).
    assert (forall k v, ec1 !! k = Some v -> (0 < v)%Z) as Hec1.
    { intros k v. subst ec1. destruct (decide (error_type error = k)) as [<-|].
      - rewrite lookup_insert_eq. intros [= <-].
        destruct (ec !! error_type error) as [v0|] eqn:H0; cbn; [|lia].
        specialize (Hec _ _ H0). lia.
      - rewrite lookup_insert_ne by done. apply Hec. }
    assert (forall k v, sc1 !! k = Some v -> (0 < v)%Z) as Hsc1.
    { intros k v. subst sc1.
      destruct (decide (severity_name (severity error) = k)) as [<-|].
      - rewrite lookup_insert_eq. intros [= <-].
        destruct (sc !! severity_name (severity error)) as [v0|] eqn:H0; cbn;
          [|lia].
        specialize (Hsc _ _ H0). lia.
      - rewrite lookup_insert_ne by done. apply Hsc. }
    destruct (IH ec1 sc1
                (if float_lt (float_sub now (timestamp error)) 3600
                 then re ++ [recent_entry error] else re) Hec1 Hsc1)
      as (ec' & sc' & Hrun & Hec' & Hsc' & Hce & Hcs).
    exists ec', sc'. split.
    { unfold recent_entry in *. rewrite Hrun. f_equal.
      rewrite filter_cons.
      destruct (float_lt (float_sub now (timestamp error)) 3600) eqn:Hlt.
      - rewrite decide_True by done. cbn. by rewrite <- app_assoc.
      - rewrite decide_False by (by intros ?). done. }
    split; [done|]. split; [done|]. split.
    + intros k. rewrite Hce. subst ec1. rewrite counted_insert.
      rewrite count_of_cons. lia.
    + intros k. rewrite Hcs. subst sc1. rewrite counted_insert.
      rewrite count_of_cons. lia.
Qed.

Lemma counter_spec (counts : gmap string Z) (k : string) (n : Z) :
  (forall k v, counts !! k = Some v -> (0 < v)%Z) ->
  default 0%Z (counts !! k) = n ->
  counts !! k = counter n.
Proof.
  intros Hpos Hn. unfold counter.
  destruct (counts !! k) as [v|] eqn:Hk; cbn in Hn; subst.
  - specialize (Hpos _ _ Hk). by rewrite decide_False by lia.
  - done.
Qed.

(** X26. [get_error_statistics] on a manager in any state reached
    from construction.  It returns the empty dictionary exactly when
    the history is empty.  Otherwise [total_errors] is the length of
    the history, [error_counts] maps each error type to the number of
    records of that type and [severity_counts] each severity name to
    the number of records of that severity (a type or name without a
    record is not a key), [recent_errors] lists in history order the
    records less than 3600 seconds old, and [recovery_strategies] the
    registered types in registration order. *)
Theorem error_statistics_count_the_history :
  forall (calls : list manager_call) (now : pyfloat),
    let self := manager_run calls new_ErrorRecoveryManager in
    (get_error_statistics now self = None <-> history self = []) /\
    (forall st,
       get_error_statistics now self = Some st ->
       total_errors st = length (history self) /\
       (forall k,
          error_counts st !! k
          = counter
              (count_of (fun error => bool_decide (error_type error = k))
                 (history self))) /\
       (forall k,
          severity_counts st !! k
          = counter
              (count_of
                 (fun error =>
                    bool_decide (severity_name (severity error) = k))
                 (history self))) /\
       recent_errors st
       = map recent_entry
           (filter (fun error =>
                      float_lt (float_sub now (timestamp error)) 3600 = true)
              (history self)) /\
       strategies st = (recovery_strategies self).*1).
Proof.
  intros calls now self.
  assert (manager_ok self) as Hok by apply manager_ok_run, manager_ok_new.
  pose proof Hok as (H1 & H2 & H3 & H4 & H5 & H6).
  pose proof (history_valid self H4) as Hlen.
  destruct (count_errors_spec now (history self) ∅ ∅ [])
    as (ec & sc & Hrun & Hec & Hsc & Hce & Hcs);
    [by intros k v; rewrite lookup_empty..|].
  unfold get_error_statistics. split.
  - destruct (error_history self) eqn:Hh.
    + split; [|done]. intros _. by apply nil_length_inv.
    + rewrite Hrun. split; [done|]. intros Hnil. rewrite Hnil in Hlen. done.
  - intros st. destruct (error_history self) eqn:Hh; [done|].
    rewrite Hrun. intros [= <-]. cbn.
    split; [by rewrite Hlen|]. split.
    { intros k. apply counter_spec; [done|]. rewrite Hce.
      by rewrite lookup_empty. }
    split; [|done].
    intros k. apply counter_spec; [done|]. rewrite Hcs.
    by rewrite lookup_empty.
Qed.

End ManagerProperties.

(** * The further properties on concrete inputs *)

(** An announce with another passcode is dropped with a warning. *)
Lemma listener_ignores_foreign_datagrams_witness :
  exists t,
    _listenerRoutine test_foreign test_address test_listener_env test_self
    = (inr tt, test_self, t) /\
    (t = [EvPrint PW] \/
     exists e, t = [EvHandler handle_parsing_error (Some e); EvPrint PW]).
Proof.
  apply (listener_ignores_foreign_datagrams test_self test_foreign
           test_address test_listener_env).
  intros [_ (m0 & rest & Hsplit)]. vm_compute in Hsplit.
  discriminate Hsplit.
Defined.

(** The bootloader of the registered, CONNECTED slave says hello: the
    slave is marked UPDATING with the version of the bootloader. *)
Lemma bootloader_hello_marks_updating_witness :
  exists sl',
    _listenerRoutine test_bootloader test_address test_listener_env
      (test_registry SS_CONNECTED)
    = (inr tt, with_slaves [sl'] (test_registry SS_CONNECTED),
       [EvSendto listenerSocket (DToListener "L" "pw")
          (Some "10.0.0.2", Some 4000%Z);
        EvSlaveUpdate (getSlaveStateVector sl')]) /\
    getStatus sl' = SS_UPDATING /\
    getVersion sl' = Some "bl2".
Proof.
  destruct (bootloader_hello_marks_updating
              (test_registry SS_CONNECTED) test_bootloader "B" test_mac
              ["bl2"] test_address test_listener_env)
    as (Hknown & _).
  - reflexivity.
  - reflexivity.
  - reflexivity.
  - intros H. discriminate H.
  - destruct (Hknown 0%nat (test_slave SS_CONNECTED))
      as (Hrun & Hst & Hver & _).
    + vm_compute. reflexivity.
    + reflexivity.
    + reflexivity.
    + eexists. split; [exact Hrun|]. split; [exact Hst|exact Hver].
Defined.

(** During the update to v2 the announce of the v1 slave is answered
    with a reboot request, and its worker reboots and disconnects it. *)
Lemma firmware_update_reboots_other_versions_witness :
  _listenerRoutine test_announce test_address test_listener_env test_flashing
  = (inr tt, test_flashing,
     [EvSendto listenerSocket (DToListener "R" "pw")
        (Some "10.0.0.2", Some 4000%Z)]) /\
  exists w' t,
    _slaveRoutine test_flashing test_silent [] (test_worker SS_CONNECTED)
    = (inr tt, w', t) /\
    getStatus (slave w') = SS_DISCONNECTED.
Proof.
  destruct (firmware_update_reboots_other_versions
              test_flashing eq_refl) as (Hlistener & Hworker).
  split.
  - apply (Hlistener test_announce test_mac "v1" 5000%Z 5001%Z test_address
             test_listener_env 0%nat).
    + split; [reflexivity|].
      exists "A", "5000", "5001", []. repeat split; reflexivity.
    + unfold valid_port. lia.
    + unfold valid_port. lia.
    + reflexivity.
    + vm_compute. reflexivity.
    + intros H. discriminate H.
  - destruct (Hworker test_silent [] (test_worker SS_CONNECTED))
      as (Hrun & Hst & _).
    + reflexivity.
    + intros H. discriminate H.
    + reflexivity.
    + eexists _, _. split; [exact Hrun|exact Hst].
Defined.

(** The DISCONNECTED slave of the registry announces itself again and
    is KNOWN, at the address of the announce. *)
Lemma announce_readmits_registered_slave_witness :
  exists sl',
    _listenerRoutine test_announce test_address test_listener_env
      (test_registry SS_DISCONNECTED)
    = (inr tt, with_slaves [sl'] (test_registry SS_DISCONNECTED),
       [EvSlaveUpdate (getSlaveStateVector sl')]) /\
    getStatus sl' = SS_KNOWN /\
    ip sl' = Some "10.0.0.2".
Proof.
  destruct (announce_readmits_registered_slave
              (test_registry SS_DISCONNECTED) test_announce test_mac "v1"
              5000%Z 5001%Z test_address test_listener_env 0%nat
              (test_slave SS_DISCONNECTED))
    as (Hrun & Hst & Hip & _).
  - split; [reflexivity|].
    exists "A", "5000", "5001", []. repeat split; reflexivity.
  - unfold valid_port. lia.
  - unfold valid_port. lia.
  - reflexivity.
  - vm_compute. reflexivity.
  - reflexivity.
  - left. reflexivity.
  - intros [H _]. discriminate H.
  - reflexivity.
  - eexists. split; [exact Hrun|]. split; [exact Hst|exact Hip].
Defined.

(** A silent turn of the worker of a CONNECTED slave, far from the
    limit: the slave stays CONNECTED. *)
Lemma worker_disconnects_only_at_limit_witness :
  exists w' t,
    _slaveRoutine test_self test_silent [] (test_worker SS_CONNECTED)
    = (inr tt, w', t) /\
    getStatus (slave w') = SS_CONNECTED.
Proof.
  destruct (worker_disconnects_only_at_limit test_self test_silent []
              (test_worker SS_CONNECTED) eq_refl)
    as (w' & t & Hrun & [Hst|(_ & [[Hflag _]|[Hlimit _]])]).
  - by exists w', t.
  - discriminate Hflag.
  - vm_compute in Hlimit. exfalso. by apply Hlimit.
Defined.




(** The registry after one announce on the empty communicator: the MAC
    index finds the slave at its position. *)
Lemma registry_and_mac_index_agree_witness :
  registry_consistent
    (_listenerRoutine test_announce test_address test_listener_env
       test_self).1.2 /\
  registry_extends (slaves test_self)
    (slaves
       (_listenerRoutine test_announce test_address test_listener_env
          test_self).1.2).
Proof.
  destruct (registry_and_mac_index_agree test_self
              (_listenerRoutine test_announce test_address test_listener_env
                 test_self).1.2)
    as (Hcons & Hext & _).
  - exists []. split; reflexivity.
  - apply rtc_once.
    destruct (_listenerRoutine test_announce test_address test_listener_env
                test_self) as [[r self'] t] eqn:Hrun.
    exact (step_listener _ _ _ _ _ _ _ Hrun).
  - split; [exact Hcons|exact Hext].
Defined.

(** ADD for all slaves on the registry of one AVAILABLE slave. *)
Lemma add_all_promotes_available_slaves_witness :
  __handle_input_CMD_ADD (STD := test_standards) test_add_all (fun _ => true)
    (test_registry SS_AVAILABLE)
  = (inr tt,
     with_slaves (map promote (slaves (test_registry SS_AVAILABLE)))
       (test_registry SS_AVAILABLE),
     promotions (slaves (test_registry SS_AVAILABLE))).
Proof.
  destruct (add_all_promotes_available_slaves (STD := test_standards)
              (test_registry SS_AVAILABLE) test_add_all (fun _ => true))
    as (Hrun & _).
  - reflexivity.
  - intros k. reflexivity.
  - exact Hrun.
Defined.

(** ADD for the slaves 0 and 5 on the registry of one slave: slave 0 is
    added and index 5 raises. *)
Lemma add_selected_stops_at_bad_index_witness :
  exists l' t,
    __handle_input_CMD_ADD (STD := test_standards) test_add_selected
      (fun _ => true) (test_registry SS_AVAILABLE)
    = (inl IndexError, with_slaves l' (test_registry SS_AVAILABLE), t) /\
    l' !! 0%nat = Some (promote (test_slave SS_AVAILABLE)).
Proof.
  destruct (add_selected_stops_at_bad_index (STD := test_standards)
              (test_registry SS_AVAILABLE) test_add_selected (fun _ => true)
              [0%Z])
    as (_ & Hbad).
  - reflexivity.
  - intros H. discriminate H.
  - intros k. reflexivity.
  - repeat constructor. by eexists.
  - destruct (Hbad 5%Z [] eq_refl eq_refl) as (l' & t & Hrun & _ & Hl').
    exists l', t. split; [exact Hrun|].
    apply (Hl' 0%nat (test_slave SS_AVAILABLE) eq_refl).
Defined.


(** Two timed receive operations on a new monitor, of 3 and 5 seconds. *)
Lemma timed_operations_keep_latest_durations_witness :
  samples "message_receive_time"
    (monitor_run
       (timed (PF := test_floats) "message_receive_time"
          [(10, 13); (20, 25)]%Z)
       test_monitor)
  = [3; 5]%Z.
Proof.
  destruct (timed_operations_keep_latest_durations (PF := test_floats) []
              "message_receive_time" [(10, 13); (20, 25)]%Z)
    as (Hsamples & _).
  - reflexivity.
  - unfold counter_keys. intros H. set_unfold.
    destruct H as [H|[H|[]]]; discriminate H.
  - discriminate.
  - exact Hsamples.
Defined.

(** A network error without connectivity on a new manager: three calls
    of the strategy, 1 and 2 seconds of sleep, no recovery. *)
Lemma handle_error_retries_at_most_three_times_witness :
  exists self' t,
    error_recovery.handle_error (PF := test_floats) "network_error" "unreachable" None 50%Z ""
      [test_strategy_env; test_strategy_env; test_strategy_env] test_manager
    = (Some false, self', t) /\
    error_recovery.sleeps t = [1; 2]%Z.
Proof.
  destruct (handle_error_retries_at_most_three_times (PF := test_floats) []
              "network_error" "unreachable" None 50%Z ""
              [test_strategy_env; test_strategy_env; test_strategy_env])
    as (result & self' & t & n & Hrun & _ & _ & _ & Hsleeps & _).
  - cbn. lia.
  - assert ((error_recovery.handle_error (PF := test_floats) "network_error" "unreachable" None
               50%Z ""
               [test_strategy_env; test_strategy_env; test_strategy_env]
               test_manager).1.1 = Some false) as Hres
      by (vm_compute; reflexivity).
    assert (error_recovery.sleeps
              (error_recovery.handle_error (PF := test_floats) "network_error" "unreachable" None
                 50%Z ""
                 [test_strategy_env; test_strategy_env; test_strategy_env]
                 test_manager).2 = [1; 2]%Z) as Hsl
      by (vm_compute; reflexivity).
    change (error_recovery.manager_run [] error_recovery.new_ErrorRecoveryManager)
      with test_manager in Hrun.
    rewrite Hrun in Hres, Hsl. cbn in Hres. injection Hres as ->.
    exists self', t. split; [exact Hrun|exact Hsl].
Defined.

(** The time-out the receive path reports, with its context, on a new
    manager: recovered at once. *)
Lemma socket_errors_recover_at_once_witness :
  exists self' t,
    error_recovery.handle_error (PF := test_floats) "socket_timeout" "Socket timeout in receive"
      (Some test_context) 50%Z "" [test_strategy_env] test_manager
    = (Some true, self', t) /\
    error_recovery.sleeps t = [].
Proof.
  destruct (socket_errors_recover_at_once (PF := test_floats) []
              "socket_timeout" "Socket timeout in receive"
              (Some test_context) 50%Z "" test_strategy_env []
              error_recovery._handle_socket_timeout)
    as (self' & t & Hrun & Hsleeps & _).
  - reflexivity.
  - set_unfold. left. reflexivity.
  - exists self', t. split; [exact Hrun|exact Hsleeps].
Defined.

(** A dead lock reported to a new manager. *)
Lemma deadlock_recovery_always_fails_witness :
  exists self',
    (error_recovery.handle_error (PF := test_floats) "thread_deadlock" "lock held" None 50%Z ""
       [test_strategy_env; test_strategy_env; test_strategy_env]
       test_manager).1
    = (Some false, self') /\
    error_recovery.retry_count
      <$> last (error_recovery.history self') = Some 3%Z.
Proof.
  destruct (deadlock_recovery_always_fails (PF := test_floats) []
              "thread_deadlock" "lock held" None 50%Z ""
              [test_strategy_env; test_strategy_env; test_strategy_env])
    as (self' & Hrun & Hlast).
  - reflexivity.
  - cbn. lia.
  - exists self'.
    change (error_recovery.manager_run [] error_recovery.new_ErrorRecoveryManager)
      with test_manager in Hrun.
    rewrite Hrun. split; [reflexivity|]. rewrite Hlast. reflexivity.
Defined.
